(** * E-commerce A2A agents: tool dispatch, local fallbacks, delegation and
      task lifecycle

    A shallow embedding of the Python sources of the repository
    ([data/mock_data.py], [utils/models.py], [mcp_server/server.py],
    [agents/*/agent.py], [agents/*/executor.py],
    [agents/orchestrator/server.py] and the A2A helpers of [tests/]) and the
    properties the specification states about them, followed by further
    properties read off the code.

    Conventions of the embedding:
    - a Python [str] is the list of its Unicode code points ([str]);
      literals are written as UTF-8 text and decoded by [u];
    - a Python [float] is a binary64 primitive float, an [int] is a [Z];
    - a Python object held in a [dict[str, Any]] is a [pyval]; a dict keeps
      its insertion order as an association list;
    - code that can raise returns a [result]; the exceptions are instances of
      Python's [Exception] (the class every handler in the sources names);
    - the module-level lists of [mock_data] are a [Store] that the tool
      dispatchers take and give back; the event queue of a task is threaded
      through the executors, and the requests sent to the web-search provider
      are recorded next to a tool's result;
    - interpreter built-ins whose algorithm is not part of the repository
      ([str.lower], [round], [datetime.isoformat], [str()] of non-strings, the
      wall clock) are the fields of [PyRuntime]. *)

From Stdlib Require Import String Ascii List ZArith NArith Bool Lia.
From Stdlib Require Import Floats Sorted Permutation.
Import ListNotations.

Set Implicit Arguments.
Set Warnings "-inexact-float,-register-all".

(* ------------------------------------------------------------------------- *)
(** ** Python strings *)
(* ------------------------------------------------------------------------- *)

Definition str : Type := list N.

(** UTF-8 decoding of a sequence of bytes (well-formed input is assumed, as
    for a source file the interpreter accepted). *)
Fixpoint utf8_decode (bs : list N) : str :=
  match bs with
  | [] => []
  | b :: r =>
    if (b <? 128)%N then b :: utf8_decode r
    else if (b <? 224)%N then
      match r with
      | c1 :: r1 => ((b - 192) * 64 + (c1 - 128))%N :: utf8_decode r1
      | _ => []
      end
    else if (b <? 240)%N then
      match r with
      | c1 :: c2 :: r2 =>
        ((b - 224) * 4096 + (c1 - 128) * 64 + (c2 - 128))%N :: utf8_decode r2
      | _ => []
      end
    else
      match r with
      | c1 :: c2 :: c3 :: r3 =>
        ((b - 240) * 262144 + (c1 - 128) * 4096 + (c2 - 128) * 64 + (c3 - 128))%N
          :: utf8_decode r3
      | _ => []
      end
  end.

(** A string literal of the sources. *)
Definition u (s : string) : str :=
  utf8_decode (map N_of_ascii (list_ascii_of_string s)).

(** The double-quote character, for literals that contain one. *)
Definition dq : str := [34%N].

Fixpoint str_eqb (a b : str) : bool :=
  match a, b with
  | [], [] => true
  | x :: a', y :: b' => (x =? y)%N && str_eqb a' b'
  | _, _ => false
  end.

(** [s.startswith(p)] *)
Fixpoint starts_with (p s : str) : bool :=
  match p, s with
  | [], _ => true
  | x :: p', y :: s' => (x =? y)%N && starts_with p' s'
  | _ :: _, [] => false
  end.

(** [needle in hay] on strings: substring test. *)
Fixpoint py_in (needle hay : str) : bool :=
  starts_with needle hay ||
  match hay with
  | [] => false
  | _ :: t => py_in needle t
  end.

(** [s[:n]] for a non-negative constant [n]. *)
Definition str_prefix (n : nat) (s : str) : str := firstn n s.

(** [any(f(x) for x in l)] *)
Definition py_any {A} (f : A -> bool) (l : list A) : bool := existsb f l.

(* ------------------------------------------------------------------------- *)
(** ** Dates *)
(* ------------------------------------------------------------------------- *)

(** A naive [datetime]: microseconds since 0001-01-01T00:00:00. *)
Definition datetime : Type := Z.

Definition us_per_hour : Z := 3600 * 1000000.
Definition us_per_day : Z := 24 * us_per_hour.

(** [timedelta(days=d)], [timedelta(hours=h)] *)
Definition timedelta_days (d : Z) : Z := d * us_per_day.
Definition timedelta_hours (h : Z) : Z := h * us_per_hour.

Definition is_leap (y : Z) : bool :=
  ((y mod 4 =? 0) && (negb (y mod 100 =? 0) || (y mod 400 =? 0)))%Z.

Definition days_before_year (y : Z) : Z :=
  let p := (y - 1)%Z in (p * 365 + p / 4 - p / 100 + p / 400)%Z.

Definition days_in_month (y m : Z) : Z :=
  if (m =? 2)%Z then (if is_leap y then 29 else 28)%Z
  else if ((m =? 4) || (m =? 6) || (m =? 9) || (m =? 11))%Z then 30%Z
  else 31%Z.

Definition days_before_month (y m : Z) : Z :=
  fold_left (fun acc k => (acc + days_in_month y (Z.of_nat k))%Z)
            (seq 1 (Z.to_nat (m - 1))) 0%Z.

(** [datetime(y, m, d)] *)
Definition datetime_ymd (y m d : Z) : datetime :=
  ((days_before_year y + days_before_month y m + d - 1) * us_per_day)%Z.

(* ------------------------------------------------------------------------- *)
(** ** Python values, exceptions, results *)
(* ------------------------------------------------------------------------- *)

(** The objects that occur as tool arguments and tool results. *)
Inductive pyval : Type :=
| VNone
| VBool (b : bool)
| VInt (z : Z)
| VFloat (f : float)
| VStr (s : str)
| VList (l : list pyval)
| VDict (kv : list (str * pyval))
| VDatetime (t : datetime).

Definition pydict : Type := list (str * pyval).

(** Instances of [Exception].  The built-in ones are raised by the
    interpreter, the two server errors by the executors; [ExternalError]
    stands for an error raised by a collaborator (HTTP client, search
    provider, language model) and carries its [str()]. *)
Inductive exn : Type :=
| KeyError (key : str)
| TypeError
| AttributeError
| ValueError
| InvalidParamsError          (* ServerError(error=InvalidParamsError()) *)
| UnsupportedOperationError   (* ServerError(error=UnsupportedOperationError()) *)
| ExternalError (msg : str).

Inductive result (A : Type) : Type :=
| Ok (a : A)
| Raise (e : exn).
Arguments Ok {A} a.
Arguments Raise {A} e.

Definition bind {A B} (m : result A) (k : A -> result B) : result B :=
  match m with
  | Ok a => k a
  | Raise e => Raise e
  end.

(** [try: body except Exception as e: handler(e)] *)
Definition try_except {A} (body : result A) (handler : exn -> result A) : result A :=
  match body with
  | Ok a => Ok a
  | Raise e => handler e
  end.

Declare Scope py_scope.
Delimit Scope py_scope with py.
Notation "x <- m ;; k" := (bind m (fun x => k))
  (at level 61, m at next level, right associativity) : py_scope.
Notation "m ;;; k" := (bind m (fun _ => k))
  (at level 61, right associativity) : py_scope.
Open Scope py_scope.

(** The interpreter built-ins the sources call and the wall clock. *)
Class PyRuntime : Type := {
(** [s.lower()] *)
lower : str -> str;
(** [round(x, 1)] *)
round1 : float -> float;
(** [t.isoformat()] *)
isoformat : datetime -> str;
(** [str(v)] for an object that is not a string *)
repr_value : pyval -> str;
(** [str(e)] for an exception raised by the interpreter or the A2A server *)
builtin_message : exn -> str;
(** the successive readings of [datetime.utcnow()] while [data/mock_data.py]
    is imported, numbered in evaluation order *)
utcnow : nat -> datetime
}.

(** [str(e)] *)
Definition exc_str `{PyRuntime} (e : exn) : str :=
  match e with
  | ExternalError m => m
  | _ => builtin_message e
  end.

(** [f"{v}"] *)
Definition format_value `{PyRuntime} (v : pyval) : str :=
  match v with
  | VStr s => s
  | _ => repr_value v
  end.

(** Truth value of an object ([if v:], [not v]). *)
Definition truthy (v : pyval) : bool :=
  match v with
  | VNone => false
  | VBool b => b
  | VInt z => negb (z =? 0)%Z
  | VFloat f => negb (PrimFloat.eqb f 0%float)
  | VStr s => match s with [] => false | _ => true end
  | VList l => match l with [] => false | _ => true end
  | VDict kv => match kv with [] => false | _ => true end
  | VDatetime _ => true
  end.

(** [d.get(k)] as an option ([None] of the option is an absent key). *)
Fixpoint dict_lookup (k : str) (d : pydict) : option pyval :=
  match d with
  | [] => None
  | (k', v) :: d' => if str_eqb k k' then Some v else dict_lookup k d'
  end.

(** [d.get(k)] *)
Definition dict_get (k : str) (d : pydict) : pyval :=
  match dict_lookup k d with
  | Some v => v
  | None => VNone
  end.

(** [d.get(k, default)] *)
Definition dict_get_default (k : str) (default : pyval) (d : pydict) : pyval :=
  match dict_lookup k d with
  | Some v => v
  | None => default
  end.

(** [d[k]] *)
Definition dict_getitem (k : str) (d : pydict) : result pyval :=
  match dict_lookup k d with
  | Some v => Ok v
  | None => Raise (KeyError k)
  end.

(** [s == v] for a string [s] and any object [v]. *)
Definition str_eq_value (s : str) (v : pyval) : bool :=
  match v with
  | VStr s' => str_eqb s s'
  | _ => false
  end.

(** [x <= v] and [x >= v] for a float [x] and any object [v]: numbers compare
    by value (an [int] exactly, a [bool] as 0 or 1), anything else is a
    [TypeError]. *)
Definition float_compare_Z (x : float) (z : Z) : option comparison :=
  match Prim2SF x with
  | S754_nan => None
  | S754_infinity s => Some (if s then Lt else Gt)
  | S754_zero _ => Some (0 ?= z)%Z
  | S754_finite s m e =>
    let n := if s then Z.neg m else Z.pos m in
    Some (if (0 <=? e)%Z then (n * 2 ^ e ?= z)%Z else (n ?= z * 2 ^ (- e))%Z)
  end.

Definition value_as_number (v : pyval) : option (float + Z) :=
  match v with
  | VFloat f => Some (inl f)
  | VInt z => Some (inr z)
  | VBool b => Some (inr (if b then 1 else 0)%Z)
  | _ => None
  end.

Definition float_le_value (x : float) (v : pyval) : result bool :=
  match value_as_number v with
  | Some (inl f) => Ok (PrimFloat.leb x f)
  | Some (inr z) =>
    Ok (match float_compare_Z x z with Some Lt | Some Eq => true | _ => false end)
  | None => Raise TypeError
  end.

Definition float_ge_value (x : float) (v : pyval) : result bool :=
  match value_as_number v with
  | Some (inl f) => Ok (PrimFloat.leb f x)
  | Some (inr z) =>
    Ok (match float_compare_Z x z with Some Gt | Some Eq => true | _ => false end)
  | None => Raise TypeError
  end.

(** [[x for x in l if f(x)]] where the test can raise. *)
Fixpoint filter_r {A} (f : A -> result bool) (l : list A) : result (list A) :=
  match l with
  | [] => Ok []
  | x :: l' =>
    b <- f x ;;
    r <- filter_r f l' ;;
    Ok (if b then x :: r else r)
  end.

(** [next((x for x in l if f(x)), None)] where the test can raise. *)
Fixpoint find_r {A} (f : A -> result bool) (l : list A) : result (option A) :=
  match l with
  | [] => Ok None
  | x :: l' =>
    b <- f x ;;
    if b then Ok (Some x) else find_r f l'
  end.

(** [l[:n]] for an object [n] used as a slice bound. *)
Definition slice_to {A} (n : pyval) (l : list A) : result (list A) :=
  let upto (z : Z) :=
    if (0 <=? z)%Z then firstn (Z.to_nat z) l
    else firstn (Z.to_nat (Z.of_nat (length l) + z)) l in
  match n with
  | VNone => Ok l
  | VInt z => Ok (upto z)
  | VBool b => Ok (upto (if b then 1 else 0)%Z)
  | _ => Raise TypeError
  end.

Definition opt_str (o : option str) : pyval :=
  match o with Some s => VStr s | None => VNone end.

Definition opt_float (o : option float) : pyval :=
  match o with Some f => VFloat f | None => VNone end.

Definition VLen {A} (l : list A) : pyval := VInt (Z.of_nat (length l)).

(* ------------------------------------------------------------------------- *)
(** ** utils/models.py *)
(* ------------------------------------------------------------------------- *)

Module OrderStatus.
Inductive t : Type :=
| PENDING | CONFIRMED | PROCESSING | SHIPPED | DELIVERED | CANCELLED | REFUNDED.

Definition value (s : t) : str :=
  match s with
  | PENDING => u "pending"
  | CONFIRMED => u "confirmed"
  | PROCESSING => u "processing"
  | SHIPPED => u "shipped"
  | DELIVERED => u "delivered"
  | CANCELLED => u "cancelled"
  | REFUNDED => u "refunded"
  end.

Definition eqb (a b : t) : bool :=
  match a, b with
  | PENDING, PENDING | CONFIRMED, CONFIRMED | PROCESSING, PROCESSING
  | SHIPPED, SHIPPED | DELIVERED, DELIVERED | CANCELLED, CANCELLED
  | REFUNDED, REFUNDED => true
  | _, _ => false
  end.
End OrderStatus.

Module ProductCategory.
Inductive t : Type :=
| ELECTRONICS | CLOTHING | BOOKS | HOME | SPORTS | BEAUTY | TOYS | FOOD.

Definition members : list t :=
  [ELECTRONICS; CLOTHING; BOOKS; HOME; SPORTS; BEAUTY; TOYS; FOOD].

Definition value (c : t) : str :=
  match c with
  | ELECTRONICS => u "electronics"
  | CLOTHING => u "clothing"
  | BOOKS => u "books"
  | HOME => u "home"
  | SPORTS => u "sports"
  | BEAUTY => u "beauty"
  | TOYS => u "toys"
  | FOOD => u "food"
  end.

Definition eqb (a b : t) : bool :=
  match a, b with
  | ELECTRONICS, ELECTRONICS | CLOTHING, CLOTHING | BOOKS, BOOKS | HOME, HOME
  | SPORTS, SPORTS | BEAUTY, BEAUTY | TOYS, TOYS | FOOD, FOOD => true
  | _, _ => false
  end.

(** [ProductCategory(v)]: the member whose value is [v], else [ValueError]. *)
Definition of_value (v : pyval) : result t :=
  match find (fun c => str_eq_value (value c) v) members with
  | Some c => Ok c
  | None => Raise ValueError
  end.
End ProductCategory.

Module ProductReview.
Record t : Type := {
  reviewer_name : str;
  rating : float;
  comment : str;
  verified_purchase : bool;
  date : str
}.

Definition model_dump (r : t) : pyval :=
  VDict [ (u "reviewer_name", VStr (reviewer_name r));
          (u "rating", VFloat (rating r));
          (u "comment", VStr (comment r));
          (u "verified_purchase", VBool (verified_purchase r));
          (u "date", VStr (date r)) ].
End ProductReview.

Module Product.
Record t : Type := {
  id : str;
  name : str;
  description : str;
  category : ProductCategory.t;
  price : float;
  original_price : option float;
  stock : Z;
  brand : str;
  sku : str;
  rating : float;
  review_count : Z;
  reviews : list ProductReview.t;
  tags : list str;
  image_url : str;
  in_stock : bool;
  specifications : pydict
}.

Section WithRuntime.
Context `{PyRuntime}.

Definition discount_percentage (self : t) : option float :=
  match original_price self with
  | Some op =>
    if truthy (VFloat op) && PrimFloat.ltb (price self) op
    then Some (round1 ((1 - price self / op) * 100)%float)
    else None
  | None => None
  end.
End WithRuntime.

Definition model_dump (p : t) : pyval :=
  VDict [ (u "id", VStr (id p));
          (u "name", VStr (name p));
          (u "description", VStr (description p));
          (u "category", VStr (ProductCategory.value (category p)));
          (u "price", VFloat (price p));
          (u "original_price", opt_float (original_price p));
          (u "stock", VInt (stock p));
          (u "brand", VStr (brand p));
          (u "sku", VStr (sku p));
          (u "rating", VFloat (rating p));
          (u "review_count", VInt (review_count p));
          (u "reviews", VList (map ProductReview.model_dump (reviews p)));
          (u "tags", VList (map VStr (tags p)));
          (u "image_url", VStr (image_url p));
          (u "in_stock", VBool (in_stock p));
          (u "specifications", VDict (specifications p)) ].
End Product.

Module OrderItem.
Record t : Type := {
  product_id : str;
  product_name : str;
  quantity : Z;
  unit_price : float;
  total_price : float
}.
End OrderItem.

Module ShippingAddress.
Record t : Type := {
  full_name : str;
  street : str;
  city : str;
  state : str;
  postal_code : str;
  country : str
}.
End ShippingAddress.

Module TrackingEvent.
Record t : Type := {
  timestamp : datetime;
  status : str;
  location : str;
  description : str
}.
End TrackingEvent.

Module Order.
Record t : Type := {
  id : str;
  customer_id : str;
  customer_email : str;
  items : list OrderItem.t;
  status : OrderStatus.t;
  shipping_address : ShippingAddress.t;
  subtotal : float;
  shipping_cost : float;
  tax : float;
  total : float;
  created_at : datetime;
  updated_at : datetime;
  tracking_number : option str;
  tracking_events : list TrackingEvent.t;
  estimated_delivery : option str;
  notes : option str
}.
End Order.

Module Customer.
Record t : Type := {
  id : str;
  email : str;
  full_name : str;
  phone : option str;
  total_orders : Z;
  total_spent : float;
  loyalty_points : Z;
  created_at : datetime
}.

Definition model_dump (c : t) : pyval :=
  VDict [ (u "id", VStr (id c));
          (u "email", VStr (email c));
          (u "full_name", VStr (full_name c));
          (u "phone", opt_str (phone c));
          (u "total_orders", VInt (total_orders c));
          (u "total_spent", VFloat (total_spent c));
          (u "loyalty_points", VInt (loyalty_points c));
          (u "created_at", VDatetime (created_at c)) ].
End Customer.

(* ------------------------------------------------------------------------- *)
(** ** data/mock_data.py *)
(* ------------------------------------------------------------------------- *)

Module mock_data.

Definition PRODUCTS : list Product.t := [
  {| Product.id := (u "prod-001");
     Product.name := (u "Sony WH-1000XM5 Kablosuz Kulaklık");
     Product.description :=
       (u "Endüstrinin en iyi gürültü engelleme teknolojisi. 30 saat pil ömrü, hızlı şarj desteği ve kristal netliğinde ses kalitesi.");
     Product.category := ProductCategory.ELECTRONICS;
     Product.price := 899.99%float;
     Product.original_price := Some 1099.99%float;
     Product.stock := 45;
     Product.brand := (u "Sony");
     Product.sku := (u "SONY-WH1000XM5-BLK");
     Product.rating := 4.8%float;
     Product.review_count := 1247;
     Product.reviews := [
      {| ProductReview.reviewer_name := (u "Ahmet Y.");
         ProductReview.rating := 5.0%float;
         ProductReview.comment := (u "Muhteşem gürültü engelleme. Uçuşlarda vazgeçilmez oldu.");
         ProductReview.verified_purchase := true;
         ProductReview.date := (u "2024-11-15") |};
      {| ProductReview.reviewer_name := (u "Zeynep K.");
         ProductReview.rating := 4.5%float;
         ProductReview.comment := (u "Ses kalitesi harika ama biraz ağır.");
         ProductReview.verified_purchase := true;
         ProductReview.date := (u "2024-12-01") |} ];
     Product.tags := [u "kulaklık"; u "bluetooth"; u "gürültü engelleme"; u "sony"; u "premium"];
     Product.image_url := [];
     Product.in_stock := true;
     Product.specifications := [
      ((u "Bağlantı"), VStr (u "Bluetooth 5.2"));
      ((u "Pil Ömrü"), VStr (u "30 saat"));
      ((u "Ağırlık"), VStr (u "250g"));
      ((u "Renk"), VStr (u "Siyah"));
      ((u "Garanti"), VStr (u "2 yıl")) ] |};
  {| Product.id := (u "prod-002");
     Product.name := (u "Apple MacBook Pro 14" ++ dq ++ u " M3 Pro");
     Product.description :=
       (u "M3 Pro çipiyle profesyonel performans. 18 saate kadar pil ömrü, Liquid Retina XDR ekran.");
     Product.category := ProductCategory.ELECTRONICS;
     Product.price := 54999.99%float;
     Product.original_price := Some 59999.99%float;
     Product.stock := 12;
     Product.brand := (u "Apple");
     Product.sku := (u "APPLE-MBP14-M3PRO-SLV");
     Product.rating := 4.9%float;
     Product.review_count := 567;
     Product.reviews := [
      {| ProductReview.reviewer_name := (u "Burak S.");
         ProductReview.rating := 5.0%float;
         ProductReview.comment := (u "Geliştirici olarak çok verimli. Build süreleri inanılmaz hızlı.");
         ProductReview.verified_purchase := true;
         ProductReview.date := (u "2024-10-20") |} ];
     Product.tags := [u "laptop"; u "apple"; u "macbook"; u "m3"; u "profesyonel"];
     Product.image_url := [];
     Product.in_stock := true;
     Product.specifications := [
      ((u "İşlemci"), VStr (u "Apple M3 Pro"));
      ((u "RAM"), VStr (u "18GB"));
      ((u "Depolama"), VStr (u "512GB SSD"));
      ((u "Ekran"), VStr (u "14.2" ++ dq ++ u " Liquid Retina XDR"));
      ((u "Pil"), VStr (u "18 saat")) ] |};
  {| Product.id := (u "prod-003");
     Product.name := (u "Nike Air Max 270 Spor Ayakkabı");
     Product.description :=
       (u "Max Air yastıklama ile maksimum konfor. Nefes alan mesh üst yüzey.");
     Product.category := ProductCategory.CLOTHING;
     Product.price := 2199.99%float;
     Product.original_price := Some 2799.99%float;
     Product.stock := 78;
     Product.brand := (u "Nike");
     Product.sku := (u "NIKE-AM270-WHT-42");
     Product.rating := 4.6%float;
     Product.review_count := 3421;
     Product.reviews := [
      {| ProductReview.reviewer_name := (u "Fatma B.");
         ProductReview.rating := 4.0%float;
         ProductReview.comment := (u "Çok rahat, sehirde günlük kullanım için mükemmel.");
         ProductReview.verified_purchase := true;
         ProductReview.date := (u "2024-11-28") |};
      {| ProductReview.reviewer_name := (u "Mehmet A.");
         ProductReview.rating := 5.0%float;
         ProductReview.comment := (u "Fiyat performans açısından harika.");
         ProductReview.verified_purchase := true;
         ProductReview.date := (u "2024-12-10") |} ];
     Product.tags := [u "ayakkabı"; u "spor"; u "nike"; u "koşu"; u "rahat"];
     Product.image_url := [];
     Product.in_stock := true;
     Product.specifications := [
      ((u "Numara"), VStr (u "36-47"));
      ((u "Malzeme"), VStr (u "Mesh + Deri"));
      ((u "Taban"), VStr (u "Foam + Air Max"));
      ((u "Kullanım"), VStr (u "Günlük / Koşu")) ] |};
  {| Product.id := (u "prod-004");
     Product.name := (u "Kindle Paperwhite (11. Nesil)");
     Product.description :=
       (u "300 ppi ekran, 10 hafta pil ömrü, su geçirmez tasarım. 8GB depolama.");
     Product.category := ProductCategory.ELECTRONICS;
     Product.price := 1299.99%float;
     Product.original_price := Some 1499.99%float;
     Product.stock := 156;
     Product.brand := (u "Amazon");
     Product.sku := (u "AMZN-KINDLE-PW11-BLK");
     Product.rating := 4.7%float;
     Product.review_count := 8934;
     Product.reviews := [
      {| ProductReview.reviewer_name := (u "Elif C.");
         ProductReview.rating := 5.0%float;
         ProductReview.comment := (u "Kitap okumayı tamamen yeniden keşfettim. Gözler yorulmuyor.");
         ProductReview.verified_purchase := true;
         ProductReview.date := (u "2024-09-15") |} ];
     Product.tags := [u "e-kitap"; u "okuyucu"; u "kindle"; u "amazon"; u "okuma"];
     Product.image_url := [];
     Product.in_stock := true;
     Product.specifications := [
      ((u "Ekran"), VStr (u "6.8" ++ dq ++ u " 300ppi E Ink"));
      ((u "Depolama"), VStr (u "8GB"));
      ((u "Pil Ömrü"), VStr (u "10 hafta"));
      ((u "Su Geçirmezlik"), VStr (u "IPX8")) ] |};
  {| Product.id := (u "prod-005");
     Product.name := (u "Dyson V15 Detect Kablosuz Süpürge");
     Product.description :=
       (u "Lazer toz tespiti teknolojisi. 60 dakika pil ömrü, HEPA filtrasyon.");
     Product.category := ProductCategory.HOME;
     Product.price := 12999.99%float;
     Product.original_price := Some 14999.99%float;
     Product.stock := 23;
     Product.brand := (u "Dyson");
     Product.sku := (u "DYSON-V15-DETECT");
     Product.rating := 4.8%float;
     Product.review_count := 2156;
     Product.reviews := [];
     Product.tags := [u "süpürge"; u "kablosuz"; u "dyson"; u "temizlik"; u "ev"];
     Product.image_url := [];
     Product.in_stock := true;
     Product.specifications := [
      ((u "Pil Ömrü"), VStr (u "60 dakika"));
      ((u "Emme Gücü"), VStr (u "230AW"));
      ((u "Filtre"), VStr (u "HEPA"));
      ((u "Ağırlık"), VStr (u "3.1kg")) ] |};
  {| Product.id := (u "prod-006");
     Product.name := (u "Samsung Galaxy S24 Ultra");
     Product.description :=
       (u "200MP kamera, 5000mAh batarya, Snapdragon 8 Gen 3, S Pen dahil.");
     Product.category := ProductCategory.ELECTRONICS;
     Product.price := 47999.99%float;
     Product.original_price := Some 52999.99%float;
     Product.stock := 34;
     Product.brand := (u "Samsung");
     Product.sku := (u "SAMSUNG-S24U-BLK-256");
     Product.rating := 4.7%float;
     Product.review_count := 4521;
     Product.reviews := [
      {| ProductReview.reviewer_name := (u "Can T.");
         ProductReview.rating := 5.0%float;
         ProductReview.comment := (u "Kamera kalitesi profesyonel fotoğraf makineleriyle yarışıyor.");
         ProductReview.verified_purchase := true;
         ProductReview.date := (u "2024-10-05") |} ];
     Product.tags := [u "telefon"; u "samsung"; u "galaxy"; u "android"; u "kamera"];
     Product.image_url := [];
     Product.in_stock := true;
     Product.specifications := [
      ((u "İşlemci"), VStr (u "Snapdragon 8 Gen 3"));
      ((u "RAM"), VStr (u "12GB"));
      ((u "Depolama"), VStr (u "256GB"));
      ((u "Kamera"), VStr (u "200MP + 12MP + 10MP + 50MP"));
      ((u "Batarya"), VStr (u "5000mAh"));
      ((u "Ekran"), VStr (u "6.8" ++ dq ++ u " Dynamic AMOLED 2X")) ] |};
  {| Product.id := (u "prod-007");
     Product.name := (u "Levi's 501 Original Erkek Jean");
     Product.description :=
       (u "İkonik düz kesim Levi's 501. %100 pamuk, dayanıklı ve zamansız stil.");
     Product.category := ProductCategory.CLOTHING;
     Product.price := 899.99%float;
     Product.original_price := Some 1099.99%float;
     Product.stock := 0;
     Product.brand := (u "Levi's");
     Product.sku := (u "LEVIS-501-32X32-BLU");
     Product.rating := 4.5%float;
     Product.review_count := 12453;
     Product.reviews := [];
     Product.tags := [u "jean"; u "kot"; u "erkek"; u "levi's"; u "klasik"];
     Product.image_url := [];
     Product.in_stock := false;
     Product.specifications := [
      ((u "Beden"), VStr (u "Tüm bedenler"));
      ((u "Materyal"), VStr (u "%100 Pamuk"));
      ((u "Kesim"), VStr (u "Düz"));
      ((u "Renk"), VStr (u "Mavi")) ] |};
  {| Product.id := (u "prod-008");
     Product.name := (u "Philips Hue Starter Kit (4 Ampul + Bridge)");
     Product.description :=
       (u "Akıllı ev aydınlatma sistemi. 16 milyon renk, uygulama ile kontrol.");
     Product.category := ProductCategory.HOME;
     Product.price := 2499.99%float;
     Product.original_price := Some 2999.99%float;
     Product.stock := 67;
     Product.brand := (u "Philips");
     Product.sku := (u "PHILIPS-HUE-SK4");
     Product.rating := 4.4%float;
     Product.review_count := 5671;
     Product.reviews := [];
     Product.tags := [u "akıllı ev"; u "aydınlatma"; u "philips"; u "hue"; u "otomasyon"];
     Product.image_url := [];
     Product.in_stock := true;
     Product.specifications := [
      ((u "Ampul Sayısı"), VStr (u "4"));
      ((u "Protokol"), VStr (u "Zigbee / Bluetooth"));
      ((u "Renk"), VStr (u "16 milyon"));
      ((u "Güç"), VStr (u "9W (75W eşdeğeri)")) ] |};
  {| Product.id := (u "prod-009");
     Product.name := (u "Atomic Habits - James Clear (Türkçe)");
     Product.description :=
       (u "Küçük alışkanlıkların büyük etkisi. 10 milyonun üzerinde kopya satan dünya genelinde bestseller.");
     Product.category := ProductCategory.BOOKS;
     Product.price := 89.99%float;
     Product.original_price := Some 119.99%float;
     Product.stock := 234;
     Product.brand := (u "Olimpos");
     Product.sku := (u "BOOK-ATOMIC-HABITS-TR");
     Product.rating := 4.9%float;
     Product.review_count := 34521;
     Product.reviews := [];
     Product.tags := [u "kitap"; u "kişisel gelişim"; u "alışkanlık"; u "bestseller"];
     Product.image_url := [];
     Product.in_stock := true;
     Product.specifications := [
      ((u "Sayfa Sayısı"), VStr (u "320"));
      ((u "Dil"), VStr (u "Türkçe"));
      ((u "Yayınevi"), VStr (u "Olimpos"));
      ((u "Baskı"), VStr (u "15. Baskı")) ] |};
  {| Product.id := (u "prod-010");
     Product.name := (u "Nespresso Vertuo Next Kahve Makinesi");
     Product.description :=
       (u "Centrifusion teknolojisi ile mükemmel espresso. 5 bardak boyutu, akıllı kapsül tanıma.");
     Product.category := ProductCategory.HOME;
     Product.price := 3299.99%float;
     Product.original_price := Some 3999.99%float;
     Product.stock := 45;
     Product.brand := (u "Nespresso");
     Product.sku := (u "NESPRESSO-VERTUO-NEXT");
     Product.rating := 4.6%float;
     Product.review_count := 7823;
     Product.reviews := [];
     Product.tags := [u "kahve"; u "nespresso"; u "espresso"; u "kapsül"; u "mutfak"];
     Product.image_url := [];
     Product.in_stock := true;
     Product.specifications := [
      ((u "Kapasite"), VStr (u "1.1L"));
      ((u "Basınç"), VStr (u "19 bar"));
      ((u "Isınma"), VStr (u "30 saniye"));
      ((u "Bardak Boyutları"), VStr (u "5 farklı")) ] |} ].

Definition CUSTOMERS : list Customer.t := [
  {| Customer.id := (u "cust-001");
     Customer.email := (u "ahmet.yilmaz@example.com");
     Customer.full_name := (u "Ahmet Yılmaz");
     Customer.phone := Some (u "+90 532 123 4567");
     Customer.total_orders := 8;
     Customer.total_spent := 12450.5%float;
     Customer.loyalty_points := 1245;
     Customer.created_at := (datetime_ymd 2023 3 15) |};
  {| Customer.id := (u "cust-002");
     Customer.email := (u "zeynep.kaya@example.com");
     Customer.full_name := (u "Zeynep Kaya");
     Customer.phone := Some (u "+90 543 987 6543");
     Customer.total_orders := 3;
     Customer.total_spent := 3210.0%float;
     Customer.loyalty_points := 321;
     Customer.created_at := (datetime_ymd 2024 1 8) |};
  {| Customer.id := (u "cust-003");
     Customer.email := (u "mehmet.demir@example.com");
     Customer.full_name := (u "Mehmet Demir");
     Customer.phone := Some (u "+90 555 456 7890");
     Customer.total_orders := 15;
     Customer.total_spent := 45670.0%float;
     Customer.loyalty_points := 4567;
     Customer.created_at := (datetime_ymd 2022 7 22) |} ].

(** The three module-level lists, as the rest of the program sees them. *)
Record Store : Type := {
  products : list Product.t;
  customers : list Customer.t;
  orders : list Order.t
}.

Section WithRuntime.
Context `{PyRuntime}.

(** Each [datetime.utcnow()] of the module body is a separate reading of
    the clock; keyword arguments are evaluated in textual order. *)
Definition ORDERS : list Order.t := [
  {| Order.id := (u "ord-001");
     Order.customer_id := (u "cust-001");
     Order.customer_email := (u "ahmet.yilmaz@example.com");
     Order.items := [
      {| OrderItem.product_id := (u "prod-001");
         OrderItem.product_name := (u "Sony WH-1000XM5 Kablosuz Kulaklık");
         OrderItem.quantity := 1;
         OrderItem.unit_price := 899.99%float;
         OrderItem.total_price := 899.99%float |} ];
     Order.status := OrderStatus.SHIPPED;
     Order.shipping_address :=
       {| ShippingAddress.full_name := (u "Ahmet Yılmaz");
          ShippingAddress.street := (u "Atatürk Cad. No:42");
          ShippingAddress.city := (u "İstanbul");
          ShippingAddress.state := (u "İstanbul");
          ShippingAddress.postal_code := (u "34000");
          ShippingAddress.country := u "TR" |};
     Order.subtotal := 899.99%float;
     Order.shipping_cost := 0.0%float;
     Order.tax := 161.99%float;
     Order.total := 1061.98%float;
     Order.created_at := (utcnow 0 - timedelta_days 3)%Z;
     Order.updated_at := (utcnow 1 - timedelta_hours 12)%Z;
     Order.tracking_number := Some (u "TK123456789TR");
     Order.tracking_events := [
      {| TrackingEvent.timestamp := (utcnow 2 - timedelta_days 3)%Z;
         TrackingEvent.status := (u "Sipariş Alındı");
         TrackingEvent.location := (u "İstanbul Depo");
         TrackingEvent.description := (u "Siparişiniz sisteme kaydedildi") |};
      {| TrackingEvent.timestamp := (utcnow 3 - timedelta_days 2)%Z;
         TrackingEvent.status := (u "Kargoya Verildi");
         TrackingEvent.location := (u "İstanbul Dağıtım Merkezi");
         TrackingEvent.description := (u "Paketiniz kargo firmasına teslim edildi") |};
      {| TrackingEvent.timestamp := (utcnow 4 - timedelta_hours 12)%Z;
         TrackingEvent.status := (u "Dağıtımda");
         TrackingEvent.location := (u "İstanbul Avrupa Yakası Şube");
         TrackingEvent.description := (u "Paketiniz dağıtım şubesine ulaştı") |} ];
     Order.estimated_delivery := Some (u "2025-02-19");
     Order.notes := None |};
  {| Order.id := (u "ord-002");
     Order.customer_id := (u "cust-001");
     Order.customer_email := (u "ahmet.yilmaz@example.com");
     Order.items := [
      {| OrderItem.product_id := (u "prod-009");
         OrderItem.product_name := (u "Atomic Habits - James Clear");
         OrderItem.quantity := 2;
         OrderItem.unit_price := 89.99%float;
         OrderItem.total_price := 179.98%float |};
      {| OrderItem.product_id := (u "prod-004");
         OrderItem.product_name := (u "Kindle Paperwhite (11. Nesil)");
         OrderItem.quantity := 1;
         OrderItem.unit_price := 1299.99%float;
         OrderItem.total_price := 1299.99%float |} ];
     Order.status := OrderStatus.DELIVERED;
     Order.shipping_address :=
       {| ShippingAddress.full_name := (u "Ahmet Yılmaz");
          ShippingAddress.street := (u "Atatürk Cad. No:42");
          ShippingAddress.city := (u "İstanbul");
          ShippingAddress.state := (u "İstanbul");
          ShippingAddress.postal_code := (u "34000");
          ShippingAddress.country := u "TR" |};
     Order.subtotal := 1479.97%float;
     Order.shipping_cost := 0.0%float;
     Order.tax := 266.39%float;
     Order.total := 1746.36%float;
     Order.created_at := (utcnow 5 - timedelta_days 15)%Z;
     Order.updated_at := (utcnow 6 - timedelta_days 10)%Z;
     Order.tracking_number := Some (u "TK987654321TR");
     Order.tracking_events := [
      {| TrackingEvent.timestamp := (utcnow 7 - timedelta_days 15)%Z;
         TrackingEvent.status := (u "Sipariş Alındı");
         TrackingEvent.location := (u "İstanbul Depo");
         TrackingEvent.description := (u "Siparişiniz sisteme kaydedildi") |};
      {| TrackingEvent.timestamp := (utcnow 8 - timedelta_days 10)%Z;
         TrackingEvent.status := (u "Teslim Edildi");
         TrackingEvent.location := (u "İstanbul");
         TrackingEvent.description := (u "Paketiniz kapıda teslim edildi") |} ];
     Order.estimated_delivery := None;
     Order.notes := None |};
  {| Order.id := (u "ord-003");
     Order.customer_id := (u "cust-002");
     Order.customer_email := (u "zeynep.kaya@example.com");
     Order.items := [
      {| OrderItem.product_id := (u "prod-003");
         OrderItem.product_name := (u "Nike Air Max 270 Spor Ayakkabı");
         OrderItem.quantity := 1;
         OrderItem.unit_price := 2199.99%float;
         OrderItem.total_price := 2199.99%float |} ];
     Order.status := OrderStatus.PROCESSING;
     Order.shipping_address :=
       {| ShippingAddress.full_name := (u "Zeynep Kaya");
          ShippingAddress.street := (u "Bağdat Cad. No:15");
          ShippingAddress.city := (u "İstanbul");
          ShippingAddress.state := (u "İstanbul");
          ShippingAddress.postal_code := (u "34730");
          ShippingAddress.country := u "TR" |};
     Order.subtotal := 2199.99%float;
     Order.shipping_cost := 0.0%float;
     Order.tax := 396.0%float;
     Order.total := 2595.99%float;
     Order.created_at := (utcnow 9 - timedelta_hours 6)%Z;
     Order.updated_at := (utcnow 10 - timedelta_hours 2)%Z;
     Order.tracking_number := None;
     Order.tracking_events := [];
     Order.estimated_delivery := Some (u "2025-02-20");
     Order.notes := None |};
  {| Order.id := (u "ord-004");
     Order.customer_id := (u "cust-003");
     Order.customer_email := (u "mehmet.demir@example.com");
     Order.items := [
      {| OrderItem.product_id := (u "prod-002");
         OrderItem.product_name := (u "Apple MacBook Pro 14" ++ dq ++ u " M3 Pro");
         OrderItem.quantity := 1;
         OrderItem.unit_price := 54999.99%float;
         OrderItem.total_price := 54999.99%float |} ];
     Order.status := OrderStatus.CONFIRMED;
     Order.shipping_address :=
       {| ShippingAddress.full_name := (u "Mehmet Demir");
          ShippingAddress.street := (u "Cumhuriyet Mah. 456. Sok. No:7");
          ShippingAddress.city := (u "Ankara");
          ShippingAddress.state := (u "Ankara");
          ShippingAddress.postal_code := (u "06000");
          ShippingAddress.country := u "TR" |};
     Order.subtotal := 54999.99%float;
     Order.shipping_cost := 0.0%float;
     Order.tax := 9899.99%float;
     Order.total := 64899.98%float;
     Order.created_at := (utcnow 11 - timedelta_hours 2)%Z;
     Order.updated_at := (utcnow 12 - timedelta_hours 1)%Z;
     Order.tracking_number := None;
     Order.tracking_events := [];
     Order.estimated_delivery := Some (u "2025-02-22");
     Order.notes := None |} ].

(** The store right after the module is imported. *)
Definition initial : Store :=
  {| products := PRODUCTS; customers := CUSTOMERS; orders := ORDERS |}.

Definition get_product_by_id (st : Store) (product_id : pyval) : option Product.t :=
  find (fun p => str_eq_value (Product.id p) product_id) (products st).

Definition get_products_by_category (st : Store) (category : ProductCategory.t)
  : list Product.t :=
  filter (fun p => ProductCategory.eqb (Product.category p) category) (products st).

(** The test of the loop body of [search_products]. *)
Definition search_hit (query_lower : str) (product : Product.t) : bool :=
  py_in query_lower (lower (Product.name product))
  || py_in query_lower (lower (Product.description product))
  || py_any (fun tag => py_in query_lower (lower tag)) (Product.tags product)
  || py_in query_lower (lower (Product.brand product)).

Definition search_products (st : Store) (query : pyval) : result (list Product.t) :=
  match query with
  | VStr q =>
    let query_lower := lower q in
    Ok (fold_left
          (fun results product =>
             if search_hit query_lower product then results ++ [product]
             else results)
          (products st) [])
  | _ => Raise AttributeError
  end.

Definition get_order_by_id (st : Store) (order_id : pyval) : option Order.t :=
  find (fun o => str_eq_value (Order.id o) order_id) (orders st).

Definition get_orders_by_customer (st : Store) (customer_id : pyval) : list Order.t :=
  filter (fun o => str_eq_value (Order.customer_id o) customer_id) (orders st).

(** [email.lower()] is evaluated once per stored element, so a non-string
    argument raises only when there is an element to test. *)
Definition email_matches (stored : str) (email : pyval) : result bool :=
  match email with
  | VStr e => Ok (str_eqb (lower stored) (lower e))
  | _ => Raise AttributeError
  end.

Definition get_orders_by_email (st : Store) (email : pyval) : result (list Order.t) :=
  filter_r (fun o => email_matches (Order.customer_email o) email) (orders st).

Definition get_customer_by_id (st : Store) (customer_id : pyval) : option Customer.t :=
  find (fun c => str_eq_value (Customer.id c) customer_id) (customers st).

Definition get_customer_by_email (st : Store) (email : pyval)
  : result (option Customer.t) :=
  find_r (fun c => email_matches (Customer.email c) email) (customers st).

End WithRuntime.
End mock_data.

(** [l.sort(key=lambda p: p.rating, reverse=True)] and
    [sorted(l, key=lambda p: p.rating, reverse=True)]: descending by rating,
    elements of equal rating keep their order. *)
Fixpoint insert_by_rating (x : Product.t) (l : list Product.t) : list Product.t :=
  match l with
  | [] => [x]
  | y :: l' =>
    if PrimFloat.ltb (Product.rating x) (Product.rating y)
    then y :: insert_by_rating x l'
    else x :: y :: l'
  end.

Definition sort_by_rating_desc (l : list Product.t) : list Product.t :=
  fold_right insert_by_rating [] l.

(** A payload [{"error": msg}]. *)
Definition error_payload (msg : str) : pyval := VDict [(u "error", VStr msg)].

(* ------------------------------------------------------------------------- *)
(** ** mcp_server/server.py *)
(* ------------------------------------------------------------------------- *)

Module mcp_server.
Import mock_data.

Section WithRuntime.
Context `{PyRuntime}.

Definition _product_summary (p : Product.t) : pyval :=
  VDict [ (u "id", VStr (Product.id p));
          (u "name", VStr (Product.name p));
          (u "category", VStr (ProductCategory.value (Product.category p)));
          (u "price", VFloat (Product.price p));
          (u "original_price", opt_float (Product.original_price p));
          (u "discount_percentage", opt_float (Product.discount_percentage p));
          (u "rating", VFloat (Product.rating p));
          (u "review_count", VInt (Product.review_count p));
          (u "in_stock", VBool (Product.in_stock p));
          (u "brand", VStr (Product.brand p));
          (u "tags", VList (map VStr (Product.tags p))) ].

(** Branch [name == "search_products"].  A filter is applied when
    [args.get(key)] is truthy, which implies the key is present, so the
    later [args[key]] is that same object. *)
Definition search_products_tool (st : Store) (args : pydict) : result pyval :=
  query <- dict_getitem (u "query") args ;;
  results <- search_products st query ;;
  results <-
    (let category := dict_get (u "category") args in
     if truthy category
     then Ok (filter (fun p => str_eq_value
                                 (ProductCategory.value (Product.category p))
                                 category) results)
     else Ok results) ;;
  results <-
    (let max_price := dict_get (u "max_price") args in
     if truthy max_price
     then filter_r (fun p => float_le_value (Product.price p) max_price) results
     else Ok results) ;;
  results <-
    (let min_rating := dict_get (u "min_rating") args in
     if truthy min_rating
     then filter_r (fun p => float_ge_value (Product.rating p) min_rating) results
     else Ok results) ;;
  results <-
    (if truthy (dict_get (u "in_stock_only") args)
     then Ok (filter Product.in_stock results)
     else Ok results) ;;
  Ok (VDict [ (u "products", VList (map _product_summary results));
              (u "total", VLen results);
              (u "query", query) ]).

Definition get_product_details_tool (st : Store) (args : pydict) : result pyval :=
  product_id <- dict_getitem (u "product_id") args ;;
  match get_product_by_id st product_id with
  | None =>
    Ok (error_payload (u "Product " ++ format_value product_id ++ u " not found"))
  | Some product => Ok (Product.model_dump product)
  end.

Definition get_products_by_category_tool (st : Store) (args : pydict)
  : result pyval :=
  category <- dict_getitem (u "category") args ;;
  match ProductCategory.of_value category with
  | Raise ValueError =>
    Ok (error_payload (u "Unknown category: " ++ format_value category))
  | Raise e => Raise e
  | Ok cat =>
    let products := get_products_by_category st cat in
    Ok (VDict [ (u "products", VList (map _product_summary products));
                (u "category", category) ])
  end.

Definition check_product_availability_tool (st : Store) (args : pydict)
  : result pyval :=
  product_id <- dict_getitem (u "product_id") args ;;
  match get_product_by_id st product_id with
  | None =>
    Ok (error_payload (u "Product " ++ format_value product_id ++ u " not found"))
  | Some product =>
    Ok (VDict [ (u "product_id", VStr (Product.id product));
                (u "name", VStr (Product.name product));
                (u "in_stock", VBool (Product.in_stock product));
                (u "stock_count", VInt (Product.stock product));
                (u "price", VFloat (Product.price product));
                (u "original_price", opt_float (Product.original_price product));
                (u "discount_percentage",
                 opt_float (Product.discount_percentage product)) ])
  end.

Definition order_item_summary (i : OrderItem.t) : pyval :=
  VDict [ (u "name", VStr (OrderItem.product_name i));
          (u "qty", VInt (OrderItem.quantity i)) ].

Definition tracking_event_payload (e : TrackingEvent.t) : pyval :=
  VDict [ (u "timestamp", VStr (isoformat (TrackingEvent.timestamp e)));
          (u "status", VStr (TrackingEvent.status e));
          (u "location", VStr (TrackingEvent.location e));
          (u "description", VStr (TrackingEvent.description e)) ].

Definition order_status_payload (order : Order.t) : pyval :=
  VDict [ (u "order_id", VStr (Order.id order));
          (u "status", VStr (OrderStatus.value (Order.status order)));
          (u "tracking_number", opt_str (Order.tracking_number order));
          (u "estimated_delivery", opt_str (Order.estimated_delivery order));
          (u "items", VList (map order_item_summary (Order.items order)));
          (u "total", VFloat (Order.total order));
          (u "tracking_events",
           VList (map tracking_event_payload (Order.tracking_events order))) ].

Definition get_order_status_tool (st : Store) (args : pydict) : result pyval :=
  order_id <- dict_getitem (u "order_id") args ;;
  match get_order_by_id st order_id with
  | None =>
    Ok (error_payload (u "Order " ++ format_value order_id ++ u " not found"))
  | Some order => Ok (order_status_payload order)
  end.

Definition customer_order_summary (o : Order.t) : pyval :=
  VDict [ (u "id", VStr (Order.id o));
          (u "status", VStr (OrderStatus.value (Order.status o)));
          (u "total", VFloat (Order.total o));
          (u "item_count", VLen (Order.items o));
          (u "created_at", VStr (isoformat (Order.created_at o)));
          (u "tracking_number", opt_str (Order.tracking_number o)) ].

Definition get_customer_orders_tool (st : Store) (args : pydict) : result pyval :=
  orders <-
    (if truthy (dict_get (u "email") args)
     then r <- get_orders_by_email st (dict_get (u "email") args) ;; Ok (Some r)
     else if truthy (dict_get (u "customer_id") args)
     then Ok (Some (get_orders_by_customer st (dict_get (u "customer_id") args)))
     else Ok None) ;;
  match orders with
  | None => Ok (error_payload (u "Provide either email or customer_id"))
  | Some orders =>
    Ok (VDict [ (u "orders", VList (map customer_order_summary orders));
                (u "total", VLen orders) ])
  end.

Definition get_customer_profile_tool (st : Store) (args : pydict) : result pyval :=
  if truthy (dict_get (u "email") args) then
    customer <- get_customer_by_email st (dict_get (u "email") args) ;;
    match customer with
    | None => Ok (error_payload (u "Customer not found"))
    | Some customer => Ok (Customer.model_dump customer)
    end
  else if truthy (dict_get (u "customer_id") args) then
    match get_customer_by_id st (dict_get (u "customer_id") args) with
    | None => Ok (error_payload (u "Customer not found"))
    | Some customer => Ok (Customer.model_dump customer)
    end
  else Ok (error_payload (u "Provide either email or customer_id")).

Definition recommendations_payload (l : list Product.t) (limit : pyval)
  : result pyval :=
  shown <- slice_to limit l ;;
  Ok (VDict [ (u "recommendations", VList (map _product_summary shown)) ]).

(** [p.id != base.id and (p.category == base.category
                          or any(t in base.tags for t in p.tags))] *)
Definition related_to (base p : Product.t) : bool :=
  negb (str_eqb (Product.id p) (Product.id base))
  && (ProductCategory.eqb (Product.category p) (Product.category base)
      || py_any (fun t => existsb (str_eqb t) (Product.tags base)) (Product.tags p)).

Definition get_recommendations_tool (st : Store) (args : pydict) : result pyval :=
  let limit := dict_get_default (u "limit") (VInt 4) args in
  let by_category_or_top :=
    let top := recommendations_payload (sort_by_rating_desc (products st)) limit in
    if truthy (dict_get (u "category") args) then
      match ProductCategory.of_value (dict_get (u "category") args) with
      | Ok cat =>
        recommendations_payload
          (sort_by_rating_desc (get_products_by_category st cat)) limit
      | Raise ValueError => top
      | Raise e => Raise e
      end
    else top in
  if truthy (dict_get (u "product_id") args) then
    match get_product_by_id st (dict_get (u "product_id") args) with
    | Some base =>
      recommendations_payload
        (sort_by_rating_desc (filter (related_to base) (products st))) limit
    | None => by_category_or_top
    end
  else by_category_or_top.

(** [order.status not in (OrderStatus.PENDING, OrderStatus.CONFIRMED)] *)
Definition not_cancellable (s : OrderStatus.t) : bool :=
  negb (OrderStatus.eqb s OrderStatus.PENDING
        || OrderStatus.eqb s OrderStatus.CONFIRMED).

Definition cancel_order_tool (st : Store) (args : pydict) : result pyval :=
  order_id <- dict_getitem (u "order_id") args ;;
  match get_order_by_id st order_id with
  | None =>
    Ok (error_payload (u "Order " ++ format_value order_id ++ u " not found"))
  | Some order =>
    if not_cancellable (Order.status order) then
      Ok (VDict [ (u "error",
                   VStr (u "Order cannot be cancelled. Current status: "
                         ++ OrderStatus.value (Order.status order)));
                  (u "cancellable", VBool false) ])
    else
      (* In production this would update the DB; here we simulate *)
      Ok (VDict [ (u "success", VBool true);
                  (u "order_id", VStr (Order.id order));
                  (u "message",
                   VStr (u "Order " ++ Order.id order
                         ++ u " has been cancelled successfully. Refund will be processed in 3-5 business days."));
                  (u "refund_amount", VFloat (Order.total order)) ])
  end.

(** The names [_dispatch_tool] tests, in the order of its branches. *)
Definition tool_names : list str :=
  [ u "search_products"; u "get_product_details"; u "get_products_by_category";
    u "check_product_availability"; u "get_order_status"; u "get_customer_orders";
    u "get_customer_profile"; u "get_recommendations"; u "cancel_order" ].

(** [_dispatch_tool(name, args)]: the payload (or the exception raised) and
    the store after the call.  No branch assigns to the store or to an
    object held in it. *)
Definition _dispatch_tool (st : Store) (name : str) (args : pydict)
  : result pyval * Store :=
  if str_eqb name (u "search_products") then (search_products_tool st args, st)
  else if str_eqb name (u "get_product_details")
  then (get_product_details_tool st args, st)
  else if str_eqb name (u "get_products_by_category")
  then (get_products_by_category_tool st args, st)
  else if str_eqb name (u "check_product_availability")
  then (check_product_availability_tool st args, st)
  else if str_eqb name (u "get_order_status")
  then (get_order_status_tool st args, st)
  else if str_eqb name (u "get_customer_orders")
  then (get_customer_orders_tool st args, st)
  else if str_eqb name (u "get_customer_profile")
  then (get_customer_profile_tool st args, st)
  else if str_eqb name (u "get_recommendations")
  then (get_recommendations_tool st args, st)
  else if str_eqb name (u "cancel_order") then (cancel_order_tool st args, st)
  else (Ok (error_payload (u "Unknown tool: " ++ name)), st).

(** [call_tool]: the payload that is serialised into the reply; an
    exception of the dispatcher becomes [{"error": str(e)}]. *)
Definition call_tool (st : Store) (name : str) (args : pydict) : pyval * Store :=
  let '(r, st') := _dispatch_tool st name args in
  (match r with
   | Ok payload => payload
   | Raise e => error_payload (exc_str e)
   end, st').

End WithRuntime.
End mcp_server.

(* ------------------------------------------------------------------------- *)
(** ** utils/config.py and the web-search collaborator *)
(* ------------------------------------------------------------------------- *)

Record Settings : Type := {
  tavily_api_key : str;
  mcp_server_url : str;
  product_agent_url : str;
  order_agent_url : str;
  search_agent_url : str
}.

(** The keyword arguments of one [client.search(...)] call. *)
Record tavily_request : Type := {
  tq_query : str;
  tq_search_depth : str;
  tq_max_results : Z;
  tq_include_answer : bool
}.

(** [TavilyClient(api_key).search]: the provider answers with an object or
    the call raises. *)
Definition tavily_api : Type := str -> tavily_request -> result pyval.

(** [v.get(k, default)] on an arbitrary object. *)
Definition py_get (v : pyval) (k : str) (default : pyval) : result pyval :=
  match v with
  | VDict d => Ok (dict_get_default k default d)
  | _ => Raise AttributeError
  end.

(** [v[k]] for a string key on an arbitrary object. *)
Definition py_getitem (v : pyval) (k : str) : result pyval :=
  match v with
  | VDict d => dict_getitem k d
  | _ => Raise TypeError
  end.

(** [v[:n]] on an arbitrary object. *)
Definition py_prefix (n : nat) (v : pyval) : result pyval :=
  match v with
  | VList l => Ok (VList (firstn n l))
  | VStr s => Ok (VStr (firstn n s))
  | _ => Raise TypeError
  end.

(** [for x in v] on an arbitrary object. *)
Definition py_iter (v : pyval) : result (list pyval) :=
  match v with
  | VList l => Ok l
  | VStr s => Ok (map (fun c => VStr [c]) s)
  | VDict d => Ok (map (fun kv => VStr (fst kv)) d)
  | _ => Raise TypeError
  end.

(** [[f(x) for x in l]] where [f] can raise. *)
Fixpoint map_r {A B} (f : A -> result B) (l : list A) : result (list B) :=
  match l with
  | [] => Ok []
  | x :: l' =>
    y <- f x ;;
    r <- map_r f l' ;;
    Ok (y :: r)
  end.

(** [[{k1: r[title_key], "url": r["url"], k3: r["content"][:n]}
      for r in results.get("results", [])[:m]]] *)
Definition source_list (results : pyval) (k1 k3 : str) (n m : nat) (score : bool)
  : result pyval :=
  rs <- py_get results (u "results") (VList []) ;;
  rs <- py_prefix m rs ;;
  rs <- py_iter rs ;;
  l <- map_r (fun r =>
         title <- py_getitem r (u "title") ;;
         url <- py_getitem r (u "url") ;;
         content <- py_getitem r (u "content") ;;
         content <- py_prefix n content ;;
         if score then
           sc <- py_get r (u "score") (VInt 0) ;;
           Ok (VDict [ (k1, title); (u "url", url); (k3, content); (u "score", sc) ])
         else
           Ok (VDict [ (k1, title); (u "url", url); (k3, content) ])) rs ;;
  Ok (VList l).

(** A tool result together with the requests sent to the search provider. *)
Definition web_result : Type := result pyval * list tavily_request.

(* ------------------------------------------------------------------------- *)
(** ** agents/order_agent/agent.py *)
(* ------------------------------------------------------------------------- *)

Module order_agent.
Import mock_data.

Section WithRuntime.
Context `{PyRuntime}.

Definition customer_order_summary (o : Order.t) : pyval :=
  VDict [ (u "id", VStr (Order.id o));
          (u "status", VStr (OrderStatus.value (Order.status o)));
          (u "total", VFloat (Order.total o));
          (u "item_count", VLen (Order.items o));
          (u "created_at", VStr (isoformat (Order.created_at o)));
          (u "tracking_number", opt_str (Order.tracking_number o));
          (u "estimated_delivery", opt_str (Order.estimated_delivery o)) ].

Definition get_order_status_fallback (st : Store) (arguments : pydict)
  : result pyval :=
  order_id <- dict_getitem (u "order_id") arguments ;;
  match get_order_by_id st order_id with
  | None =>
    Ok (error_payload (u "Sipariş " ++ format_value order_id ++ u " bulunamadı"))
  | Some order =>
    Ok (VDict [ (u "order_id", VStr (Order.id order));
                (u "status", VStr (OrderStatus.value (Order.status order)));
                (u "tracking_number", opt_str (Order.tracking_number order));
                (u "estimated_delivery", opt_str (Order.estimated_delivery order));
                (u "items",
                 VList (map (fun i =>
                               VDict [ (u "name", VStr (OrderItem.product_name i));
                                       (u "qty", VInt (OrderItem.quantity i)) ])
                            (Order.items order)));
                (u "total", VFloat (Order.total order));
                (u "tracking_events",
                 VList (map (fun e =>
                               VDict [ (u "timestamp",
                                        VStr (isoformat (TrackingEvent.timestamp e)));
                                       (u "status", VStr (TrackingEvent.status e));
                                       (u "location", VStr (TrackingEvent.location e));
                                       (u "description",
                                        VStr (TrackingEvent.description e)) ])
                            (Order.tracking_events order))) ])
  end.

Definition get_customer_orders_fallback (st : Store) (arguments : pydict)
  : result pyval :=
  orders <-
    (if truthy (dict_get (u "email") arguments)
     then r <- get_orders_by_email st (dict_get (u "email") arguments) ;; Ok (Some r)
     else if truthy (dict_get (u "customer_id") arguments)
     then Ok (Some (get_orders_by_customer st (dict_get (u "customer_id") arguments)))
     else Ok None) ;;
  match orders with
  | None => Ok (error_payload (u "Email veya müşteri ID gerekli"))
  | Some orders =>
    Ok (VDict [ (u "orders", VList (map customer_order_summary orders));
                (u "total", VLen orders) ])
  end.

(** [order.status not in (OrderStatus.PENDING, OrderStatus.CONFIRMED)] *)
Definition not_cancellable (s : OrderStatus.t) : bool :=
  negb (OrderStatus.eqb s OrderStatus.PENDING
        || OrderStatus.eqb s OrderStatus.CONFIRMED).

Definition cancel_order_fallback (st : Store) (arguments : pydict) : result pyval :=
  order_id <- dict_getitem (u "order_id") arguments ;;
  match get_order_by_id st order_id with
  | None => Ok (error_payload (u "Sipariş bulunamadı"))
  | Some order =>
    if not_cancellable (Order.status order) then
      Ok (VDict [ (u "error",
                   VStr (u "Sipariş iptal edilemiyor. Mevcut durum: "
                         ++ OrderStatus.value (Order.status order)));
                  (u "cancellable", VBool false) ])
    else
      Ok (VDict [ (u "success", VBool true);
                  (u "order_id", VStr (Order.id order));
                  (u "message",
                   VStr (u "Sipariş " ++ Order.id order
                         ++ u " başarıyla iptal edildi. İade 3-5 iş gününde işleme alınacak."));
                  (u "refund_amount", VFloat (Order.total order)) ])
  end.

Definition get_customer_profile_fallback (st : Store) (arguments : pydict)
  : result pyval :=
  customer <- get_customer_by_email st
                (dict_get_default (u "email") (VStr []) arguments) ;;
  match customer with
  | None => Ok (error_payload (u "Müşteri bulunamadı"))
  | Some customer => Ok (Customer.model_dump customer)
  end.

(** The names [_direct_tool_call] tests, in the order of its branches. *)
Definition fallback_names : list str :=
  [ u "get_order_status"; u "get_customer_orders"; u "cancel_order";
    u "get_customer_profile" ].

(** [_direct_tool_call(tool_name, arguments)]: the object handed to
    [json.dumps] (or the exception raised) and the store after the call. *)
Definition _direct_tool_call (st : Store) (tool_name : str) (arguments : pydict)
  : result pyval * Store :=
  if str_eqb tool_name (u "get_order_status")
  then (get_order_status_fallback st arguments, st)
  else if str_eqb tool_name (u "get_customer_orders")
  then (get_customer_orders_fallback st arguments, st)
  else if str_eqb tool_name (u "cancel_order")
  then (cancel_order_fallback st arguments, st)
  else if str_eqb tool_name (u "get_customer_profile")
  then (get_customer_profile_fallback st arguments, st)
  else (Ok (error_payload (u "Tool not available: " ++ tool_name)), st).

(** [_call_mcp_tool]: the reply of the tool backend when the HTTP request
    succeeds, the local fallback when it raises. *)
Definition _call_mcp_tool (post : str -> pydict -> result pyval)
           (st : Store) (tool_name : str) (arguments : pydict)
  : result pyval * Store :=
  match post tool_name arguments with
  | Ok reply => (Ok reply, st)
  | Raise _ => _direct_tool_call st tool_name arguments
  end.

Definition web_search_shipping (settings : Settings) (tavily : tavily_api)
           (query : str) : web_result :=
  if negb (truthy (VStr (tavily_api_key settings))) then
    (Ok (VDict [ (u "message",
                  VStr (u "Web araması yapılandırılmamış (TAVILY_API_KEY eksik)"));
                 (u "results", VList []) ]), [])
  else
    let request := {| tq_query := query; tq_search_depth := u "basic";
                      tq_max_results := 3; tq_include_answer := true |} in
    (try_except
       (results <- tavily (tavily_api_key settings) request ;;
        answer <- py_get results (u "answer") (VStr []) ;;
        l <- source_list results (u "title") (u "content") 400 3 false ;;
        Ok (VDict [ (u "answer", answer); (u "results", l) ]))
       (fun e => Ok (error_payload (exc_str e))),
     [request]).

End WithRuntime.
End order_agent.

(* ------------------------------------------------------------------------- *)
(** ** agents/product_agent/agent.py *)
(* ------------------------------------------------------------------------- *)

Module product_agent.
Import mock_data.

Section WithRuntime.
Context `{PyRuntime}.

Definition search_result_summary (p : Product.t) : pyval :=
  VDict [ (u "id", VStr (Product.id p));
          (u "name", VStr (Product.name p));
          (u "price", VFloat (Product.price p));
          (u "rating", VFloat (Product.rating p));
          (u "in_stock", VBool (Product.in_stock p));
          (u "brand", VStr (Product.brand p));
          (u "category", VStr (ProductCategory.value (Product.category p))) ].

Definition search_products_fallback (st : Store) (arguments : pydict)
  : result pyval :=
  results <- search_products st (dict_get_default (u "query") (VStr []) arguments) ;;
  results <-
    (let category := dict_get (u "category") arguments in
     if truthy category
     then Ok (filter (fun p => str_eq_value
                                 (ProductCategory.value (Product.category p))
                                 category) results)
     else Ok results) ;;
  results <-
    (let max_price := dict_get (u "max_price") arguments in
     if truthy max_price
     then filter_r (fun p => float_le_value (Product.price p) max_price) results
     else Ok results) ;;
  results <-
    (if truthy (dict_get (u "in_stock_only") arguments)
     then Ok (filter Product.in_stock results)
     else Ok results) ;;
  Ok (VDict [ (u "products", VList (map search_result_summary results));
              (u "total", VLen results) ]).

Definition get_product_details_fallback (st : Store) (arguments : pydict)
  : result pyval :=
  product_id <- dict_getitem (u "product_id") arguments ;;
  match get_product_by_id st product_id with
  | Some p => Ok (Product.model_dump p)
  | None => Ok (error_payload (u "not found"))
  end.

Definition recommendation_summary (p : Product.t) : pyval :=
  VDict [ (u "id", VStr (Product.id p));
          (u "name", VStr (Product.name p));
          (u "price", VFloat (Product.price p));
          (u "rating", VFloat (Product.rating p)) ].

Definition get_recommendations_fallback (st : Store) (arguments : pydict)
  : result pyval :=
  let top := firstn 4 (sort_by_rating_desc (products st)) in
  Ok (VDict [ (u "recommendations", VList (map recommendation_summary top)) ]).

(** The names [_direct_tool_call] tests, in the order of its branches. *)
Definition fallback_names : list str :=
  [ u "search_products"; u "get_product_details"; u "get_recommendations" ].

(** The tools of the agent that go through [_call_mcp_tool]. *)
Definition backend_tools : list str :=
  [ u "search_products"; u "get_product_details"; u "check_product_availability";
    u "get_recommendations" ].

(** [_direct_tool_call(tool_name, arguments)]: the object handed to
    [json.dumps] (or the exception raised) and the store after the call. *)
Definition _direct_tool_call (st : Store) (tool_name : str) (arguments : pydict)
  : result pyval * Store :=
  if str_eqb tool_name (u "search_products")
  then (search_products_fallback st arguments, st)
  else if str_eqb tool_name (u "get_product_details")
  then (get_product_details_fallback st arguments, st)
  else if str_eqb tool_name (u "get_recommendations")
  then (get_recommendations_fallback st arguments, st)
  else (Ok (error_payload (u "Tool " ++ tool_name ++ u " not available in fallback")),
        st).

Definition _call_mcp_tool (post : str -> pydict -> result pyval)
           (st : Store) (tool_name : str) (arguments : pydict)
  : result pyval * Store :=
  match post tool_name arguments with
  | Ok reply => (Ok reply, st)
  | Raise _ => _direct_tool_call st tool_name arguments
  end.

Definition web_search_products (settings : Settings) (tavily : tavily_api)
           (query : str) : web_result :=
  if negb (truthy (VStr (tavily_api_key settings))) then
    (Ok (VDict [ (u "message",
                  VStr (u "Web search not configured (no TAVILY_API_KEY)"));
                 (u "results", VList []) ]), [])
  else
    let request := {| tq_query := query; tq_search_depth := u "basic";
                      tq_max_results := 5; tq_include_answer := true |} in
    (try_except
       (results <- tavily (tavily_api_key settings) request ;;
        answer <- py_get results (u "answer") (VStr []) ;;
        l <- source_list results (u "title") (u "content") 500 3 false ;;
        Ok (VDict [ (u "answer", answer); (u "results", l) ]))
       (fun e => Ok (VDict [ (u "error", VStr (exc_str e));
                             (u "results", VList []) ])),
     [request]).

End WithRuntime.
End product_agent.

(* ------------------------------------------------------------------------- *)
(** ** agents/search_agent/agent.py *)
(* ------------------------------------------------------------------------- *)

Module search_agent.
Section WithRuntime.
Context `{PyRuntime}.

Definition disabled_payload : pyval :=
  VDict [ (u "message", VStr (u "Web araması devre dışı."));
          (u "results", VList []) ].

Definition web_search (settings : Settings) (tavily : tavily_api)
           (query search_depth : str) : web_result :=
  if negb (truthy (VStr (tavily_api_key settings))) then
    (Ok (VDict [ (u "message",
                  VStr (u "TAVILY_API_KEY yapılandırılmamış. Web araması devre dışı."));
                 (u "results", VList []) ]), [])
  else
    let request := {| tq_query := query; tq_search_depth := search_depth;
                      tq_max_results := 5; tq_include_answer := true |} in
    (try_except
       (results <- tavily (tavily_api_key settings) request ;;
        answer <- py_get results (u "answer") (VStr []) ;;
        l <- source_list results (u "title") (u "content") 600 5 true ;;
        Ok (VDict [ (u "answer", answer); (u "results", l) ]))
       (fun e => Ok (VDict [ (u "error", VStr (exc_str e));
                             (u "results", VList []) ])),
     [request]).

Definition compare_prices (settings : Settings) (tavily : tavily_api)
           (product_name : str) : web_result :=
  if negb (truthy (VStr (tavily_api_key settings))) then (Ok disabled_payload, [])
  else
    let query := product_name
                 ++ u " fiyat karşılaştırma Trendyol Hepsiburada Amazon 2025" in
    let request := {| tq_query := query; tq_search_depth := u "basic";
                      tq_max_results := 6; tq_include_answer := true |} in
    (try_except
       (results <- tavily (tavily_api_key settings) request ;;
        answer <- py_get results (u "answer") (VStr []) ;;
        l <- source_list results (u "source") (u "info") 400 5 false ;;
        Ok (VDict [ (u "product", VStr product_name); (u "answer", answer);
                    (u "price_sources", l) ]))
       (fun e => Ok (error_payload (exc_str e))),
     [request]).

Definition get_product_reviews_web (settings : Settings) (tavily : tavily_api)
           (product_name : str) : web_result :=
  if negb (truthy (VStr (tavily_api_key settings))) then (Ok disabled_payload, [])
  else
    let query := product_name
                 ++ u " kullanıcı yorumları inceleme review 2024 2025" in
    let request := {| tq_query := query; tq_search_depth := u "advanced";
                      tq_max_results := 5; tq_include_answer := true |} in
    (try_except
       (results <- tavily (tavily_api_key settings) request ;;
        answer <- py_get results (u "answer") (VStr []) ;;
        l <- source_list results (u "source") (u "excerpt") 500 4 false ;;
        Ok (VDict [ (u "product", VStr product_name); (u "summary", answer);
                    (u "reviews", l) ]))
       (fun e => Ok (error_payload (exc_str e))),
     [request]).

Definition get_trending_products (settings : Settings) (tavily : tavily_api)
           (category : str) : web_result :=
  if negb (truthy (VStr (tavily_api_key settings))) then (Ok disabled_payload, [])
  else
    let query := u "2025 en iyi " ++ category ++ u " ürünleri trend çok satan" in
    let request := {| tq_query := query; tq_search_depth := u "basic";
                      tq_max_results := 5; tq_include_answer := true |} in
    (try_except
       (results <- tavily (tavily_api_key settings) request ;;
        answer <- py_get results (u "answer") (VStr []) ;;
        l <- source_list results (u "title") (u "content") 400 4 false ;;
        Ok (VDict [ (u "category", VStr category); (u "trending_summary", answer);
                    (u "sources", l) ]))
       (fun e => Ok (error_payload (exc_str e))),
     [request]).

End WithRuntime.
End search_agent.

(* ------------------------------------------------------------------------- *)
(** ** The A2A objects the agents exchange *)
(* ------------------------------------------------------------------------- *)

Module a2a.
Inductive TaskState : Type :=
| submitted | working | completed | failed | canceled.

(** [part.root]: only a text part has a [text] attribute. *)
Inductive Part : Type :=
| TextPart (text : str)
| FilePart
| DataPart.

Record Message : Type := { message_parts : list Part }.

Record Artifact : Type := {
  artifact_id : str;
  artifact_name : str;
  artifact_parts : list Part
}.

Record TaskStatus : Type := {
  state : TaskState;
  message : option Message
}.

Record Task : Type := {
  task_id : str;
  context_id : str;
  status : TaskStatus;
  artifacts : option (list Artifact)
}.

(** [response.root.result] is a task or a bare message. *)
Inductive SendResult : Type :=
| ResultTask (t : Task)
| ResultMessage (m : Message).

(** [response.root]: a success carries [result], an error response does
    not. *)
Inductive SendMessageResponse : Type :=
| SuccessResponse (result : SendResult)
| ErrorResponse (code : Z) (error_message : str).

(** What an event queue receives. *)
Inductive Event : Type :=
| TaskEvent (t : Task)
| StatusUpdate (task : str) (s : TaskState) (message : option Message)
| ArtifactUpdate (task : str) (a : Artifact).

(** Code that enqueues events and can raise: the queue is threaded through,
    and what was enqueued before an exception stays enqueued. *)
Definition io (A : Type) : Type := list Event -> result A * list Event.

Definition ret {A} (a : A) : io A := fun q => (Ok a, q).
Definition raise {A} (e : exn) : io A := fun q => (Raise e, q).
Definition lift {A} (r : result A) : io A := fun q => (r, q).
Definition enqueue_event (e : Event) : io unit := fun q => (Ok tt, q ++ [e]).

Definition io_bind {A B} (m : io A) (k : A -> io B) : io B :=
  fun q =>
    match m q with
    | (Ok a, q') => k a q'
    | (Raise e, q') => (Raise e, q')
    end.

(** [try: body except Exception as e: handler(e)] *)
Definition io_try {A} (body : io A) (handler : exn -> io A) : io A :=
  fun q =>
    match body q with
    | (Ok a, q') => (Ok a, q')
    | (Raise e, q') => handler e q'
    end.

(** [TaskUpdater(event_queue, task.id, task.context_id)]: every operation
    enqueues one event for its task. *)
Module TaskUpdater.
Definition update_status (task : str) (s : TaskState) (m : option Message)
  : io unit :=
  enqueue_event (StatusUpdate task s m).
Definition submit (task : str) : io unit := update_status task submitted None.
Definition start_work (task : str) : io unit := update_status task working None.
Definition add_artifact (task : str) (parts : list Part) (id name : str)
  : io unit :=
  enqueue_event (ArtifactUpdate task {| artifact_id := id; artifact_name := name;
                                        artifact_parts := parts |}).
Definition complete (task : str) : io unit := update_status task completed None.
Definition failed (task : str) (m : Message) : io unit :=
  update_status task failed (Some m).
Definition new_agent_message (parts : list Part) : Message :=
  {| message_parts := parts |}.
End TaskUpdater.
End a2a.

Declare Scope io_scope.
Delimit Scope io_scope with io.
Notation "x <- m ;; k" := (a2a.io_bind m (fun x => k))
  (at level 61, m at next level, right associativity) : io_scope.
Notation "m ;;; k" := (a2a.io_bind m (fun _ => k))
  (at level 61, right associativity) : io_scope.

(* ------------------------------------------------------------------------- *)
(** ** agents/orchestrator/agent.py *)
(* ------------------------------------------------------------------------- *)

Module orchestrator.
Import a2a.

(** [A2AClient(url=agent_url).send_message(request)] for a text query: a
    response, or an exception of the transport. *)
Definition a2a_client : Type := str -> str -> result SendMessageResponse.

(** [for part in parts: if hasattr(part.root, "text"): result_text += ...] *)
Definition append_text_parts (result_text : str) (parts : list Part) : str :=
  fold_left (fun acc part =>
               match part with
               | TextPart text => acc ++ text
               | _ => acc
               end) parts result_text.

(** The artifacts branch of the extraction. *)
Definition text_of_artifacts (l : list Artifact) : str :=
  fold_left (fun acc artifact => append_text_parts acc (artifact_parts artifact)) l [].

(** The status-message branch of the extraction. *)
Definition text_of_status (st : TaskStatus) : str :=
  match message st with
  | Some msg => append_text_parts [] (message_parts msg)
  | None => []
  end.

(** [result.artifacts] is truthy: present and non-empty. *)
Definition has_artifacts (t : Task) : bool :=
  match artifacts t with
  | Some (_ :: _) => true
  | _ => false
  end.

(** [result_text] after the extraction block. *)
Definition extract_text (response : SendMessageResponse) : str :=
  match response with
  | SuccessResponse (ResultTask t) =>
    if has_artifacts t
    then text_of_artifacts (match artifacts t with Some l => l | None => [] end)
    else text_of_status (status t)
  | SuccessResponse (ResultMessage _) => []
  | ErrorResponse _ _ => []
  end.

Section WithRuntime.
Context `{PyRuntime}.

Definition _delegate_to_agent (client : a2a_client) (agent_url query agent_name : str)
  : result str :=
  try_except
    (response <- client agent_url query ;;
     let result_text := extract_text response in
     Ok (if truthy (VStr result_text) then result_text
         else agent_name ++ u " yanıt vermedi."))
    (fun e =>
       let short_err := str_prefix 100 (exc_str e) in
       Ok (agent_name ++ u " şu anda ulaşılamıyor (" ++ short_err ++ u "). "
           ++ u "Lütfen daha sonra tekrar deneyin.")).

Definition ask_product_agent (settings : Settings) (client : a2a_client) (query : str)
  : result str :=
  _delegate_to_agent client (product_agent_url settings) query (u "Product Agent").

Definition ask_order_agent (settings : Settings) (client : a2a_client) (query : str)
  : result str :=
  _delegate_to_agent client (order_agent_url settings) query (u "Order Agent").

Definition ask_search_agent (settings : Settings) (client : a2a_client) (query : str)
  : result str :=
  _delegate_to_agent client (search_agent_url settings) query (u "Search Agent").

End WithRuntime.
End orchestrator.

(* ------------------------------------------------------------------------- *)
(** ** agents/*/executor.py *)
(* ------------------------------------------------------------------------- *)

Module executor.
Import a2a.

(** One element of an [AIMessage.content] list: a text block
    ([{"type": "text", "text": ...}]) or anything else. *)
Inductive content_block : Type :=
| TextBlock (text : str)
| OtherBlock.

Inductive content : Type :=
| ContentStr (s : str)
| ContentList (l : list content_block).

Inductive chat_message : Type :=
| AIMessage (c : content)
| OtherMessage.

(** One value streamed by [agent.astream(..., stream_mode="values")]: its
    ["messages"] list. *)
Definition chunk : Type := list chat_message.

(** A run of the compiled agent graph: the chunks it yields and, when the
    run fails, the exception raised after them. *)
Definition agent_run : Type := (list chunk * option exn)%type.

(** [agent.astream({"messages": [HumanMessage(query)], "session_id": ctx})].
The last argument is the content of the event queue at the moment the run
starts: what the task has announced before the agent does any work. *)
Definition agent : Type := str -> str -> list Event -> agent_run.

(** [fresh_task] is what [new_task(context.message)] of the a2a library
gives: the task it builds from the message or the exception it raises (it
refuses a message without parts and a message with an empty text part with a
[ValueError]). *)
Record RequestContext : Type := {
  message : option str;            (** the text of [context.message] *)
  current_task : option Task;
  fresh_task : result Task
}.

(** The texts in which the four executors differ. *)
Record texts : Type := {
  progress_text : str;
  default_response : str;
  artifact_prefix : str;
  artifact_title : str;
  error_text : str -> str
}.

(** [" ".join(parts)] *)
Fixpoint join_space (parts : list str) : str :=
  match parts with
  | [] => []
  | [x] => x
  | x :: rest => x ++ u " " ++ join_space rest
  end.

Definition content_truthy (c : content) : bool :=
  match c with
  | ContentStr s => truthy (VStr s)
  | ContentList l => match l with [] => false | _ => true end
  end.

(** The body of the [async for] loop: the new value of [final_response]. *)
Definition absorb_chunk (final_response : str) (msgs : chunk) : str :=
  match msgs with
  | [] => final_response
  | _ =>
    match last msgs OtherMessage with
    | AIMessage c =>
      if content_truthy c then
        match c with
        | ContentList l =>
          join_space
            (flat_map (fun b => match b with TextBlock t => [t] | OtherBlock => [] end) l)
        | ContentStr s => s
        end
      else final_response
    | OtherMessage => final_response
    end
  end.

(** The [async for] loop over a run: the final response, or the exception
    that ended the run. *)
Definition consume (run : agent_run) : result str :=
  match snd run with
  | Some e => Raise e
  | None => Ok (fold_left absorb_chunk (fst run) [])
  end.

(** The [async for] loop as a step of [execute]: it enqueues nothing. *)
Definition run_agent (ag : agent) (query session_id : str) : io str :=
  fun q => (consume (ag query session_id q), q).

Section WithRuntime.
Context `{PyRuntime}.

(** [execute(context, event_queue)].  The a2a SDK's queue and updater and the
logger are taken not to raise; [new_task] can, and it is called before the
[try]. *)
Definition execute (tx : texts) (ag : agent) (context : RequestContext) : io unit :=
  (match message context with
   | None => raise InvalidParamsError
   | Some text =>
     let query := text in
     task <- (match current_task context with
              | Some task => ret task
              | None =>
                task <- lift (fresh_task context) ;;
                enqueue_event (TaskEvent task) ;;; ret task
              end) ;;
     let updater := task_id task in
     TaskUpdater.submit updater ;;;
     TaskUpdater.start_work updater ;;;
     io_try
       (TaskUpdater.update_status updater working
          (Some (TaskUpdater.new_agent_message [TextPart (progress_text tx)])) ;;;
        final_response <- run_agent ag query (context_id task) ;;
        let final_response :=
          if negb (truthy (VStr final_response)) then default_response tx
          else final_response in
        TaskUpdater.add_artifact updater [TextPart final_response]
          (artifact_prefix tx ++ task_id task) (artifact_title tx) ;;;
        TaskUpdater.complete updater)
       (fun e =>
          TaskUpdater.failed updater
            (TaskUpdater.new_agent_message [TextPart (error_text tx (exc_str e))]))
   end)%io.

Definition order_texts : texts :=
  {| progress_text := u "Sipariş bilgilerinizi kontrol ediyorum...";
     default_response := u "Üzgünüm, bu konuda size yardımcı olamadım.";
     artifact_prefix := u "order-response-";
     artifact_title := u "Order Agent Response";
     error_text := fun e => u "Bir hata oluştu: " ++ e |}.

Definition orchestrator_texts : texts :=
  {| progress_text :=
       u "İsteğinizi analiz ediyorum ve uygun uzman ajana yönlendiriyorum...";
     default_response := u "Üzgünüm, isteğinizi işleyemedim. Lütfen tekrar deneyin.";
     artifact_prefix := u "orchestrator-response-";
     artifact_title := u "Shopping Assistant Response";
     error_text := fun e => u "Sistem hatası: " ++ e ++ u ". Lütfen tekrar deneyin." |}.

Definition product_texts : texts :=
  {| progress_text := u "Ürün kataloğunu araştırıyorum...";
     default_response := u "Üzgünüm, bu konuda size yardımcı olamadım.";
     artifact_prefix := u "product-response-";
     artifact_title := u "Product Agent Response";
     error_text := fun e => u "Bir hata oluştu: " ++ e |}.

Definition search_texts : texts :=
  {| progress_text := u "Web'de araştırıyorum...";
     default_response := u "Web araması tamamlandı ancak sonuç bulunamadı.";
     artifact_prefix := u "search-response-";
     artifact_title := u "Search Agent Response";
     error_text := fun e => u "Arama hatası: " ++ e |}.

(** [OrderAgentExecutor.execute], [OrchestratorExecutor.execute],
    [ProductAgentExecutor.execute], [SearchAgentExecutor.execute] *)
Definition OrderAgentExecutor_execute := execute order_texts.
Definition OrchestratorExecutor_execute := execute orchestrator_texts.
Definition ProductAgentExecutor_execute := execute product_texts.
Definition SearchAgentExecutor_execute := execute search_texts.

(** [cancel(context, event_queue)]: always raises. *)
Definition cancel (context : RequestContext) : io unit :=
  raise UnsupportedOperationError.

End WithRuntime.

(** The states of the status updates of a queue, in order. *)
Definition task_states (q : list Event) : list TaskState :=
  flat_map (fun e => match e with StatusUpdate _ s _ => [s] | _ => [] end) q.
End executor.

(* ------------------------------------------------------------------------- *)
(** ** mcp_server/server.py: resources, tool listing, health *)
(* ------------------------------------------------------------------------- *)

Module mcp_server_api.
Import mock_data.

(** A resource URI as the handlers see it.  [read_resource] declares its
argument a [str], but the server it is registered with calls it with the
[AnyUrl] of the request, and [Resource] turns the [uri] it is given into an
[AnyUrl] as well.  Either carries its text. *)
Inductive Uri : Type :=
| TextUri (text : str)           (** a [str] *)
| AnyUrl (text : str).           (** a pydantic [AnyUrl] *)

Definition uri_text (uri : Uri) : str :=
  match uri with
  | TextUri text => text
  | AnyUrl text => text
  end.

(** [uri == "literal"]: a [str] equals the literal when the texts agree, an
[AnyUrl] is equal to no [str]. *)
Definition uri_is (uri : Uri) (literal : str) : bool :=
  match uri with
  | TextUri text => str_eqb text literal
  | AnyUrl _ => false
  end.

Record Resource : Type := {
  uri : Uri;
  resource_name : str;
  resource_description : str;
  mimeType : str
}.

Definition list_resources : list Resource :=
  [ {| uri := AnyUrl (u "ecommerce://products/catalog");
       resource_name := u "Product Catalog";
       resource_description := u "Full product catalog with prices, stock and ratings";
       mimeType := u "application/json" |};
    {| uri := AnyUrl (u "ecommerce://orders/summary");
       resource_name := u "Orders Summary";
       resource_description := u "Recent orders summary";
       mimeType := u "application/json" |};
    {| uri := AnyUrl (u "ecommerce://customers/list");
       resource_name := u "Customer List";
       resource_description := u "Customer database";
       mimeType := u "application/json" |} ].

Definition catalog_entry (p : Product.t) : pyval :=
  VDict [ (u "id", VStr (Product.id p));
          (u "name", VStr (Product.name p));
          (u "category", VStr (ProductCategory.value (Product.category p)));
          (u "price", VFloat (Product.price p));
          (u "original_price", opt_float (Product.original_price p));
          (u "rating", VFloat (Product.rating p));
          (u "review_count", VInt (Product.review_count p));
          (u "in_stock", VBool (Product.in_stock p));
          (u "stock", VInt (Product.stock p));
          (u "brand", VStr (Product.brand p)) ].

Definition customer_entry (c : Customer.t) : pyval :=
  VDict [ (u "id", VStr (Customer.id c));
          (u "email", VStr (Customer.email c));
          (u "full_name", VStr (Customer.full_name c));
          (u "total_orders", VInt (Customer.total_orders c));
          (u "loyalty_points", VInt (Customer.loyalty_points c)) ].

Section WithRuntime.
Context `{PyRuntime}.

Definition order_entry (o : Order.t) : pyval :=
  VDict [ (u "id", VStr (Order.id o));
          (u "customer_email", VStr (Order.customer_email o));
          (u "status", VStr (OrderStatus.value (Order.status o)));
          (u "total", VFloat (Order.total o));
          (u "item_count", VLen (Order.items o));
          (u "created_at", VStr (isoformat (Order.created_at o))) ].

(** [read_resource(uri)]: the object handed to [json.dumps], or the
[ValueError] raised for an unknown URI (its message names the URI).  The
three tests are [uri == "..."] on whatever the caller passed. *)
Definition read_resource (st : Store) (uri : Uri) : result pyval :=
  if uri_is uri (u "ecommerce://products/catalog")
  then Ok (VList (map catalog_entry (products st)))
  else if uri_is uri (u "ecommerce://orders/summary")
  then Ok (VList (map order_entry (orders st)))
  else if uri_is uri (u "ecommerce://customers/list")
  then Ok (VList (map customer_entry (customers st)))
  else Raise ValueError.

End WithRuntime.

Record Tool : Type := {
  name : str;
  description : str;
  inputSchema : pyval
}.

(** [[c.value for c in ProductCategory]] *)
Definition category_values : pyval :=
  VList (map (fun c => VStr (ProductCategory.value c)) ProductCategory.members).

Definition list_tools : list Tool :=
  [ {| name := u "search_products";
       description := u "Search products by keyword in name, description, tags or brand";
       inputSchema :=
         VDict [ (u "type", VStr (u "object"));
                 (u "properties",
                  VDict [ (u "query",
                           VDict [ (u "type", VStr (u "string"));
                                   (u "description", VStr (u "Search keyword")) ]);
                          (u "category",
                           VDict [ (u "type", VStr (u "string"));
                                   (u "description", VStr (u "Filter by category"));
                                   (u "enum", category_values) ]);
                          (u "max_price",
                           VDict [ (u "type", VStr (u "number"));
                                   (u "description", VStr (u "Maximum price filter")) ]);
                          (u "min_rating",
                           VDict [ (u "type", VStr (u "number"));
                                   (u "description",
                                    VStr (u "Minimum rating filter (1-5)")) ]);
                          (u "in_stock_only",
                           VDict [ (u "type", VStr (u "boolean"));
                                   (u "description",
                                    VStr (u "Return only in-stock items")) ]) ]);
                 (u "required", VList [VStr (u "query")]) ] |};
    {| name := u "get_product_details";
       description :=
         u "Get full details of a product by ID including reviews and specifications";
       inputSchema :=
         VDict [ (u "type", VStr (u "object"));
                 (u "properties",
                  VDict [ (u "product_id",
                           VDict [ (u "type", VStr (u "string"));
                                   (u "description",
                                    VStr (u "Product ID (e.g. prod-001)")) ]) ]);
                 (u "required", VList [VStr (u "product_id")]) ] |};
    {| name := u "get_products_by_category";
       description := u "List all products in a specific category";
       inputSchema :=
         VDict [ (u "type", VStr (u "object"));
                 (u "properties",
                  VDict [ (u "category",
                           VDict [ (u "type", VStr (u "string"));
                                   (u "enum", category_values) ]) ]);
                 (u "required", VList [VStr (u "category")]) ] |};
    {| name := u "check_product_availability";
       description := u "Check if a product is in stock and get current price";
       inputSchema :=
         VDict [ (u "type", VStr (u "object"));
                 (u "properties",
                  VDict [ (u "product_id", VDict [ (u "type", VStr (u "string")) ]) ]);
                 (u "required", VList [VStr (u "product_id")]) ] |};
    {| name := u "get_order_status";
       description := u "Get current status and tracking info for an order";
       inputSchema :=
         VDict [ (u "type", VStr (u "object"));
                 (u "properties",
                  VDict [ (u "order_id",
                           VDict [ (u "type", VStr (u "string"));
                                   (u "description",
                                    VStr (u "Order ID (e.g. ord-001)")) ]) ]);
                 (u "required", VList [VStr (u "order_id")]) ] |};
    {| name := u "get_customer_orders";
       description := u "Get all orders for a customer by email or customer ID";
       inputSchema :=
         VDict [ (u "type", VStr (u "object"));
                 (u "properties",
                  VDict [ (u "email",
                           VDict [ (u "type", VStr (u "string"));
                                   (u "description", VStr (u "Customer email")) ]);
                          (u "customer_id",
                           VDict [ (u "type", VStr (u "string"));
                                   (u "description", VStr (u "Customer ID")) ]) ]) ] |};
    {| name := u "get_customer_profile";
       description :=
         u "Get customer profile including loyalty points and order history";
       inputSchema :=
         VDict [ (u "type", VStr (u "object"));
                 (u "properties",
                  VDict [ (u "email", VDict [ (u "type", VStr (u "string")) ]);
                          (u "customer_id",
                           VDict [ (u "type", VStr (u "string")) ]) ]) ] |};
    {| name := u "get_recommendations";
       description := u "Get product recommendations based on a product or category";
       inputSchema :=
         VDict [ (u "type", VStr (u "object"));
                 (u "properties",
                  VDict [ (u "product_id",
                           VDict [ (u "type", VStr (u "string"));
                                   (u "description",
                                    VStr (u "Base product for recommendations")) ]);
                          (u "category",
                           VDict [ (u "type", VStr (u "string"));
                                   (u "description",
                                    VStr (u "Category for recommendations")) ]);
                          (u "limit",
                           VDict [ (u "type", VStr (u "integer"));
                                   (u "description",
                                    VStr (u "Max number of recommendations"));
                                   (u "default", VInt 4) ]) ]) ] |};
    {| name := u "cancel_order";
       description := u "Cancel a pending or confirmed order";
       inputSchema :=
         VDict [ (u "type", VStr (u "object"));
                 (u "properties",
                  VDict [ (u "order_id", VDict [ (u "type", VStr (u "string")) ]);
                          (u "reason",
                           VDict [ (u "type", VStr (u "string"));
                                   (u "description",
                                    VStr (u "Reason for cancellation")) ]) ]);
                 (u "required", VList [VStr (u "order_id")]) ] |} ].

(** The keys a tool's schema lists under ["required"]. *)
Definition required (t : Tool) : list str :=
  match inputSchema t with
  | VDict schema =>
    match dict_lookup (u "required") schema with
    | Some (VList keys) =>
      flat_map (fun k => match k with VStr s => [s] | _ => [] end) keys
    | _ => []
    end
  | _ => []
  end.

(** The body of the reply of [health_check]. *)
Definition health_check : pyval :=
  VDict [ (u "status", VStr (u "healthy"));
          (u "service", VStr (u "ecommerce-mcp-server"));
          (u "tools", VInt 9) ].

End mcp_server_api.

(* ------------------------------------------------------------------------- *)
(** ** data/mock_data.py: customer search *)
(* ------------------------------------------------------------------------- *)

Module mock_data_search.
Import mock_data.

Section WithRuntime.
Context `{PyRuntime}.

(** [search_customers(query)] *)
Definition search_customers (st : Store) (query : pyval) : result (list Customer.t) :=
  match query with
  | VStr query =>
    let q := lower query in
    Ok (filter (fun c => py_in q (lower (Customer.full_name c))
                         || py_in q (lower (Customer.email c)))
               (customers st))
  | _ => Raise AttributeError
  end.

End WithRuntime.
End mock_data_search.

(* ------------------------------------------------------------------------- *)
(** ** agents/product_agent/agent.py and agents/order_agent/agent.py: the
       tools bound to the language model *)
(* ------------------------------------------------------------------------- *)

(** What [client.post(f"{settings.mcp_server_url}/tool", json=...)] followed
by [raise_for_status()] gives: the reply, or an exception. *)
Definition http_post : Type := str -> pydict -> result pyval.

Module product_tools.
Import mock_data.

(** The [args] dict [search_products] builds: an optional argument is added
only when it is truthy. *)
Definition search_products_args (query : str) (category : option str)
           (max_price min_rating : option float) (in_stock_only : bool) : pydict :=
  [(u "query", VStr query)]
  ++ (if truthy (opt_str category) then [(u "category", opt_str category)] else [])
  ++ (if truthy (opt_float max_price) then [(u "max_price", opt_float max_price)]
      else [])
  ++ (if truthy (opt_float min_rating) then [(u "min_rating", opt_float min_rating)]
      else [])
  ++ (if in_stock_only then [(u "in_stock_only", VBool in_stock_only)] else []).

(** The [args] dict [get_recommendations] builds. *)
Definition get_recommendations_args (product_id category : option str) (limit : Z)
  : pydict :=
  [(u "limit", VInt limit)]
  ++ (if truthy (opt_str product_id) then [(u "product_id", opt_str product_id)]
      else [])
  ++ (if truthy (opt_str category) then [(u "category", opt_str category)] else []).

Section WithRuntime.
Context `{PyRuntime}.

Definition search_products (post : http_post) (st : Store) (query : str)
           (category : option str) (max_price min_rating : option float)
           (in_stock_only : bool) : result pyval * Store :=
  product_agent._call_mcp_tool post st (u "search_products")
    (search_products_args query category max_price min_rating in_stock_only).

Definition get_product_details (post : http_post) (st : Store) (product_id : str)
  : result pyval * Store :=
  product_agent._call_mcp_tool post st (u "get_product_details")
    [(u "product_id", VStr product_id)].

Definition check_product_availability (post : http_post) (st : Store)
           (product_id : str) : result pyval * Store :=
  product_agent._call_mcp_tool post st (u "check_product_availability")
    [(u "product_id", VStr product_id)].

Definition get_recommendations (post : http_post) (st : Store)
           (product_id category : option str) (limit : Z) : result pyval * Store :=
  product_agent._call_mcp_tool post st (u "get_recommendations")
    (get_recommendations_args product_id category limit).

End WithRuntime.
End product_tools.

Module order_tools.
Import mock_data.

(** The [args] dict [get_customer_orders] builds. *)
Definition get_customer_orders_args (email customer_id : option str) : pydict :=
  (if truthy (opt_str email) then [(u "email", opt_str email)] else [])
  ++ (if truthy (opt_str customer_id) then [(u "customer_id", opt_str customer_id)]
      else []).

Section WithRuntime.
Context `{PyRuntime}.

Definition get_order_status (post : http_post) (st : Store) (order_id : str)
  : result pyval * Store :=
  order_agent._call_mcp_tool post st (u "get_order_status")
    [(u "order_id", VStr order_id)].

Definition get_customer_orders (post : http_post) (st : Store)
           (email customer_id : option str) : result pyval * Store :=
  order_agent._call_mcp_tool post st (u "get_customer_orders")
    (get_customer_orders_args email customer_id).

Definition cancel_order (post : http_post) (st : Store) (order_id reason : str)
  : result pyval * Store :=
  order_agent._call_mcp_tool post st (u "cancel_order")
    [(u "order_id", VStr order_id); (u "reason", VStr reason)].

Definition get_customer_profile (post : http_post) (st : Store) (email : str)
  : result pyval * Store :=
  order_agent._call_mcp_tool post st (u "get_customer_profile")
    [(u "email", VStr email)].

End WithRuntime.
End order_tools.

(* ------------------------------------------------------------------------- *)
(** ** agents/orchestrator/server.py: the REST chat endpoint *)
(* ------------------------------------------------------------------------- *)

Module orchestrator_server.

(** A [JSONResponse]: its status code and the content its body renders. *)
Record JSONResponse : Type := {
  status_code : Z;
  body : pyval
}.

(** [build_orchestrator().astream({"messages": [HumanMessage(message)],
"session_id": session_id, "delegated_to": None})]: the chunks yielded and,
when building or running the graph fails, the exception raised. *)
Definition chat_agent : Type := str -> pyval -> executor.agent_run.

Section WithRuntime.
Context `{PyRuntime}.

(** [s.strip()], a built-in. *)
Variable strip : str -> str.

(** [body.get("message", "").strip()] *)
Definition message_of (request_body : pyval) : result str :=
  message <- py_get request_body (u "message") (VStr []) ;;
  match message with
  | VStr s => Ok (strip s)
  | _ => Raise AttributeError
  end.

(** [JSONResponse.render(content)] of Starlette, which the constructor of a
response calls on its content:
[json.dumps(content, ensure_ascii=False, allow_nan=False, ...).encode("utf-8")].
It gives the exception raised, if any: the library refuses, among others, a
float that is not finite and a text that has no UTF-8 encoding. *)
Variable render : pyval -> option exn.

(** [JSONResponse(content, status_code=code)] *)
Definition respond (content : pyval) (code : Z) : result JSONResponse :=
  match render content with
  | None => Ok {| status_code := code; body := content |}
  | Some e => Raise e
  end.

(** The [except Exception as e] clause: the logger is taken not to raise, the
constructor of the response can. *)
Definition on_exception (e : exn) : result JSONResponse :=
  respond (error_payload (exc_str e)) 500.

(** [chat_endpoint(request)]: the response returned or the exception that
leaves the function, and the runs of the agent it started, each with its
message and session id.  [request_json] is what [await request.json()]
gives.  The loop over the chunks is the one of the executors.  The two
[return JSONResponse(...)] of the [try] block are inside it, so what their
constructors raise is handled by the [except] clause as well. *)
Definition chat_endpoint (ag : chat_agent) (request_json : result pyval)
  : result JSONResponse * list (str * pyval) :=
  match (request_body <- request_json ;;
         message <- message_of request_body ;;
         Ok (request_body, message)) with
  | Raise e => (on_exception e, [])
  | Ok (request_body, message) =>
    if negb (truthy (VStr message)) then
      (try_except
         (respond (error_payload (u "message field is required")) 400)
         on_exception, [])
    else
      match py_get request_body (u "session_id") (VStr (u "default")) with
      | Raise e => (on_exception e, [])
      | Ok session_id =>
        (try_except
           (final_response <- executor.consume (ag message session_id) ;;
            respond
              (VDict [ (u "response",
                        VStr (if truthy (VStr final_response) then final_response
                              else u "Yanıt oluşturulamadı."));
                       (u "session_id", session_id) ])
              200)
           on_exception,
         [(message, session_id)])
      end
  end.

End WithRuntime.
End orchestrator_server.

(* ------------------------------------------------------------------------- *)
(** ** tests/test_client.py and tests/test_integration.py: the A2A helpers *)
(* ------------------------------------------------------------------------- *)

Module test_helpers.
Import a2a.

(** The extraction block both helpers share with the orchestrator, as the
helpers write it. *)
Definition result_text_of (response : SendMessageResponse) : str :=
  match response with
  | SuccessResponse (ResultTask t) =>
    match artifacts t with
    | Some (first :: rest) =>
      fold_left (fun result_text artifact =>
                   fold_left (fun acc part =>
                                match part with
                                | TextPart text => acc ++ text
                                | _ => acc
                                end) (artifact_parts artifact) result_text)
                (first :: rest) []
    | _ =>
      match message (status t) with
      | Some msg =>
        fold_left (fun acc part =>
                     match part with
                     | TextPart text => acc ++ text
                     | _ => acc
                     end) (message_parts msg) []
      | None => []
      end
    end
  | _ => []
  end.

Section WithRuntime.
Context `{PyRuntime}.

(** [send_a2a_message(agent_url, query)] of the demo client. *)
Definition send_a2a_message (client : orchestrator.a2a_client) (agent_url query : str)
  : result str :=
  try_except
    (response <- client agent_url query ;;
     let result_text := result_text_of response in
     Ok (if truthy (VStr result_text) then result_text else u "(Yanıt alınamadı)"))
    (fun e => Ok (u "❌ Hata: " ++ exc_str e)).

End WithRuntime.

(** [get_a2a_response(client, agent_url, query)] of the integration tests:
no handler, an exception of the call propagates. *)
Definition get_a2a_response (client : orchestrator.a2a_client) (agent_url query : str)
  : result str :=
  response <- client agent_url query ;;
  Ok (result_text_of response).

End test_helpers.

(* ------------------------------------------------------------------------- *)
(** ** A runtime to run the model with *)
(* ------------------------------------------------------------------------- *)

(** The built-ins below are written out for the inputs the examples of this
    file use; they are what CPython computes there. *)
Module reference.

(** [c.lower()] for a code point below U+0180 (Basic Latin, Latin-1
    Supplement, Latin Extended-A); other code points are returned as they
    are. *)
Definition lower_code_point (c : N) : list N :=
  (if (65 <=? c) && (c <=? 90) then [c + 32]
   else if (192 <=? c) && (c <=? 222) && negb (c =? 215) then [c + 32]
   else if (c =? 304) then [105; 775]
   else if (c =? 376) then [255]
   else if ((256 <=? c) && (c <=? 303)) || ((306 <=? c) && (c <=? 311))
           || ((330 <=? c) && (c <=? 375))
        then (if N.even c then [c + 1] else [c])
   else if ((313 <=? c) && (c <=? 328)) || ((377 <=? c) && (c <=? 382))
        then (if N.odd c then [c + 1] else [c])
   else [c])%N.

Definition lower (s : str) : str := flat_map lower_code_point s.

Definition round_half_even (num den : Z) : Z :=
  let q := (num / den)%Z in
  match (2 * (num mod den) ?= den)%Z with
  | Lt => q
  | Gt => (q + 1)%Z
  | Eq => if Z.even q then q else (q + 1)%Z
  end.

Definition float_of_Z (z : Z) : float :=
  let m := PrimFloat.of_uint63 (Uint63.of_Z (Z.abs z)) in
  if (z <? 0)%Z then PrimFloat.opp m else m.

(** [round(x, 1)]: the decimal with one digit nearest to [x] (ties to the
    even digit), then the float nearest to that decimal. *)
Definition round1 (x : float) : float :=
  match Prim2SF x with
  | S754_finite s m e =>
    let n := if s then Z.neg m else Z.pos m in
    let t := if (0 <=? e)%Z then (10 * n * 2 ^ e)%Z
             else round_half_even (10 * n) (2 ^ (- e)) in
    if (t =? 0)%Z then (if s then (-0)%float else 0%float)
    else if (Z.abs t <? 2 ^ 53)%Z then (float_of_Z t / 10)%float
    else x
  | _ => x
  end.

Fixpoint digits_rev (fuel : nat) (z : Z) : str :=
  match fuel with
  | O => []
  | S fuel' => (Z.to_N (48 + z mod 10)) :: digits_rev fuel' (z / 10)
  end.

(** [z] written with exactly [w] decimal digits. *)
Definition zero_padded (w : nat) (z : Z) : str := rev (digits_rev w z).

Fixpoint strip_zeros (l : str) : str :=
  match l with
  | c :: ((_ :: _) as r) => if (c =? 48)%N then strip_zeros r else l
  | _ => l
  end.

(** [str(z)] for an integer. *)
Definition decimal (z : Z) : str :=
  let a := Z.abs z in
  (if (z <? 0)%Z then u "-" else [])
  ++ strip_zeros (zero_padded (S (Z.to_nat (Z.log2 a))) a).

(** Year, month and day of a day count since 0001-01-01. *)
Definition civil (days : Z) : Z * Z * Z :=
  let z := (days + 306)%Z in
  let era := (z / 146097)%Z in
  let doe := (z mod 146097)%Z in
  let yoe := ((doe - doe / 1460 + doe / 36524 - doe / 146096) / 365)%Z in
  let doy := (doe - (365 * yoe + yoe / 4 - yoe / 100))%Z in
  let mp := ((5 * doy + 2) / 153)%Z in
  let d := (doy - (153 * mp + 2) / 5 + 1)%Z in
  let m := (if mp <? 10 then mp + 3 else mp - 9)%Z in
  let y := (yoe + era * 400 + (if m <=? 2 then 1 else 0))%Z in
  (y, m, d).

(** [t.isoformat()] *)
Definition isoformat (t : datetime) : str :=
  let '(y, m, d) := civil (t / us_per_day) in
  let r := (t mod us_per_day)%Z in
  let us := (r mod 1000000)%Z in
  let sec := (r / 1000000)%Z in
  zero_padded 4 y ++ u "-" ++ zero_padded 2 m ++ u "-" ++ zero_padded 2 d
  ++ u "T" ++ zero_padded 2 (sec / 3600) ++ u ":"
  ++ zero_padded 2 (sec / 60 mod 60) ++ u ":" ++ zero_padded 2 (sec mod 60)
  ++ (if (us =? 0)%Z then [] else u "." ++ zero_padded 6 us).

(** [str(v)] for [None], booleans and integers; other objects are not used
    by the examples and are rendered as [...]. *)
Definition repr_value (v : pyval) : str :=
  match v with
  | VNone => u "None"
  | VBool true => u "True"
  | VBool false => u "False"
  | VInt z => decimal z
  | _ => u "..."
  end.

(** [str(e)]: a [KeyError] shows its key quoted; the other messages are not
    used by the examples and are rendered as the class name. *)
Definition builtin_message (e : exn) : str :=
  match e with
  | KeyError k => u "'" ++ k ++ u "'"
  | TypeError => u "TypeError"
  | AttributeError => u "AttributeError"
  | ValueError => u "ValueError"
  | InvalidParamsError => u "InvalidParamsError"
  | UnsupportedOperationError => u "UnsupportedOperationError"
  | ExternalError m => m
  end.

(** A clock that starts on 2025-02-16 at 10:00 and advances by a
    microsecond per reading. *)
Definition utcnow (i : nat) : datetime :=
  (datetime_ymd 2025 2 16 + timedelta_hours 10 + Z.of_nat i)%Z.

Definition runtime : PyRuntime :=
  Build_PyRuntime lower round1 isoformat repr_value builtin_message utcnow.

(** The store of [mock_data] as imported under this runtime. *)
Definition store : mock_data.Store := mock_data.initial (H := runtime).
End reference.

(* ------------------------------------------------------------------------- *)
(** ** The notions the specification uses *)
(* ------------------------------------------------------------------------- *)

(** [needle] occurs in [hay] as a contiguous run of code points. *)
Definition substring (needle hay : str) : Prop :=
  exists before after, hay = before ++ needle ++ after.

Section SpecificationNotions.
Context `{PyRuntime}.

(** The matching rule of the product search, in the words of the
    specification: the lowercased query is a substring of the lowercased
    name, description or brand, or of some lowercased tag. *)
Definition matches_rule (query : str) (p : Product.t) : Prop :=
  substring (lower query) (lower (Product.name p))
  \/ substring (lower query) (lower (Product.description p))
  \/ substring (lower query) (lower (Product.brand p))
  \/ exists tag, In tag (Product.tags p) /\ substring (lower query) (lower tag).

(** None of the optional filters of [search_products] is supplied (or the
    one supplied is falsy, which the code treats alike). *)
Definition no_filters (args : pydict) : Prop :=
  truthy (dict_get (u "category") args) = false
  /\ truthy (dict_get (u "max_price") args) = false
  /\ truthy (dict_get (u "min_rating") args) = false
  /\ truthy (dict_get (u "in_stock_only") args) = false.


(** The payload of a refused cancellation: [cancellable] is false and the
error text includes the current status of the order. *)
Definition not_cancellable_payload (s : OrderStatus.t) (p : pyval) : Prop :=
  exists msg,
    p = VDict [ (u "error", VStr msg); (u "cancellable", VBool false) ]
    /\ substring (OrderStatus.value s) msg.

(** What the specification asks of a cancellation tool [call] on an order
[o] that cannot be cancelled: the call is refused, the store and the order
in it are unchanged, and a second call is refused as well. *)
Definition refuses_twice
           (call : mock_data.Store -> str -> pydict -> result pyval * mock_data.Store)
           (st : mock_data.Store) (args : pydict) (order_id : pyval) (o : Order.t)
  : Prop :=
  let r1 := call st (u "cancel_order") args in
  let r2 := call (snd r1) (u "cancel_order") args in
  (exists p, fst r1 = Ok p /\ not_cancellable_payload (Order.status o) p)
  /\ snd r1 = st
  /\ mock_data.get_order_by_id (snd r1) order_id = Some o
  /\ (exists p, fst r2 = Ok p /\ not_cancellable_payload (Order.status o) p)
  /\ snd r2 = st.

End SpecificationNotions.

(** The field [k] of a payload, when the result is a dict that has it. *)
Definition result_field (k : str) (r : result pyval) : option pyval :=
  match r with
  | Ok (VDict d) => dict_lookup k d
  | _ => None
  end.

(** Two tool results are the same: the same exception, or dicts with the same
object under every key (whatever the order of the keys), or equal objects. *)
Definition same_result (a b : result pyval) : Prop :=
  match a, b with
  | Ok (VDict d1), Ok (VDict d2) => forall k, dict_lookup k d1 = dict_lookup k d2
  | Ok x, Ok y => x = y
  | Raise e1, Raise e2 => e1 = e2
  | _, _ => False
  end.

(** The equivalence the specification asks of a local fallback: for a tool
name and arguments, it returns what the dispatcher of the backend returns. *)
Definition fallback_agrees `{PyRuntime}
           (fallback : mock_data.Store -> str -> pydict -> result pyval * mock_data.Store)
           (st : mock_data.Store) (name : str) (args : pydict) : Prop :=
  same_result (fst (fallback st name args))
              (fst (mcp_server._dispatch_tool st name args)).

(** The fields of a dict. *)
Definition fields (v : pyval) : pydict :=
  match v with
  | VDict d => d
  | _ => []
  end.

(** The disabled-search payload: an explanatory message, an empty result
list, no [error] field; and no request was sent to the provider. *)
Definition search_disabled (r : web_result) : Prop :=
  exists msg,
    msg <> []
    /\ r = (Ok (VDict [ (u "message", VStr msg); (u "results", VList []) ]), [])
    /\ result_field (u "error") (fst r) = None.

(** The texts of the text parts of a list of parts, concatenated in order. *)
Definition text_parts (parts : list a2a.Part) : str :=
  concat (map (fun p => match p with a2a.TextPart t => t | _ => [] end) parts).

(** A sequence of states with the repetitions of a state removed. *)
Fixpoint destutter (l : list a2a.TaskState) : list a2a.TaskState :=
  match l with
  | [] => []
  | x :: l' =>
    match l' with
    | y :: _ =>
      match x, y with
      | a2a.submitted, a2a.submitted | a2a.working, a2a.working
      | a2a.completed, a2a.completed | a2a.failed, a2a.failed
      | a2a.canceled, a2a.canceled => destutter l'
      | _, _ => x :: destutter l'
      end
    | [] => [x]
    end
  end.

(** [l] is an initial segment of [m]. *)
Definition is_prefix {A} (l m : list A) : Prop := exists rest, m = l ++ rest.

(** The lifecycle of the specification:
submitted, then working, then completed or failed. *)
Definition lifecycle_prefix (states : list a2a.TaskState) : Prop :=
  is_prefix (destutter states) [a2a.submitted; a2a.working; a2a.completed]
  \/ is_prefix (destutter states) [a2a.submitted; a2a.working; a2a.failed].

(** The states of the status updates of the task [id] in a queue, in order. *)
Definition task_states_of (id : str) (q : list a2a.Event) : list a2a.TaskState :=
  flat_map (fun e =>
              match e with
              | a2a.StatusUpdate task s _ => if str_eqb task id then [s] else []
              | _ => []
              end) q.

(** What the specification asks of every task: its states are a prefix of
the lifecycle, and completed and failed do not both occur. *)
Definition task_follows_lifecycle (id : str) (q : list a2a.Event) : Prop :=
  lifecycle_prefix (task_states_of id q)
  /\ ~ (In a2a.completed (task_states_of id q)
        /\ In a2a.failed (task_states_of id q)).

(* ------------------------------------------------------------------------- *)
(** ** The notions the further properties use *)
(* ------------------------------------------------------------------------- *)

(** A result that is not a [KeyError]. *)
Definition no_key_error {A} (r : result A) : Prop := forall k, r <> Raise (KeyError k).

(** A result that is not the answer given to an unknown tool name. *)
Definition not_unknown_tool (r : result pyval) : Prop :=
  forall x, r <> Ok (error_payload (u "Unknown tool: " ++ x)).

(** A test that held: it returned [True]. *)
Definition holds (r : result bool) : bool :=
  match r with Ok true => true | _ => false end.

(** A product passes the optional filters of [search_products] that [args]
supplies; a filter is supplied when its value is truthy. *)
Definition passes_filters (args : pydict) (p : Product.t) : Prop :=
  (truthy (dict_get (u "category") args) = true ->
   dict_get (u "category") args = VStr (ProductCategory.value (Product.category p)))
  /\ (truthy (dict_get (u "max_price") args) = true ->
      float_le_value (Product.price p) (dict_get (u "max_price") args) = Ok true)
  /\ (truthy (dict_get (u "min_rating") args) = true ->
      float_ge_value (Product.rating p) (dict_get (u "min_rating") args) = Ok true)
  /\ (truthy (dict_get (u "in_stock_only") args) = true ->
      Product.in_stock p = true).

(** The price and rating bounds that [args] supplies are numbers. *)
Definition numeric_bounds (args : pydict) : Prop :=
  (truthy (dict_get (u "max_price") args) = true ->
   value_as_number (dict_get (u "max_price") args) <> None)
  /\ (truthy (dict_get (u "min_rating") args) = true ->
      value_as_number (dict_get (u "min_rating") args) <> None).

(** The test a product passes to be listed by the [search_products] tool:
the test of the search loop and the tests of the filtering stages. *)
Definition search_listed `{PyRuntime} (q : str) (args : pydict) (p : Product.t)
  : bool :=
  mock_data.search_hit (lower q) p
  && (if truthy (dict_get (u "category") args)
      then str_eq_value (ProductCategory.value (Product.category p))
                        (dict_get (u "category") args)
      else true)
  && (if truthy (dict_get (u "max_price") args)
      then holds (float_le_value (Product.price p) (dict_get (u "max_price") args))
      else true)
  && (if truthy (dict_get (u "min_rating") args)
      then holds (float_ge_value (Product.rating p) (dict_get (u "min_rating") args))
      else true)
  && (if truthy (dict_get (u "in_stock_only") args) then Product.in_stock p else true).

(** [a] is rated at least as high as [b]. *)
Definition rated_above (a b : Product.t) : Prop :=
  PrimFloat.leb (Product.rating b) (Product.rating a) = true.

(** No rating of the catalogue is a NaN, so that ratings are totally
ordered and sorting by rating has one result. *)
Definition ratings_are_numbers (l : list Product.t) : Prop :=
  forall p, In p l -> PrimFloat.is_nan (Product.rating p) = false.

(** A cancellation tool [call] that accepts to cancel the order [o] and
records nothing: the answer reports success, the id of the order and its
total as the refund, yet the status reported afterwards is the one the order
had, and the same cancellation is accepted again. *)
Definition cancels_in_name_only
           (call : mock_data.Store -> str -> pydict -> result pyval * mock_data.Store)
           (st : mock_data.Store) (args : pydict) (o : Order.t) : Prop :=
  let r1 := call st (u "cancel_order") args in
  let r2 := call (snd r1) (u "get_order_status") args in
  let r3 := call (snd r2) (u "cancel_order") args in
  result_field (u "success") (fst r1) = Some (VBool true)
  /\ result_field (u "order_id") (fst r1) = Some (VStr (Order.id o))
  /\ result_field (u "refund_amount") (fst r1) = Some (VFloat (Order.total o))
  /\ (exists msg,
         result_field (u "message") (fst r1) = Some (VStr msg)
         /\ substring (Order.id o) msg)
  /\ result_field (u "status") (fst r2)
     = Some (VStr (OrderStatus.value (Order.status o)))
  /\ fst r3 = fst r1.

(** No string occurs twice in the list. *)
Fixpoint all_distinct (l : list str) : bool :=
  match l with
  | [] => true
  | x :: l' => negb (existsb (str_eqb x) l') && all_distinct l'
  end.

(** [len(v)] where it is defined. *)
Definition py_len (v : pyval) : option nat :=
  match v with
  | VStr s => Some (length s)
  | VList l => Some (length l)
  | VDict d => Some (length d)
  | _ => None
  end.

(** An object of at most [n] characters (or elements). *)
Definition at_most (n : nat) (v : pyval) : Prop :=
  exists k, py_len v = Some k /\ (k <= n)%nat.

(** What a web-search tool does when a key is configured: it sends the one
[request] to the provider and always returns a payload; when the provider
call raises, the payload reports the text of the exception under [error];
and the list of sources under the key [sources], when there is one, has at
most [m] entries, whose field [excerpt] holds at most [n] characters. *)
Definition guarded_search `{PyRuntime} (tavily : tavily_api) (key : str)
           (request : tavily_request) (sources excerpt : str) (m n : nat)
           (r : web_result) : Prop :=
  snd r = [request]
  /\ (exists payload, fst r = Ok payload)
  /\ (forall e, tavily key request = Raise e ->
                result_field (u "error") (fst r) = Some (VStr (exc_str e)))
  /\ (forall l, result_field sources (fst r) = Some (VList l) ->
                (length l <= m)%nat
                /\ forall entry, In entry l ->
                                 exists text,
                                   dict_lookup excerpt (fields entry) = Some text
                                   /\ at_most n text).

(** A tool call that returns a payload: it does not raise. *)
Definition tool_answers (r : result pyval * mock_data.Store) : Prop :=
  exists payload, fst r = Ok payload.

(** The task an A2A server keeps for a run, as far as the delegation client
reads it: its artifacts are those of the artifact updates, in order, and its
status is that of the last status update. *)
Definition artifacts_of (q : list a2a.Event) : list a2a.Artifact :=
  flat_map (fun e => match e with a2a.ArtifactUpdate _ a => [a] | _ => [] end) q.

Definition last_status (q : list a2a.Event) : option a2a.TaskStatus :=
  fold_left (fun acc e =>
               match e with
               | a2a.StatusUpdate _ s m => Some {| a2a.state := s; a2a.message := m |}
               | _ => acc
               end) q None.

Definition task_of_events (t : a2a.Task) (emitted : list a2a.Event) : Prop :=
  match a2a.artifacts t with Some l => l | None => [] end = artifacts_of emitted
  /\ Some (a2a.status t) = last_status emitted.

(** What an executor reports for the outcome of a run of its agent: the last
answer of the agent, its default sentence when the agent said nothing, its
error sentence when the run raised. *)
Definition reported `{PyRuntime} (tx : executor.texts) (outcome : result str) : str :=
  match outcome with
  | Ok [] => executor.default_response tx
  | Ok produced => produced
  | Raise e => executor.error_text tx (exc_str e)
  end.

(** The white space [str.strip] removes ([str.isspace]). *)
Definition is_space (c : N) : bool :=
  existsb (N.eqb c)
          [ 9; 10; 11; 12; 13; 28; 29; 30; 31; 32; 133; 160; 5760;
            8192; 8193; 8194; 8195; 8196; 8197; 8198; 8199; 8200; 8201; 8202;
            8232; 8233; 8239; 8287; 12288 ]%N.

Fixpoint lstrip (s : str) : str :=
  match s with
  | c :: s' => if is_space c then lstrip s' else s
  | [] => []
  end.

(** A [strip] to run the chat endpoint with. *)
Definition py_strip (s : str) : str := rev (lstrip (rev (lstrip s))).

(** The code points [encode("utf-8")] refuses: the surrogates. *)
Definition is_surrogate (c : N) : bool := ((55296 <=? c) && (c <=? 57343))%N.

Definition encodable (s : str) : bool := negb (existsb is_surrogate s).

(** What [json.dumps(v, ensure_ascii=False, allow_nan=False)] refuses in
[v], the first in the order it writes: a float that is not finite with a
[ValueError], an object [json] has no encoding for with a [TypeError]. *)
Fixpoint dumps_refusal (v : pyval) : option exn :=
  match v with
  | VFloat f => if PrimFloat.is_finite f then None else Some ValueError
  | VDatetime _ => Some TypeError
  | VList l =>
    (fix each (l : list pyval) : option exn :=
       match l with
       | [] => None
       | x :: l' => match dumps_refusal x with
                    | Some e => Some e
                    | None => each l'
                    end
       end) l
  | VDict kv =>
    (fix each (kv : list (str * pyval)) : option exn :=
       match kv with
       | [] => None
       | (_, x) :: kv' => match dumps_refusal x with
                          | Some e => Some e
                          | None => each kv'
                          end
       end) kv
  | _ => None
  end.

(** Whether every text and key of [v] has a UTF-8 encoding. *)
Fixpoint texts_encodable (v : pyval) : bool :=
  match v with
  | VStr s => encodable s
  | VList l =>
    (fix each (l : list pyval) : bool :=
       match l with
       | [] => true
       | x :: l' => texts_encodable x && each l'
       end) l
  | VDict kv =>
    (fix each (kv : list (str * pyval)) : bool :=
       match kv with
       | [] => true
       | (k, x) :: kv' => encodable k && texts_encodable x && each kv'
       end) kv
  | _ => true
  end.

(** A [render] to run the chat endpoint with: the text is written, then
encoded, and [UnicodeEncodeError] is a [ValueError].  An integer is taken to
have no more digits than the interpreter converts. *)
Definition py_render (v : pyval) : option exn :=
  match dumps_refusal v with
  | Some e => Some e
  | None => if texts_encodable v then None else Some ValueError
  end.

(** The text of an answer of the language model: a string as it is, a list
of blocks as its text blocks joined by spaces. *)
Definition content_text (c : executor.content) : str :=
  match c with
  | executor.ContentStr s => s
  | executor.ContentList l =>
    executor.join_space
      (flat_map (fun b => match b with
                          | executor.TextBlock t => [t]
                          | executor.OtherBlock => []
                          end) l)
  end.

(** A streamed chunk answers with [t]: its last message is a message of the
language model with a content that is not empty, whose text is [t]. *)
Definition answers (c : executor.chunk) (t : str) : Prop :=
  exists before content,
    c = before ++ [executor.AIMessage content]
    /\ executor.content_truthy content = true
    /\ t = content_text content.

(** A chunk that carries no answer: a tool call, a tool result, the
question itself. *)
Definition silent (c : executor.chunk) : Prop := forall t, ~ answers c t.

(** A payload lists the products [l] under [key]. *)
Definition lists_products `{PyRuntime} (payload : pyval) (key : str)
           (l : list Product.t) : Prop :=
  dict_lookup key (fields payload) = Some (VList (map mcp_server._product_summary l)).

(** A product that can be looked up by the id its listing shows: the
details tool answers with the dump of a stored product that has this id. *)
Definition can_be_looked_up `{PyRuntime} (st : mock_data.Store) (p : Product.t)
  : Prop :=
  exists stored,
    In stored (mock_data.products st)
    /\ Product.id stored = Product.id p
    /\ fst (mcp_server._dispatch_tool st (u "get_product_details")
              [(u "product_id", VStr (Product.id p))])
       = Ok (Product.model_dump stored).

(** [schema["properties"][prop][key]] of the input schema of a tool. *)
Definition schema_property (t : mcp_server_api.Tool) (prop key : str) : option pyval :=
  match dict_lookup (u "properties") (fields (mcp_server_api.inputSchema t)) with
  | Some properties =>
    match dict_lookup prop (fields properties) with
    | Some described => dict_lookup key (fields described)
    | None => None
    end
  | None => None
  end.

(** The values a schema lists under an [enum]. *)
Definition enum_values (v : option pyval) : list pyval :=
  match v with
  | Some (VList l) => l
  | _ => []
  end.

(* ========================================================================= *)
(** * Properties *)
(* ========================================================================= *)

Unset Implicit Arguments.

(* ------------------------------------------------------------------------- *)
(** ** Strings and lists *)
(* ------------------------------------------------------------------------- *)

Lemma str_eqb_refl (a : str) : str_eqb a a = true.
Proof.
  induction a as [|x a IH]; simpl; [reflexivity|].
  now rewrite N.eqb_refl.
Qed.

Lemma str_eqb_eq (a b : str) : str_eqb a b = true <-> a = b.
Proof.
  split.
  - revert b; induction a as [|x a IH]; intros [|y b] E; simpl in E;
      try discriminate; [reflexivity|].
    apply andb_true_iff in E as [E1 E2].
    apply N.eqb_eq in E1. apply IH in E2. now subst.
  - intros ->. apply str_eqb_refl.
Qed.

Lemma starts_with_spec (p s : str) :
  starts_with p s = true <-> exists rest, s = p ++ rest.
Proof.
  revert s; induction p as [|x p IH]; intros s; simpl.
  - split; [intros _; now exists s | reflexivity].
  - destruct s as [|y s].
    + split; [discriminate | intros [r E]; discriminate].
    + rewrite andb_true_iff, N.eqb_eq, IH. split.
      * intros [-> [r ->]]. now exists r.
      * intros [r E]. injection E as -> ->. split; [reflexivity | now exists r].
Qed.

Lemma py_in_spec (needle hay : str) :
  py_in needle hay = true <-> substring needle hay.
Proof.
  unfold substring. induction hay as [|c hay IH].
  - simpl. rewrite orb_false_r, starts_with_spec. split.
    + intros [r E]. exists [], r. exact E.
    + intros [[|b before] [r E]]; [now exists r | discriminate].
  - simpl. rewrite orb_true_iff, starts_with_spec, IH. split.
    + intros [[r E] | [before [after E]]].
      * exists [], r. exact E.
      * exists (c :: before), after. now rewrite E.
    + intros [[|b before] [after E]].
      * left. now exists after.
      * right. injection E as _ E. now exists before, after.
Qed.

Lemma py_in_nil (hay : str) : py_in [] hay = true.
Proof. destruct hay; reflexivity. Qed.

(** A loop that appends the elements passing a test computes [filter]. *)
Lemma append_loop_filter {A} (f : A -> bool) (l acc : list A) :
  fold_left (fun results x => if f x then results ++ [x] else results) l acc
  = acc ++ filter f l.
Proof.
  revert acc; induction l as [|x l IH]; intros acc; simpl.
  - now rewrite app_nil_r.
  - rewrite IH. destruct (f x); [|reflexivity].
    now rewrite <- app_assoc.
Qed.

Lemma filter_r_incl {A} (f : A -> result bool) (l r : list A) :
  filter_r f l = Ok r -> forall x, In x r -> In x l.
Proof.
  revert r; induction l as [|a l IH]; intros r E x Hx; simpl in E.
  - injection E as <-. exact Hx.
  - destruct (f a) as [b|e]; simpl in E; [|discriminate].
    destruct (filter_r f l) as [r'|e]; simpl in E; [|discriminate].
    injection E as <-. destruct b.
    + destruct Hx as [->|Hx]; [now left | right; now apply (IH r')].
    + right. now apply (IH r').
Qed.

Lemma filter_all {A} (f : A -> bool) (l : list A) :
  (forall x, In x l -> f x = true) -> filter f l = l.
Proof.
  induction l as [|a l IH]; intros Hf; simpl; [reflexivity|].
  rewrite (Hf a (or_introl eq_refl)), IH; [reflexivity|].
  intros x Hx. apply Hf. now right.
Qed.

Lemma filter_none {A} (f : A -> bool) (l : list A) :
  (forall x, In x l -> f x = false) -> filter f l = [].
Proof.
  induction l as [|a l IH]; intros Hf; simpl; [reflexivity|].
  rewrite (Hf a (or_introl eq_refl)). apply IH.
  intros x Hx. apply Hf. now right.
Qed.

Lemma bind_ok {A B} (a : A) (k : A -> result B) : bind (Ok a) k = k a.
Proof. reflexivity. Qed.

Lemma bind_inv {A B} (m : result A) (k : A -> result B) (b : B) :
  bind m k = Ok b -> exists a, m = Ok a /\ k a = Ok b.
Proof. destruct m as [a|e]; simpl; [now exists a | discriminate]. Qed.

(** An optional filtering stage only removes elements. *)
Lemma stage_filter_incl {A} (b : bool) (f : A -> bool) (l r : list A) :
  (if b then Ok (filter f l) else Ok l) = Ok r -> forall x, In x r -> In x l.
Proof.
  destruct b; intros E; injection E as <-; [|tauto].
  intros x Hx. now apply filter_In in Hx.
Qed.

Lemma stage_filter_r_incl {A} (b : bool) (f : A -> result bool) (l r : list A) :
  (if b then filter_r f l else Ok l) = Ok r -> forall x, In x r -> In x l.
Proof.
  destruct b; intros E; [now apply (filter_r_incl f l) | injection E as <-; tauto].
Qed.

Lemma dict_getitem_lookup (k : str) (d : pydict) (v : pyval) :
  dict_lookup k d = Some v -> dict_getitem k d = Ok v /\ dict_get k d = v.
Proof. unfold dict_getitem, dict_get. now intros ->. Qed.

(* ------------------------------------------------------------------------- *)
(** ** Product search *)
(* ------------------------------------------------------------------------- *)

Section ProductSearch.
Context `{PyRuntime}.
Import mock_data mcp_server.

Lemma search_hit_rule (q : str) (p : Product.t) :
  search_hit (lower q) p = true <-> matches_rule q p.
Proof.
  unfold search_hit, matches_rule, py_any.
  rewrite !orb_true_iff, !py_in_spec, existsb_exists.
  setoid_rewrite py_in_spec. tauto.
Qed.

Lemma search_products_filter (st : Store) (q : str) :
  search_products st (VStr q) = Ok (filter (search_hit (lower q)) (products st)).
Proof. unfold search_products. now rewrite append_loop_filter. Qed.

Lemma search_products_In (st : Store) (q : str) (p : Product.t) :
  In p (filter (search_hit (lower q)) (products st))
  <-> In p (products st) /\ matches_rule q p.
Proof. now rewrite filter_In, search_hit_rule. Qed.

Lemma dispatch_search_products (st : Store) (args : pydict) :
  _dispatch_tool st (u "search_products") args = (search_products_tool st args, st).
Proof. reflexivity. Qed.

(** The filtering stages of the tool only remove products. *)
Lemma search_products_tool_shape (st : Store) (args : pydict) (q : str)
      (payload : pyval) :
  dict_lookup (u "query") args = Some (VStr q) ->
  search_products_tool st args = Ok payload ->
  exists results,
    payload = VDict [ (u "products", VList (map _product_summary results));
                      (u "total", VLen results);
                      (u "query", VStr q) ]
    /\ forall p, In p results -> In p (filter (search_hit (lower q)) (products st)).
Proof.
  intros Hq. unfold search_products_tool.
  destruct (dict_getitem_lookup _ _ _ Hq) as [-> _].
  rewrite bind_ok, search_products_filter, bind_ok.
  intros E.
  apply bind_inv in E as (r1 & E1 & E).
  apply bind_inv in E as (r2 & E2 & E).
  apply bind_inv in E as (r3 & E3 & E).
  apply bind_inv in E as (r4 & E4 & E).
  injection E as <-. exists r4. split; [reflexivity|].
  intros p Hp.
  apply (stage_filter_incl _ _ _ _ E1), (stage_filter_r_incl _ _ _ _ E2),
        (stage_filter_r_incl _ _ _ _ E3), (stage_filter_incl _ _ _ _ E4), Hp.
Qed.

(** With nothing selected by the query, every stage works on the empty
    list, whatever the filters are. *)
Lemma search_products_tool_empty (st : Store) (args : pydict) (q : str) :
  dict_lookup (u "query") args = Some (VStr q) ->
  filter (search_hit (lower q)) (products st) = [] ->
  search_products_tool st args
  = Ok (VDict [ (u "products", VList []); (u "total", VInt 0);
                (u "query", VStr q) ]).
Proof.
  intros Hq Hnone. unfold search_products_tool.
  destruct (dict_getitem_lookup _ _ _ Hq) as [-> _].
  rewrite bind_ok, search_products_filter, bind_ok, Hnone.
  destruct (truthy (dict_get (u "category") args)); simpl;
    destruct (truthy (dict_get (u "max_price") args)); simpl;
      destruct (truthy (dict_get (u "min_rating") args)); simpl;
        destruct (truthy (dict_get (u "in_stock_only") args)); reflexivity.
Qed.

Lemma search_products_tool_unfiltered (st : Store) (args : pydict) (q : str) :
  dict_lookup (u "query") args = Some (VStr q) ->
  no_filters args ->
  search_products_tool st args
  = Ok (let results := filter (search_hit (lower q)) (products st) in
        VDict [ (u "products", VList (map _product_summary results));
                (u "total", VLen results);
                (u "query", VStr q) ]).
Proof.
  intros Hq (Hc & Hp & Hr & Hs). unfold search_products_tool.
  destruct (dict_getitem_lookup _ _ _ Hq) as [-> _].
  rewrite bind_ok, search_products_filter, bind_ok.
  now rewrite Hc, Hp, Hr, Hs.
Qed.
End ProductSearch.

(** The absence of a match can be checked by running the loop test. *)
Lemma no_match_by_test `{PyRuntime} (st : mock_data.Store) (q : str) :
  forallb (fun p => negb (mock_data.search_hit (lower q) p)) (mock_data.products st)
  = true ->
  forall p, In p (mock_data.products st) -> ~ matches_rule q p.
Proof.
  intros Hall p Hp Hm. rewrite forallb_forall in Hall.
  apply search_hit_rule in Hm. specialize (Hall p Hp). now rewrite Hm in Hall.
Qed.

(** C6. [search_products] selects a product exactly when the lowercased
    query is a substring of its lowercased name, description or brand, or of
    one of its lowercased tags; and when no product matches the query the
    [search_products] tool returns [products] equal to the empty list and
    [total] equal to 0 (with or without optional filters) and leaves the
    store as it was. *)
Theorem search_products_no_match `{PyRuntime} (st : mock_data.Store) (q : str) :
  (exists results,
      mock_data.search_products st (VStr q) = Ok results
      /\ forall p, In p results <-> In p (mock_data.products st) /\ matches_rule q p)
  /\ forall args,
      dict_lookup (u "query") args = Some (VStr q) ->
      (forall p, In p (mock_data.products st) -> ~ matches_rule q p) ->
      mcp_server._dispatch_tool st (u "search_products") args
      = (Ok (VDict [ (u "products", VList []); (u "total", VInt 0);
                     (u "query", VStr q) ]), st).
Proof.
  split.
  - exists (filter (mock_data.search_hit (lower q)) (mock_data.products st)).
    split; [apply search_products_filter | apply search_products_In].
  - intros args Hq Hnone.
    rewrite dispatch_search_products. f_equal.
    apply search_products_tool_empty; [exact Hq|].
    apply filter_none. intros p Hp.
    destruct (mock_data.search_hit (lower q) p) eqn:E; [|reflexivity].
    exfalso. apply (Hnone p Hp). now apply search_hit_rule.
Qed.

(** No product of the catalogue mentions a drone. *)
Lemma search_products_no_match_witness :
  mcp_server._dispatch_tool (H := reference.runtime) reference.store
    (u "search_products") [(u "query", VStr (u "drone"))]
  = (Ok (VDict [ (u "products", VList []); (u "total", VInt 0);
                 (u "query", VStr (u "drone")) ]), reference.store).
Proof.
  apply (proj2 (search_products_no_match (H := reference.runtime)
                  reference.store (u "drone"))).
  - reflexivity.
  - apply no_match_by_test. vm_compute. reflexivity.
Defined.

(** C10. With a [lower] that maps the empty string to itself, the
    [search_products] tool called with the empty query and no optional filter
    returns one entry per stored product, in catalogue order, and [total]
    equal to the number of stored products, which is 10 for the catalogue of
    [mock_data]; and for any query and any filters, every product of a
    returned payload is a stored product that the substring rule matches. *)
Theorem search_products_empty_query `{PyRuntime} :
  lower [] = [] ->
  (forall st args,
      dict_lookup (u "query") args = Some (VStr []) ->
      no_filters args ->
      mcp_server._dispatch_tool st (u "search_products") args
      = (Ok (VDict [ (u "products",
                      VList (map mcp_server._product_summary (mock_data.products st)));
                     (u "total", VLen (mock_data.products st));
                     (u "query", VStr []) ]), st))
  /\ mcp_server._dispatch_tool mock_data.initial (u "search_products")
       [(u "query", VStr [])]
     = (Ok (VDict [ (u "products",
                     VList (map mcp_server._product_summary mock_data.PRODUCTS));
                    (u "total", VInt 10);
                    (u "query", VStr []) ]), mock_data.initial)
  /\ (forall st args q payload,
         dict_lookup (u "query") args = Some (VStr q) ->
         fst (mcp_server._dispatch_tool st (u "search_products") args) = Ok payload ->
         exists results,
           payload = VDict [ (u "products",
                              VList (map mcp_server._product_summary results));
                             (u "total", VLen results);
                             (u "query", VStr q) ]
           /\ forall p, In p results ->
                        In p (mock_data.products st) /\ matches_rule q p).
Proof.
  intros Hlower.
  assert (Hall : forall st args,
             dict_lookup (u "query") args = Some (VStr []) ->
             no_filters args ->
             mcp_server._dispatch_tool st (u "search_products") args
             = (Ok (VDict [ (u "products",
                             VList (map mcp_server._product_summary
                                        (mock_data.products st)));
                            (u "total", VLen (mock_data.products st));
                            (u "query", VStr []) ]), st)).
  { intros st args Hq Hnf.
    rewrite dispatch_search_products. f_equal.
    rewrite (search_products_tool_unfiltered st args [] Hq Hnf). cbv zeta.
    rewrite filter_all; [reflexivity|].
    intros p _. unfold mock_data.search_hit.
    now rewrite Hlower, py_in_nil. }
  split; [exact Hall|split].
  - rewrite (Hall mock_data.initial [(u "query", VStr [])] eq_refl).
    + reflexivity.
    + repeat split; vm_compute; reflexivity.
  - intros st args q payload Hq E.
    rewrite dispatch_search_products in E. simpl fst in E.
    destruct (search_products_tool_shape st args q payload Hq E) as (results & -> & Hin).
    exists results. split; [reflexivity|].
    intros p Hp. now apply search_products_In, Hin.
Qed.

(** The empty query on the catalogue of [mock_data], and the query laptop
    filtered by price. *)
Lemma search_products_empty_query_witness :
  mcp_server._dispatch_tool (H := reference.runtime) reference.store
    (u "search_products") [(u "query", VStr [])]
  = (Ok (VDict [ (u "products",
                  VList (map (mcp_server._product_summary (H := reference.runtime))
                             (mock_data.products reference.store)));
                 (u "total", VLen (mock_data.products reference.store));
                 (u "query", VStr []) ]), reference.store)
  /\ exists results,
      fst (mcp_server._dispatch_tool (H := reference.runtime) reference.store
             (u "search_products")
             [(u "query", VStr (u "laptop")); (u "max_price", VInt 60000)])
      = Ok (VDict [ (u "products",
                     VList (map (mcp_server._product_summary (H := reference.runtime))
                                results));
                    (u "total", VLen results);
                    (u "query", VStr (u "laptop")) ])
      /\ forall p, In p results ->
                   In p (mock_data.products reference.store)
                   /\ matches_rule (H := reference.runtime) (u "laptop") p.
Proof.
  destruct (search_products_empty_query (H := reference.runtime) eq_refl)
    as (Hall & _ & Hsound).
  split.
  - apply (Hall reference.store [(u "query", VStr [])]).
    + reflexivity.
    + repeat split; vm_compute; reflexivity.
  - destruct (fst (mcp_server._dispatch_tool (H := reference.runtime) reference.store
                     (u "search_products")
                     [(u "query", VStr (u "laptop")); (u "max_price", VInt 60000)]))
      as [payload|e] eqn:E.
    + destruct (Hsound reference.store
                  [(u "query", VStr (u "laptop")); (u "max_price", VInt 60000)]
                  (u "laptop") payload eq_refl E)
        as (results & -> & Hin).
      exists results. split; [reflexivity | exact Hin].
    + vm_compute in E. discriminate E.
Defined.

(** The search folds case as [str.lower] does: the description of prod-007
    starts with a dotted capital I, whose lowercase is an i followed by a
    combining dot, so the query ikonik does not find it, while LEVI does. *)
Example search_products_case_folding :
  fst (mcp_server._dispatch_tool (H := reference.runtime) reference.store
         (u "search_products") [(u "query", VStr (u "ikonik"))])
  = Ok (VDict [ (u "products", VList []); (u "total", VInt 0);
                (u "query", VStr (u "ikonik")) ])
  /\ result_field (u "total")
       (fst (mcp_server._dispatch_tool (H := reference.runtime) reference.store
               (u "search_products") [(u "query", VStr (u "LEVI"))]))
     = Some (VInt 1).
Proof. split; vm_compute; reflexivity. Qed.

(* ------------------------------------------------------------------------- *)
(** ** The branches of the dispatchers *)
(* ------------------------------------------------------------------------- *)

Section Dispatch.
Context `{PyRuntime}.
Import mock_data.

Lemma dispatch_get_product_details (st : Store) (args : pydict) :
  mcp_server._dispatch_tool st (u "get_product_details") args
  = (mcp_server.get_product_details_tool st args, st).
Proof. reflexivity. Qed.

Lemma dispatch_check_product_availability (st : Store) (args : pydict) :
  mcp_server._dispatch_tool st (u "check_product_availability") args
  = (mcp_server.check_product_availability_tool st args, st).
Proof. reflexivity. Qed.

Lemma dispatch_get_order_status (st : Store) (args : pydict) :
  mcp_server._dispatch_tool st (u "get_order_status") args
  = (mcp_server.get_order_status_tool st args, st).
Proof. reflexivity. Qed.

Lemma dispatch_get_customer_profile (st : Store) (args : pydict) :
  mcp_server._dispatch_tool st (u "get_customer_profile") args
  = (mcp_server.get_customer_profile_tool st args, st).
Proof. reflexivity. Qed.

Lemma dispatch_get_recommendations (st : Store) (args : pydict) :
  mcp_server._dispatch_tool st (u "get_recommendations") args
  = (mcp_server.get_recommendations_tool st args, st).
Proof. reflexivity. Qed.

Lemma dispatch_cancel_order (st : Store) (args : pydict) :
  mcp_server._dispatch_tool st (u "cancel_order") args
  = (mcp_server.cancel_order_tool st args, st).
Proof. reflexivity. Qed.

Lemma order_fallback_get_order_status (st : Store) (args : pydict) :
  order_agent._direct_tool_call st (u "get_order_status") args
  = (order_agent.get_order_status_fallback st args, st).
Proof. reflexivity. Qed.

Lemma order_fallback_cancel_order (st : Store) (args : pydict) :
  order_agent._direct_tool_call st (u "cancel_order") args
  = (order_agent.cancel_order_fallback st args, st).
Proof. reflexivity. Qed.

Lemma product_fallback_search_products (st : Store) (args : pydict) :
  product_agent._direct_tool_call st (u "search_products") args
  = (product_agent.search_products_fallback st args, st).
Proof. reflexivity. Qed.

Lemma product_fallback_get_product_details (st : Store) (args : pydict) :
  product_agent._direct_tool_call st (u "get_product_details") args
  = (product_agent.get_product_details_fallback st args, st).
Proof. reflexivity. Qed.

Lemma product_fallback_get_recommendations (st : Store) (args : pydict) :
  product_agent._direct_tool_call st (u "get_recommendations") args
  = (product_agent.get_recommendations_fallback st args, st).
Proof. reflexivity. Qed.

Lemma order_fallback_get_customer_profile (st : Store) (args : pydict) :
  order_agent._direct_tool_call st (u "get_customer_profile") args
  = (order_agent.get_customer_profile_fallback st args, st).
Proof. reflexivity. Qed.




Lemma status_not_cancellable (s : OrderStatus.t) :
  s <> OrderStatus.PENDING -> s <> OrderStatus.CONFIRMED ->
  mcp_server.not_cancellable s = true /\ order_agent.not_cancellable s = true.
Proof. destruct s; intros H1 H2; try contradiction; split; reflexivity. Qed.

Lemma refused_payload (prefix : str) (s : OrderStatus.t) :
  not_cancellable_payload s
    (VDict [ (u "error", VStr (prefix ++ OrderStatus.value s));
             (u "cancellable", VBool false) ]).
Proof.
  exists (prefix ++ OrderStatus.value s). split; [reflexivity|].
  exists prefix, []. now rewrite app_nil_r.
Qed.

End Dispatch.

(* ------------------------------------------------------------------------- *)
(** ** Missing entities and refused cancellations *)
(* ------------------------------------------------------------------------- *)



(** C2. For an order whose status is neither pending nor confirmed, the
    [cancel_order] tool answers with [cancellable: false] and an error text
    that includes the current status, the store (hence the stored status) is
    unchanged, and a second call is answered the same way; on the dispatcher
    of the MCP server and on the local fallback of the order agent alike. *)
Theorem cancel_order_refused `{PyRuntime} (st : mock_data.Store) (args : pydict)
        (order_id : pyval) (o : Order.t) :
  dict_lookup (u "order_id") args = Some order_id ->
  mock_data.get_order_by_id st order_id = Some o ->
  Order.status o <> OrderStatus.PENDING ->
  Order.status o <> OrderStatus.CONFIRMED ->
  refuses_twice mcp_server._dispatch_tool st args order_id o
  /\ refuses_twice order_agent._direct_tool_call st args order_id o.
Proof.
  intros Hid Hfound Hp Hc.
  destruct (status_not_cancellable _ Hp Hc) as [Hs Ho].
  destruct (dict_getitem_lookup _ _ _ Hid) as [Hget _].
  assert (E1 : mcp_server._dispatch_tool st (u "cancel_order") args
               = (Ok (VDict [ (u "error",
                               VStr (u "Order cannot be cancelled. Current status: "
                                     ++ OrderStatus.value (Order.status o)));
                              (u "cancellable", VBool false) ]), st)).
  { rewrite dispatch_cancel_order. unfold mcp_server.cancel_order_tool.
    rewrite Hget, bind_ok, Hfound, Hs. reflexivity. }
  assert (E2 : order_agent._direct_tool_call st (u "cancel_order") args
               = (Ok (VDict [ (u "error",
                               VStr (u "Sipariş iptal edilemiyor. Mevcut durum: "
                                     ++ OrderStatus.value (Order.status o)));
                              (u "cancellable", VBool false) ]), st)).
  { rewrite order_fallback_cancel_order. unfold order_agent.cancel_order_fallback.
    rewrite Hget, bind_ok, Hfound, Ho. reflexivity. }
  split; unfold refuses_twice; cbv zeta.
  - rewrite E1. cbn [fst snd]. rewrite E1. cbn [fst snd].
    split; [|split; [|split; [|split]]]; try reflexivity; try exact Hfound;
      eexists; (split; [reflexivity|]); apply refused_payload.
  - rewrite E2. cbn [fst snd]. rewrite E2. cbn [fst snd].
    split; [|split; [|split; [|split]]]; try reflexivity; try exact Hfound;
      eexists; (split; [reflexivity|]); apply refused_payload.
Qed.

(** The shipped order ord-001 of [mock_data]. *)
Lemma cancel_order_refused_witness :
  exists o,
    Order.status o = OrderStatus.SHIPPED
    /\ refuses_twice (mcp_server._dispatch_tool (H := reference.runtime))
         reference.store [(u "order_id", VStr (u "ord-001"))] (VStr (u "ord-001")) o
    /\ refuses_twice (order_agent._direct_tool_call (H := reference.runtime))
         reference.store [(u "order_id", VStr (u "ord-001"))] (VStr (u "ord-001")) o.
Proof.
  destruct (mock_data.get_order_by_id reference.store (VStr (u "ord-001")))
    as [o|] eqn:E; [|vm_compute in E; discriminate E].
  assert (Hs : Order.status o = OrderStatus.SHIPPED).
  { vm_compute in E. injection E as <-. reflexivity. }
  exists o. split; [exact Hs|].
  apply (cancel_order_refused (H := reference.runtime) reference.store
           [(u "order_id", VStr (u "ord-001"))] (VStr (u "ord-001")) o).
  - reflexivity.
  - exact E.
  - rewrite Hs. discriminate.
  - rewrite Hs. discriminate.
Defined.

(* ------------------------------------------------------------------------- *)
(** ** The status of order ord-001 *)
(* ------------------------------------------------------------------------- *)

Lemma order_fallback_status_found `{PyRuntime} (st : mock_data.Store) (args : pydict)
      (order_id : pyval) (o : Order.t) :
  dict_lookup (u "order_id") args = Some order_id ->
  mock_data.get_order_by_id st order_id = Some o ->
  order_agent.get_order_status_fallback st args = Ok (mcp_server.order_status_payload o)
  /\ mcp_server.get_order_status_tool st args = Ok (mcp_server.order_status_payload o).
Proof.
  intros Hid Hfound. destruct (dict_getitem_lookup _ _ _ Hid) as [Hget _].
  unfold order_agent.get_order_status_fallback, mcp_server.get_order_status_tool.
  rewrite Hget, !bind_ok, Hfound. split; reflexivity.
Qed.

(** C9. Provided the clock did not jump back by a day or more between two
    of its readings while [mock_data] was imported, [get_order_status] for
    "ord-001" returns, on the dispatcher and on the order agent's fallback
    alike, a payload whose [status] is "shipped", whose [tracking_number] is
    "TK123456789TR" and whose [tracking_events] are the payloads of a
    non-empty list of events with strictly increasing timestamps. *)
Theorem get_order_status_ord_001 `{PyRuntime} :
  (forall i j, (i <= j)%nat -> (utcnow i - us_per_day < utcnow j)%Z) ->
  exists d events,
    mcp_server._dispatch_tool mock_data.initial (u "get_order_status")
      [(u "order_id", VStr (u "ord-001"))] = (Ok (VDict d), mock_data.initial)
    /\ order_agent._direct_tool_call mock_data.initial (u "get_order_status")
         [(u "order_id", VStr (u "ord-001"))] = (Ok (VDict d), mock_data.initial)
    /\ dict_lookup (u "status") d = Some (VStr (u "shipped"))
    /\ dict_lookup (u "tracking_number") d = Some (VStr (u "TK123456789TR"))
    /\ dict_lookup (u "tracking_events") d
       = Some (VList (map mcp_server.tracking_event_payload events))
    /\ events <> []
    /\ StronglySorted
         (fun a b => (TrackingEvent.timestamp a < TrackingEvent.timestamp b)%Z)
         events.
Proof.
  intros Hclock.
  destruct (mock_data.get_order_by_id mock_data.initial (VStr (u "ord-001")))
    as [o|] eqn:E; [|discriminate E].
  destruct (order_fallback_status_found mock_data.initial
              [(u "order_id", VStr (u "ord-001"))] (VStr (u "ord-001")) o
              eq_refl E) as [Ef Et].
  exists (fields (mcp_server.order_status_payload o)), (Order.tracking_events o).
  rewrite dispatch_get_order_status, order_fallback_get_order_status, Ef, Et.
  injection E as <-.
  split; [reflexivity|]. split; [reflexivity|]. split; [reflexivity|].
  split; [reflexivity|]. split; [reflexivity|]. split; [discriminate|].
  pose proof (Hclock 2%nat 3%nat (le_S _ _ (le_n _))) as H23.
  pose proof (Hclock 3%nat 4%nat (le_S _ _ (le_n _))) as H34.
  pose proof (Hclock 2%nat 4%nat (le_S _ _ (le_S _ _ (le_n _)))) as H24.
  cbn [Order.tracking_events].
  unfold timedelta_days, timedelta_hours, us_per_day, us_per_hour in *.
  repeat constructor; cbn [TrackingEvent.timestamp]; lia.
Qed.

(** The clock of the reference runtime only moves forward. *)
Lemma get_order_status_ord_001_witness :
  exists d events,
    mcp_server._dispatch_tool (H := reference.runtime) reference.store
      (u "get_order_status") [(u "order_id", VStr (u "ord-001"))]
    = (Ok (VDict d), reference.store)
    /\ order_agent._direct_tool_call (H := reference.runtime) reference.store
         (u "get_order_status") [(u "order_id", VStr (u "ord-001"))]
       = (Ok (VDict d), reference.store)
    /\ dict_lookup (u "status") d = Some (VStr (u "shipped"))
    /\ dict_lookup (u "tracking_number") d = Some (VStr (u "TK123456789TR"))
    /\ dict_lookup (u "tracking_events") d
       = Some (VList (map (mcp_server.tracking_event_payload (H := reference.runtime))
                          events))
    /\ events <> []
    /\ StronglySorted
         (fun a b => (TrackingEvent.timestamp a < TrackingEvent.timestamp b)%Z)
         events.
Proof.
  apply (get_order_status_ord_001 (H := reference.runtime)).
  intros i j Hij. cbn [utcnow reference.runtime]. unfold reference.utcnow, us_per_day, us_per_hour.
  lia.
Defined.

(* ------------------------------------------------------------------------- *)
(** ** Web search without credentials *)
(* ------------------------------------------------------------------------- *)

Lemma disabled_shape (msg : str) :
  msg <> [] ->
  search_disabled (Ok (VDict [ (u "message", VStr msg); (u "results", VList []) ]), []).
Proof. intros Hmsg. exists msg. repeat split. exact Hmsg. Qed.

(** C8. With an empty search API key, each of the six web-search tools
    ([web_search], [compare_prices], [get_product_reviews_web],
    [get_trending_products], [web_search_products], [web_search_shipping])
    returns a payload with an explanatory message and an empty [results]
    list, without an [error] field, and sends no request to the search
    provider; it does not raise. *)
Theorem web_search_disabled_without_key `{PyRuntime}
        (settings : Settings) (tavily : tavily_api) :
  tavily_api_key settings = [] ->
  (forall query depth, search_disabled (search_agent.web_search settings tavily query depth))
  /\ (forall name, search_disabled (search_agent.compare_prices settings tavily name))
  /\ (forall name,
         search_disabled (search_agent.get_product_reviews_web settings tavily name))
  /\ (forall category,
         search_disabled (search_agent.get_trending_products settings tavily category))
  /\ (forall query,
         search_disabled (product_agent.web_search_products settings tavily query))
  /\ (forall query,
         search_disabled (order_agent.web_search_shipping settings tavily query)).
Proof.
  intros Hkey.
  unfold search_agent.web_search, search_agent.compare_prices,
    search_agent.get_product_reviews_web, search_agent.get_trending_products,
    product_agent.web_search_products, order_agent.web_search_shipping,
    search_agent.disabled_payload.
  rewrite Hkey. cbn [truthy negb].
  split; [|split; [|split; [|split; [|split]]]]; intros;
    apply disabled_shape; intros E; vm_compute in E; discriminate E.
Qed.

(** Settings without a key, and a provider that would answer. *)
Lemma web_search_disabled_without_key_witness :
  let settings := {| tavily_api_key := []; mcp_server_url := u "http://mcp-server:8090";
                     product_agent_url := u "http://product-agent:8006";
                     order_agent_url := u "http://order-agent:8005";
                     search_agent_url := u "http://search-agent:8004" |} in
  let tavily : tavily_api := fun _ _ => Ok (VDict [(u "answer", VStr (u "42"))]) in
  search_disabled
    (search_agent.web_search (H := reference.runtime) settings tavily
       (u "kulaklık") (u "basic"))
  /\ search_disabled
       (order_agent.web_search_shipping (H := reference.runtime) settings tavily
          (u "kargo")).
Proof.
  intros settings tavily.
  destruct (web_search_disabled_without_key (H := reference.runtime)
              settings tavily eq_refl) as (W & _ & _ & _ & _ & S).
  split; [apply W | apply S].
Defined.

(* ------------------------------------------------------------------------- *)
(** ** The delegation client *)
(* ------------------------------------------------------------------------- *)

Lemma append_text_parts_concat (acc : str) (parts : list a2a.Part) :
  orchestrator.append_text_parts acc parts = acc ++ text_parts parts.
Proof.
  unfold orchestrator.append_text_parts, text_parts.
  revert acc; induction parts as [|p parts IH]; intros acc; simpl.
  - now rewrite app_nil_r.
  - rewrite IH. destruct p; simpl; [now rewrite <- app_assoc | reflexivity..].
Qed.

Lemma text_parts_app (l m : list a2a.Part) :
  text_parts (l ++ m) = text_parts l ++ text_parts m.
Proof. unfold text_parts. now rewrite map_app, concat_app. Qed.

Lemma text_of_artifacts_concat (l : list a2a.Artifact) :
  orchestrator.text_of_artifacts l = text_parts (flat_map a2a.artifact_parts l).
Proof.
  unfold orchestrator.text_of_artifacts.
  assert (G : forall acc,
             fold_left (fun acc artifact =>
                          orchestrator.append_text_parts acc (a2a.artifact_parts artifact))
                       l acc
             = acc ++ text_parts (flat_map a2a.artifact_parts l)).
  { induction l as [|a l IH]; intros acc; simpl.
    - now rewrite app_nil_r.
    - now rewrite IH, append_text_parts_concat, text_parts_app, app_assoc. }
  apply (G []).
Qed.

Lemma substring_prefix (a b : str) : substring a (a ++ b).
Proof. now exists [], b. Qed.

Lemma substring_third (a b c d : str) : substring c (a ++ b ++ c ++ d).
Proof. exists (a ++ b), d. now rewrite <- app_assoc. Qed.

Lemma length_firstn_le {A} (n : nat) (l : list A) : (length (firstn n l) <= n)%nat.
Proof. rewrite length_firstn. apply Nat.le_min_l. Qed.

(** C4. [_delegate_to_agent] always returns a string and never raises; when
    the call to the remote agent raises, the string returned starts with the
    name of the target agent and contains, between parentheses, the first
    100 characters at most of the text of the exception. *)
Theorem delegation_never_raises `{PyRuntime} (client : orchestrator.a2a_client)
        (agent_url query agent_name : str) :
  (exists text,
      orchestrator._delegate_to_agent client agent_url query agent_name = Ok text)
  /\ forall e,
      client agent_url query = Raise e ->
      exists reason text,
        orchestrator._delegate_to_agent client agent_url query agent_name = Ok text
        /\ reason = firstn 100 (exc_str e)
        /\ (length reason <= 100)%nat
        /\ text = agent_name ++ u " şu anda ulaşılamıyor (" ++ reason
                  ++ u "). " ++ u "Lütfen daha sonra tekrar deneyin."
        /\ substring agent_name text
        /\ substring reason text.
Proof.
  unfold orchestrator._delegate_to_agent. split.
  - destruct (client agent_url query) as [response|e]; cbn [try_except bind];
      eexists; reflexivity.
  - intros e ->. cbn [try_except bind]. unfold str_prefix.
    eexists. eexists. split; [reflexivity|].
    split; [reflexivity|]. split; [apply length_firstn_le|].
    split; [reflexivity|]. split.
    + apply substring_prefix.
    + apply substring_third.
Qed.

(** A remote agent that cannot be reached. *)
Lemma delegation_never_raises_witness :
  let client : orchestrator.a2a_client :=
    fun _ _ => Raise (ExternalError (u "All connection attempts failed")) in
  exists reason text,
    orchestrator._delegate_to_agent (H := reference.runtime) client
      (u "http://order-agent:8005") (u "ord-001 nerede?") (u "Order Agent") = Ok text
    /\ reason = firstn 100 (exc_str (H := reference.runtime)
                              (ExternalError (u "All connection attempts failed")))
    /\ (length reason <= 100)%nat
    /\ text = u "Order Agent" ++ u " şu anda ulaşılamıyor (" ++ reason
              ++ u "). " ++ u "Lütfen daha sonra tekrar deneyin."
    /\ substring (u "Order Agent") text
    /\ substring reason text.
Proof.
  intros client.
  apply (proj2 (delegation_never_raises (H := reference.runtime) client
                  (u "http://order-agent:8005") (u "ord-001 nerede?")
                  (u "Order Agent"))
               (ExternalError (u "All connection attempts failed"))).
  reflexivity.
Defined.

(** C7. When the call succeeds, the text the delegation client extracts
    comes from one source only: from the text parts of the artifacts when the
    task has at least one artifact (whatever the status message is), from the
    text parts of the status message when the task has no artifact, and it is
    empty for a reply that is not a task; the client returns that text, or
    the fixed sentence "<agent name> yanıt vermedi." when the text is empty. *)
Theorem extraction_precedence `{PyRuntime} (client : orchestrator.a2a_client)
        (agent_url query agent_name : str) (response : a2a.SendMessageResponse) :
  client agent_url query = Ok response ->
  orchestrator._delegate_to_agent client agent_url query agent_name
  = Ok (match orchestrator.extract_text response with
        | [] => agent_name ++ u " yanıt vermedi."
        | text => text
        end)
  /\ match response with
     | a2a.SuccessResponse (a2a.ResultTask t) =>
       match a2a.artifacts t with
       | Some (a :: l) =>
         orchestrator.extract_text response
         = text_parts (flat_map a2a.artifact_parts (a :: l))
       | _ =>
         orchestrator.extract_text response
         = match a2a.message (a2a.status t) with
           | Some m => text_parts (a2a.message_parts m)
           | None => []
           end
       end
     | _ => orchestrator.extract_text response = []
     end.
Proof.
  intros Hcall. split.
  - unfold orchestrator._delegate_to_agent. rewrite Hcall. cbn [try_except bind].
    destruct (orchestrator.extract_text response); reflexivity.
  - destruct response as [[t|m]|code msg]; try reflexivity.
    unfold orchestrator.extract_text, orchestrator.has_artifacts.
    destruct (a2a.artifacts t) as [[|a l]|].
    + unfold orchestrator.text_of_status.
      destruct (a2a.message (a2a.status t)); [|reflexivity].
      apply append_text_parts_concat.
    + apply text_of_artifacts_concat.
    + unfold orchestrator.text_of_status.
      destruct (a2a.message (a2a.status t)); [|reflexivity].
      apply append_text_parts_concat.
Qed.

(** A completed task that carries an artifact and a status message. *)
Lemma extraction_precedence_witness :
  let reply :=
    a2a.SuccessResponse
      (a2a.ResultTask
         {| a2a.task_id := u "t-1"; a2a.context_id := u "c-1";
            a2a.status :=
              {| a2a.state := a2a.completed;
                 a2a.message :=
                   Some {| a2a.message_parts := [a2a.TextPart (u "tamamlandı")] |} |};
            a2a.artifacts :=
              Some [ {| a2a.artifact_id := u "order-response-t-1";
                        a2a.artifact_name := u "Order Agent Response";
                        a2a.artifact_parts :=
                          [a2a.TextPart (u "Siparişiniz "); a2a.DataPart;
                           a2a.TextPart (u "kargoda.")] |} ] |}) in
  orchestrator._delegate_to_agent (H := reference.runtime) (fun _ _ => Ok reply)
    (u "http://order-agent:8005") (u "ord-001 nerede?") (u "Order Agent")
  = Ok (u "Siparişiniz kargoda.").
Proof.
  intros reply.
  rewrite (proj1 (extraction_precedence (H := reference.runtime) (fun _ _ => Ok reply)
                    (u "http://order-agent:8005") (u "ord-001 nerede?")
                    (u "Order Agent") reply eq_refl)).
  vm_compute. reflexivity.
Defined.

(* ------------------------------------------------------------------------- *)
(** ** The task lifecycle of the executors *)
(* ------------------------------------------------------------------------- *)

(** C1 as stated, for every task, fails when a task is processed twice.
    [execute] takes the task of the request when there is one, whatever its
    state, and submits it again.  A first request creates the task t-1 and is
    answered; a second request names that task, completed by then, and its
    run fails.  The states emitted for the one task are submitted, working,
    working, completed, submitted, working, working, failed: no prefix of
    the lifecycle, and both completed and failed. *)
Lemma lifecycle_restarts_for_a_reused_task :
  let task := {| a2a.task_id := u "t-1"; a2a.context_id := u "c-1";
                 a2a.status := {| a2a.state := a2a.submitted; a2a.message := None |};
                 a2a.artifacts := None |} in
  let answered :=
    {| a2a.task_id := u "t-1"; a2a.context_id := u "c-1";
       a2a.status := {| a2a.state := a2a.completed; a2a.message := None |};
       a2a.artifacts :=
         Some [ {| a2a.artifact_id := u "order-response-t-1";
                   a2a.artifact_name := u "Order Agent Response";
                   a2a.artifact_parts := [a2a.TextPart (u "Kargoda.")] |} ] |} in
  let first := {| executor.message := Some (u "ord-001 nerede?");
                  executor.current_task := None;
                  executor.fresh_task := Ok task |} in
  let unused := {| a2a.task_id := u "t-2"; a2a.context_id := u "c-1";
                   a2a.status := {| a2a.state := a2a.submitted; a2a.message := None |};
                   a2a.artifacts := None |} in
  let second := {| executor.message := Some (u "Peki ord-002?");
                   executor.current_task := Some answered;
                   executor.fresh_task := Ok unused |} in
  let answering : executor.agent :=
    fun _ _ _ => ([ [executor.AIMessage (executor.ContentStr (u "Kargoda."))] ],
                  None) in
  let failing : executor.agent :=
    fun _ _ _ => ([], Some (ExternalError (u "LLM timeout"))) in
  let after_first :=
    snd (executor.OrderAgentExecutor_execute (H := reference.runtime)
           answering first []) in
  let after_second :=
    snd (executor.OrderAgentExecutor_execute (H := reference.runtime)
           failing second after_first) in
  task_states_of (u "t-1") after_second
  = [ a2a.submitted; a2a.working; a2a.working; a2a.completed;
      a2a.submitted; a2a.working; a2a.working; a2a.failed ]
  /\ ~ lifecycle_prefix (task_states_of (u "t-1") after_second)
  /\ In a2a.completed (task_states_of (u "t-1") after_second)
  /\ In a2a.failed (task_states_of (u "t-1") after_second)
  /\ ~ task_follows_lifecycle (u "t-1") after_second.
Proof.
  intros task answered first unused second answering failing after_first
         after_second.
  assert (E : task_states_of (u "t-1") after_second
              = [ a2a.submitted; a2a.working; a2a.working; a2a.completed;
                  a2a.submitted; a2a.working; a2a.working; a2a.failed ])
    by (vm_compute; reflexivity).
  assert (Hnot : ~ lifecycle_prefix (task_states_of (u "t-1") after_second)).
  { rewrite E. intros [[rest Er]|[rest Er]]; cbn in Er; discriminate Er. }
  split; [exact E|]. split; [exact Hnot|].
  split; [rewrite E; cbn; tauto|]. split; [rewrite E; cbn; tauto|].
  intros [Hp _]. exact (Hnot Hp).
Qed.

(** C1, amended.  Whatever the agent does, the events one call of [execute]
    enqueues follow the lifecycle submitted, working, then completed or
    failed (a progress notification repeats the working state): without a
    message nothing is enqueued and the request is rejected; when the request
    carries no task and [new_task] refuses the message, nothing is enqueued
    and its exception propagates; otherwise the task is submitted and set to
    working before the agent runs, a run that ends normally is followed by
    the artifact and then the completed state, a run that raises is followed
    by the failed state with a message that carries the text of the
    exception, completed and failed never both occur in the call, and
    [execute] itself returns normally.  This holds for the texts of every
    executor, those of [OrderAgentExecutor] and [OrchestratorExecutor]
    included. *)
Theorem execute_lifecycle `{PyRuntime} (tx : executor.texts) (ag : executor.agent)
        (context : executor.RequestContext) (queue : list a2a.Event) :
  exists emitted,
    snd (executor.execute tx ag context queue) = queue ++ emitted
    /\ lifecycle_prefix (executor.task_states emitted)
    /\ ~ (In a2a.completed (executor.task_states emitted)
          /\ In a2a.failed (executor.task_states emitted))
    /\ match executor.message context with
       | None =>
         emitted = []
         /\ fst (executor.execute tx ag context queue) = Raise InvalidParamsError
       | Some text =>
         match match executor.current_task context with
               | Some task => Ok task
               | None => executor.fresh_task context
               end
         with
         | Raise e =>
           emitted = []
           /\ fst (executor.execute tx ag context queue) = Raise e
         | Ok task =>
           let announced := match executor.current_task context with
                            | Some _ => []
                            | None => [a2a.TaskEvent task]
                            end in
           let id := a2a.task_id task in
           let started :=
             announced
             ++ [ a2a.StatusUpdate id a2a.submitted None;
                  a2a.StatusUpdate id a2a.working None;
                  a2a.StatusUpdate id a2a.working
                    (Some {| a2a.message_parts :=
                               [a2a.TextPart (executor.progress_text tx)] |}) ] in
           fst (executor.execute tx ag context queue) = Ok tt
           /\ match snd (ag text (a2a.context_id task) (queue ++ started)) with
              | None =>
                let produced :=
                  fold_left executor.absorb_chunk
                            (fst (ag text (a2a.context_id task) (queue ++ started)))
                            [] in
                let final_response :=
                  match produced with
                  | [] => executor.default_response tx
                  | _ => produced
                  end in
                emitted
                  = started
                    ++ [ a2a.ArtifactUpdate id
                           {| a2a.artifact_id := executor.artifact_prefix tx ++ id;
                              a2a.artifact_name := executor.artifact_title tx;
                              a2a.artifact_parts := [a2a.TextPart final_response] |};
                         a2a.StatusUpdate id a2a.completed None ]
              | Some e =>
                emitted
                = started
                  ++ [ a2a.StatusUpdate id a2a.failed
                         (Some {| a2a.message_parts :=
                                    [a2a.TextPart
                                       (executor.error_text tx (exc_str e))] |}) ]
              end
         end
       end.
Proof.
  unfold executor.execute.
  destruct (executor.message context) as [text|].
  2:{ exists []. cbn. rewrite app_nil_r. repeat split.
      - left. exists [a2a.submitted; a2a.working; a2a.completed]. reflexivity.
      - intros [[] _]. }
  destruct (executor.current_task context) as [task|];
    [|destruct (executor.fresh_task context) as [task|refused];
      [|exists []; cbn; rewrite app_nil_r; repeat split;
        [left; exists [a2a.submitted; a2a.working; a2a.completed]; reflexivity
        |intros [[] _]]]];
    unfold a2a.io_bind, a2a.io_try, a2a.ret, a2a.lift, executor.run_agent,
      a2a.TaskUpdater.submit, a2a.TaskUpdater.start_work,
      a2a.TaskUpdater.add_artifact, a2a.TaskUpdater.complete,
      a2a.TaskUpdater.failed, a2a.TaskUpdater.new_agent_message,
      a2a.TaskUpdater.update_status, a2a.enqueue_event, executor.consume;
    cbn [fst snd app]; rewrite <- !app_assoc; cbn [app];
    match goal with
    | |- context [snd (ag text ?c ?q)] =>
      destruct (snd (ag text c q)) as [e|] eqn:Erun
    end;
    cbn [fst snd]; rewrite <- ?app_assoc; cbn [app];
    (eexists; split; [reflexivity|]);
    cbn [executor.task_states flat_map app];
    (split; [|split; [|split; [reflexivity|]]]);
    try (intros [Hc Hf]; cbn [In] in Hc, Hf; intuition discriminate);
    try (right; exists []; reflexivity);
    try (left; exists []; reflexivity);
    rewrite ?Erun; try reflexivity;
    cbv zeta;
    match goal with
    | |- context [fold_left executor.absorb_chunk ?l []] =>
      destruct (fold_left executor.absorb_chunk l []); reflexivity
    end.
Qed.

(** Runs of the order agent's executor on a request without a task: the
    language model times out; the agent answers; the message has an empty
    text, which [new_task] refuses. *)
Example execute_order_agent_runs :
  let task := {| a2a.task_id := u "t-1"; a2a.context_id := u "c-1";
                 a2a.status := {| a2a.state := a2a.submitted; a2a.message := None |};
                 a2a.artifacts := None |} in
  let context := {| executor.message := Some (u "ord-001 nerede?");
                    executor.current_task := None;
                    executor.fresh_task := Ok task |} in
  let failing : executor.agent :=
    fun _ _ _ => ([], Some (ExternalError (u "LLM timeout"))) in
  let answering : executor.agent :=
    fun _ _ _ => ([ [executor.OtherMessage];
                    [executor.OtherMessage;
                     executor.AIMessage (executor.ContentStr (u "Kargoda."))] ],
                  None) in
  snd (executor.OrderAgentExecutor_execute (H := reference.runtime) failing context [])
  = [ a2a.TaskEvent task;
      a2a.StatusUpdate (u "t-1") a2a.submitted None;
      a2a.StatusUpdate (u "t-1") a2a.working None;
      a2a.StatusUpdate (u "t-1") a2a.working
        (Some {| a2a.message_parts :=
                   [a2a.TextPart (u "Sipariş bilgilerinizi kontrol ediyorum...")] |});
      a2a.StatusUpdate (u "t-1") a2a.failed
        (Some {| a2a.message_parts :=
                   [a2a.TextPart (u "Bir hata oluştu: LLM timeout")] |}) ]
  /\ executor.task_states
       (snd (executor.OrderAgentExecutor_execute (H := reference.runtime)
               answering context []))
     = [a2a.submitted; a2a.working; a2a.working; a2a.completed]
  /\ executor.OrderAgentExecutor_execute (H := reference.runtime) answering
       {| executor.message := Some [];
          executor.current_task := None;
          executor.fresh_task := Raise ValueError |} []
     = (Raise ValueError, []).
Proof. split; [|split]; vm_compute; reflexivity. Qed.

(* ------------------------------------------------------------------------- *)
(** ** Local fallbacks against the backend *)
(* ------------------------------------------------------------------------- *)

Lemma same_result_field (a b : result pyval) (k : str) :
  same_result a b -> result_field k a = result_field k b.
Proof.
  destruct a as [x|e1], b as [y|e2];
    [destruct x, y | destruct x | |]; simpl; intros Hs;
    try reflexivity; try contradiction; try discriminate Hs.
  apply Hs.
Qed.

Section Fallback.
Context `{PyRuntime}.
Import mock_data.

Lemma search_fallback_agrees (st : Store) (args : pydict) (query : pyval) :
  dict_lookup (u "query") args = Some query ->
  truthy (dict_get (u "min_rating") args) = false ->
  match mcp_server.search_products_tool st args,
        product_agent.search_products_fallback st args with
  | Ok b, Ok f =>
    exists results,
      b = VDict [ (u "products", VList (map mcp_server._product_summary results));
                  (u "total", VLen results);
                  (u "query", query) ]
      /\ f = VDict [ (u "products",
                      VList (map product_agent.search_result_summary results));
                     (u "total", VLen results) ]
  | Raise e1, Raise e2 => e1 = e2
  | _, _ => False
  end.
Proof.
  intros Hq Hmin.
  unfold mcp_server.search_products_tool, product_agent.search_products_fallback.
  unfold dict_getitem, dict_get_default. rewrite Hq, Hmin. rewrite bind_ok.
  destruct (search_products st query) as [r0|e]; cbn [bind]; [|reflexivity].
  destruct (truthy (dict_get (u "category") args)); cbn [bind].
  all: destruct (truthy (dict_get (u "max_price") args)); cbn [bind].
  all: try match goal with
           | |- context [filter_r ?f ?l] =>
             destruct (filter_r f l) as [r2|e]; cbn [bind]; [|reflexivity]
           end.
  all: destruct (truthy (dict_get (u "in_stock_only") args)); cbn [bind].
  all: eexists; split; reflexivity.
Qed.
End Fallback.

Section FallbackCoverage.
Context `{PyRuntime}.
Import mock_data.

Lemma str_eqb_neq (a b : str) : a <> b -> str_eqb a b = false.
Proof.
  intros Hne. destruct (str_eqb a b) eqn:E; [|reflexivity].
  apply str_eqb_eq in E. contradiction.
Qed.

(** Membership in a list of names can be checked by comparing strings. *)
Lemma In_by_test (name : str) (l : list str) :
  existsb (str_eqb name) l = true -> In name l.
Proof.
  intros E. apply existsb_exists in E as (x & Hx & E).
  apply str_eqb_eq in E. now subst.
Qed.

Lemma order_fallback_other (st : Store) (name : str) (args : pydict) :
  ~ In name order_agent.fallback_names ->
  order_agent._direct_tool_call st name args
  = (Ok (error_payload (u "Tool not available: " ++ name)), st).
Proof.
  intros Hnot. unfold order_agent._direct_tool_call.
  rewrite !str_eqb_neq; [reflexivity|..]; intros ->; apply Hnot;
    apply In_by_test; vm_compute; reflexivity.
Qed.

Lemma product_fallback_other (st : Store) (name : str) (args : pydict) :
  ~ In name product_agent.fallback_names ->
  product_agent._direct_tool_call st name args
  = (Ok (error_payload (u "Tool " ++ name ++ u " not available in fallback")), st).
Proof.
  intros Hnot. unfold product_agent._direct_tool_call.
  rewrite !str_eqb_neq; [reflexivity|..]; intros ->; apply Hnot;
    apply In_by_test; vm_compute; reflexivity.
Qed.

Lemma fallback_names_covered (name : str) :
  In name order_agent.fallback_names \/ In name product_agent.fallback_names ->
  In name mcp_server.tool_names.
Proof.
  intros Hin.
  assert (A : forallb (fun n => existsb (str_eqb n) mcp_server.tool_names)
                      (order_agent.fallback_names ++ product_agent.fallback_names)
              = true) by (vm_compute; reflexivity).
  rewrite forallb_forall in A. apply In_by_test, A, in_or_app, Hin.
Qed.

(** Every field of the fallback's product entry is a field of the backend's
    entry, with the same object. *)
Lemma search_summary_fields (p : Product.t) (k : str) (v : pyval) :
  dict_lookup k (fields (product_agent.search_result_summary p)) = Some v ->
  dict_lookup k (fields (mcp_server._product_summary p)) = Some v.
Proof.
  unfold product_agent.search_result_summary, fields. cbn [dict_lookup].
  repeat match goal with
         | |- context [str_eqb k ?key] =>
           destruct (str_eqb k key) eqn:E;
           [apply str_eqb_eq in E; subst k; intros <-; reflexivity | clear E]
         end.
  discriminate.
Qed.

End FallbackCoverage.

(** C3, as stated, fails.  On the store of [mock_data] the product agent's
    fallback and the backend disagree: [check_product_availability] is not
    handled by the fallback (an [error] field against product data), the
    fallback [search_products] ignores [min_rating] (a [total] of 10 against
    2) and the fallback [get_recommendations] ignores [limit] (four
    recommendations against one). *)
Lemma fallback_differs_from_backend :
  ~ fallback_agrees (H := reference.runtime)
      (product_agent._direct_tool_call (H := reference.runtime)) reference.store
      (u "check_product_availability") [(u "product_id", VStr (u "prod-001"))]
  /\ ~ fallback_agrees (H := reference.runtime)
         (product_agent._direct_tool_call (H := reference.runtime)) reference.store
         (u "search_products")
         [(u "query", VStr (u "a")); (u "min_rating", VFloat 4.85)]
  /\ ~ fallback_agrees (H := reference.runtime)
         (product_agent._direct_tool_call (H := reference.runtime)) reference.store
         (u "get_recommendations") [(u "limit", VInt 1)].
Proof.
  unfold fallback_agrees. split; [|split]; intros Hs.
  - apply (same_result_field _ _ (u "error")) in Hs.
    vm_compute in Hs. discriminate Hs.
  - apply (same_result_field _ _ (u "total")) in Hs.
    vm_compute in Hs. discriminate Hs.
  - apply (same_result_field _ _ (u "recommendations")) in Hs.
    vm_compute in Hs. discriminate Hs.
Qed.

(** C3, amended.  The fallbacks handle part of the tool names of the
    backend and answer any other name with an error payload.  For a stored
    order the order agent's fallback [get_order_status] returns what the
    backend returns, and so does the product agent's fallback
    [get_product_details] for a stored product.  Given a query and no
    [min_rating], the product agent's fallback [search_products] selects the
    same products in the same order as the backend under the [category],
    [max_price] and [in_stock_only] filters and reports the same total (or
    raises the same exception), each product with a subset of the backend's
    fields carrying the same objects.  The fallback [get_recommendations]
    returns the four best-rated products whatever its arguments. *)
Theorem fallback_partial_agreement `{PyRuntime} (st : mock_data.Store) (args : pydict) :
  (forall name,
      In name order_agent.fallback_names \/ In name product_agent.fallback_names ->
      In name mcp_server.tool_names)
  /\ (forall name,
         ~ In name order_agent.fallback_names ->
         order_agent._direct_tool_call st name args
         = (Ok (error_payload (u "Tool not available: " ++ name)), st))
  /\ (forall name,
         ~ In name product_agent.fallback_names ->
         product_agent._direct_tool_call st name args
         = (Ok (error_payload (u "Tool " ++ name ++ u " not available in fallback")),
            st))
  /\ (mock_data.get_order_by_id st (dict_get (u "order_id") args) = None
      \/ order_agent._direct_tool_call st (u "get_order_status") args
         = mcp_server._dispatch_tool st (u "get_order_status") args)
  /\ (mock_data.get_product_by_id st (dict_get (u "product_id") args) = None
      \/ product_agent._direct_tool_call st (u "get_product_details") args
         = mcp_server._dispatch_tool st (u "get_product_details") args)
  /\ (forall query,
         dict_lookup (u "query") args = Some query ->
         truthy (dict_get (u "min_rating") args) = false ->
         match fst (mcp_server._dispatch_tool st (u "search_products") args),
               fst (product_agent._direct_tool_call st (u "search_products") args)
         with
         | Ok b, Ok f =>
           exists results,
             b = VDict [ (u "products",
                          VList (map mcp_server._product_summary results));
                         (u "total", VLen results);
                         (u "query", query) ]
             /\ f = VDict [ (u "products",
                             VList (map product_agent.search_result_summary results));
                            (u "total", VLen results) ]
         | Raise e1, Raise e2 => e1 = e2
         | _, _ => False
         end)
  /\ (forall p k v,
         dict_lookup k (fields (product_agent.search_result_summary p)) = Some v ->
         dict_lookup k (fields (mcp_server._product_summary p)) = Some v)
  /\ fst (product_agent._direct_tool_call st (u "get_recommendations") args)
     = Ok (VDict [ (u "recommendations",
                    VList (map product_agent.recommendation_summary
                               (firstn 4 (sort_by_rating_desc
                                            (mock_data.products st))))) ]).
Proof.
  split; [exact fallback_names_covered|].
  split; [intros name; apply order_fallback_other|].
  split; [intros name; apply product_fallback_other|].
  split; [|split; [|split; [|split]]].
  - rewrite order_fallback_get_order_status, dispatch_get_order_status.
    unfold order_agent.get_order_status_fallback, mcp_server.get_order_status_tool,
      dict_getitem, dict_get.
    destruct (dict_lookup (u "order_id") args) as [v|]; [|right; reflexivity].
    rewrite !bind_ok.
    destruct (mock_data.get_order_by_id st v); [right; reflexivity | left; reflexivity].
  - rewrite product_fallback_get_product_details, dispatch_get_product_details.
    unfold product_agent.get_product_details_fallback,
      mcp_server.get_product_details_tool, dict_getitem, dict_get.
    destruct (dict_lookup (u "product_id") args) as [v|]; [|right; reflexivity].
    rewrite !bind_ok.
    destruct (mock_data.get_product_by_id st v); [right; reflexivity | left; reflexivity].
  - intros query Hq Hmin.
    rewrite dispatch_search_products, product_fallback_search_products.
    cbn [fst]. now apply search_fallback_agrees.
  - exact search_summary_fields.
  - rewrite product_fallback_get_recommendations. reflexivity.
Qed.

(** The tool the product agent's fallback does not know, and a search by
    category on the store of [mock_data]. *)
Lemma fallback_partial_agreement_witness :
  let args := [(u "query", VStr (u "a")); (u "category", VStr (u "home"))] in
  product_agent._direct_tool_call (H := reference.runtime) reference.store
    (u "check_product_availability") args
  = (Ok (error_payload (u "Tool " ++ u "check_product_availability"
                        ++ u " not available in fallback")), reference.store)
  /\ In (u "cancel_order") mcp_server.tool_names
  /\ match fst (mcp_server._dispatch_tool (H := reference.runtime) reference.store
                  (u "search_products") args),
           fst (product_agent._direct_tool_call (H := reference.runtime)
                  reference.store (u "search_products") args)
     with
     | Ok b, Ok f =>
       exists results,
         b = VDict [ (u "products",
                      VList (map (mcp_server._product_summary (H := reference.runtime))
                                 results));
                     (u "total", VLen results);
                     (u "query", VStr (u "a")) ]
         /\ f = VDict [ (u "products",
                         VList (map product_agent.search_result_summary results));
                        (u "total", VLen results) ]
     | Raise e1, Raise e2 => e1 = e2
     | _, _ => False
     end.
Proof.
  intros args.
  destruct (fallback_partial_agreement (H := reference.runtime) reference.store args)
    as (Hcov & _ & Hother & _ & _ & Hsearch & _).
  split; [|split].
  - apply Hother. intros Hin.
    apply (In_nth_error) in Hin as [n Hn].
    do 4 (destruct n as [|n]; [vm_compute in Hn; discriminate Hn|]).
    destruct n; discriminate Hn.
  - apply Hcov. left. apply In_by_test. vm_compute. reflexivity.
  - apply (Hsearch (VStr (u "a"))); vm_compute; reflexivity.
Defined.

(* ========================================================================= *)
(** * Further properties *)
(* ========================================================================= *)

(* ------------------------------------------------------------------------- *)
(** ** Required arguments and the tool listing *)
(* ------------------------------------------------------------------------- *)

Lemma no_key_error_ok {A} (a : A) : no_key_error (Ok a).
Proof. intros k. discriminate. Qed.

Lemma no_key_error_bind {A B} (m : result A) (f : A -> result B) :
  no_key_error m -> (forall a, no_key_error (f a)) -> no_key_error (bind m f).
Proof.
  intros Hm Hf. destruct m as [a|e]; cbn [bind]; [apply Hf|].
  intros k E. apply (Hm k). injection E as ->. reflexivity.
Qed.

Lemma no_key_error_filter_r {A} (f : A -> result bool) (l : list A) :
  (forall x, no_key_error (f x)) -> no_key_error (filter_r f l).
Proof.
  intros Hf. induction l as [|x l IH]; cbn [filter_r].
  - apply no_key_error_ok.
  - apply no_key_error_bind; [apply Hf|]. intros b.
    apply no_key_error_bind; [exact IH|]. intros r. apply no_key_error_ok.
Qed.

Lemma no_key_error_find_r {A} (f : A -> result bool) (l : list A) :
  (forall x, no_key_error (f x)) -> no_key_error (find_r f l).
Proof.
  intros Hf. induction l as [|x l IH]; cbn [find_r].
  - apply no_key_error_ok.
  - apply no_key_error_bind; [apply Hf|]. intros [|]; [apply no_key_error_ok | exact IH].
Qed.

Lemma no_key_error_float_le (x : float) (v : pyval) : no_key_error (float_le_value x v).
Proof.
  unfold float_le_value. destruct (value_as_number v) as [[f|z]|]; intros k; discriminate.
Qed.

Lemma no_key_error_float_ge (x : float) (v : pyval) : no_key_error (float_ge_value x v).
Proof.
  unfold float_ge_value. destruct (value_as_number v) as [[f|z]|]; intros k; discriminate.
Qed.

Lemma no_key_error_slice {A} (n : pyval) (l : list A) : no_key_error (slice_to n l).
Proof. destruct n; intros k; discriminate. Qed.

Lemma no_key_error_category (v : pyval) : no_key_error (ProductCategory.of_value v).
Proof.
  unfold ProductCategory.of_value. destruct (find _ _); intros k; discriminate.
Qed.

Lemma no_key_error_present (k : str) (d : pydict) :
  dict_lookup k d <> None -> no_key_error (dict_getitem k d).
Proof.
  unfold dict_getitem. destruct (dict_lookup k d); [intros _ k'; discriminate | tauto].
Qed.

Section BackendBranches.
Context `{PyRuntime}.
Import mock_data.

Lemma dispatch_get_products_by_category (st : Store) (args : pydict) :
  mcp_server._dispatch_tool st (u "get_products_by_category") args
  = (mcp_server.get_products_by_category_tool st args, st).
Proof. reflexivity. Qed.

Lemma dispatch_get_customer_orders (st : Store) (args : pydict) :
  mcp_server._dispatch_tool st (u "get_customer_orders") args
  = (mcp_server.get_customer_orders_tool st args, st).
Proof. reflexivity. Qed.

Lemma no_key_error_email (stored : str) (email : pyval) :
  no_key_error (email_matches stored email).
Proof. destruct email; intros k; discriminate. Qed.

Lemma no_key_error_search (st : Store) (q : pyval) : no_key_error (search_products st q).
Proof. destruct q; intros k; discriminate. Qed.

Lemma no_key_error_recommendations (l : list Product.t) (limit : pyval) :
  no_key_error (mcp_server.recommendations_payload l limit).
Proof.
  unfold mcp_server.recommendations_payload.
  apply no_key_error_bind; [apply no_key_error_slice|]. intros r. apply no_key_error_ok.
Qed.

(** With its required key present, a branch of the dispatcher raises no
[KeyError]. *)
Lemma search_tool_no_key_error (st : Store) (args : pydict) :
  dict_lookup (u "query") args <> None ->
  no_key_error (mcp_server.search_products_tool st args).
Proof.
  intros Hq. unfold mcp_server.search_products_tool.
  apply no_key_error_bind; [now apply no_key_error_present|]. intros q.
  apply no_key_error_bind; [apply no_key_error_search|]. intros r0.
  apply no_key_error_bind; [destruct (truthy _); apply no_key_error_ok|]. intros r1.
  apply no_key_error_bind.
  { destruct (truthy _); [|apply no_key_error_ok].
    apply no_key_error_filter_r. intros p. apply no_key_error_float_le. }
  intros r2. apply no_key_error_bind.
  { destruct (truthy _); [|apply no_key_error_ok].
    apply no_key_error_filter_r. intros p. apply no_key_error_float_ge. }
  intros r3.
  apply no_key_error_bind; [destruct (truthy _); apply no_key_error_ok|]. intros r4.
  apply no_key_error_ok.
Qed.

Lemma details_tool_no_key_error (st : Store) (args : pydict) :
  dict_lookup (u "product_id") args <> None ->
  no_key_error (mcp_server.get_product_details_tool st args)
  /\ no_key_error (mcp_server.check_product_availability_tool st args).
Proof.
  intros Hk. split;
    [unfold mcp_server.get_product_details_tool
    | unfold mcp_server.check_product_availability_tool];
    (apply no_key_error_bind; [now apply no_key_error_present|]); intros v;
    destruct (get_product_by_id st v); apply no_key_error_ok.
Qed.

Lemma category_tool_no_key_error (st : Store) (args : pydict) :
  dict_lookup (u "category") args <> None ->
  no_key_error (mcp_server.get_products_by_category_tool st args).
Proof.
  intros Hk. unfold mcp_server.get_products_by_category_tool.
  apply no_key_error_bind; [now apply no_key_error_present|]. intros v.
  pose proof (no_key_error_category v) as Hc.
  destruct (ProductCategory.of_value v) as [cat|e]; [apply no_key_error_ok|].
  destruct e; try apply no_key_error_ok; try (intros k E; discriminate E).
  exfalso. exact (Hc _ eq_refl).
Qed.

Lemma order_tools_no_key_error (st : Store) (args : pydict) :
  dict_lookup (u "order_id") args <> None ->
  no_key_error (mcp_server.get_order_status_tool st args)
  /\ no_key_error (mcp_server.cancel_order_tool st args).
Proof.
  intros Hk. split;
    [unfold mcp_server.get_order_status_tool | unfold mcp_server.cancel_order_tool];
    (apply no_key_error_bind; [now apply no_key_error_present|]); intros v;
    destruct (get_order_by_id st v) as [o|]; try apply no_key_error_ok.
  destruct (mcp_server.not_cancellable _); apply no_key_error_ok.
Qed.

Lemma customer_tools_no_key_error (st : Store) (args : pydict) :
  no_key_error (mcp_server.get_customer_orders_tool st args)
  /\ no_key_error (mcp_server.get_customer_profile_tool st args).
Proof.
  split.
  - unfold mcp_server.get_customer_orders_tool.
    apply no_key_error_bind.
    + destruct (truthy (dict_get (u "email") args)).
      * apply no_key_error_bind; [|intros r; apply no_key_error_ok].
        apply no_key_error_filter_r. intros o. apply no_key_error_email.
      * destruct (truthy _); apply no_key_error_ok.
    + intros [orders|]; apply no_key_error_ok.
  - unfold mcp_server.get_customer_profile_tool.
    destruct (truthy (dict_get (u "email") args)).
    + apply no_key_error_bind.
      * apply no_key_error_find_r. intros c. apply no_key_error_email.
      * intros [c|]; apply no_key_error_ok.
    + destruct (truthy _); [|apply no_key_error_ok].
      destruct (get_customer_by_id st _); apply no_key_error_ok.
Qed.

Lemma recommendations_tool_no_key_error (st : Store) (args : pydict) :
  no_key_error (mcp_server.get_recommendations_tool st args).
Proof.
  unfold mcp_server.get_recommendations_tool. cbv zeta.
  assert (Hrest : no_key_error
            (if truthy (dict_get (u "category") args)
             then match ProductCategory.of_value (dict_get (u "category") args) with
                  | Ok cat =>
                    mcp_server.recommendations_payload
                      (sort_by_rating_desc (get_products_by_category st cat))
                      (dict_get_default (u "limit") (VInt 4) args)
                  | Raise ValueError =>
                    mcp_server.recommendations_payload
                      (sort_by_rating_desc (products st))
                      (dict_get_default (u "limit") (VInt 4) args)
                  | Raise e => Raise e
                  end
             else mcp_server.recommendations_payload
                    (sort_by_rating_desc (products st))
                    (dict_get_default (u "limit") (VInt 4) args))).
  { destruct (truthy _); [|apply no_key_error_recommendations].
    pose proof (no_key_error_category (dict_get (u "category") args)) as Hc.
    destruct (ProductCategory.of_value _) as [cat|e];
      [apply no_key_error_recommendations|].
    destruct e; try apply no_key_error_recommendations;
      try (intros k E; discriminate E).
    exfalso. exact (Hc _ eq_refl). }
  destruct (truthy (dict_get (u "product_id") args)); [|exact Hrest].
  destruct (get_product_by_id st _); [apply no_key_error_recommendations | exact Hrest].
Qed.

(** Without its required key, a branch of the dispatcher raises the
[KeyError] of that key. *)
Lemma missing_key_raises (st : Store) (args : pydict) :
  (dict_lookup (u "query") args = None ->
   mcp_server.search_products_tool st args = Raise (KeyError (u "query")))
  /\ (dict_lookup (u "product_id") args = None ->
      mcp_server.get_product_details_tool st args = Raise (KeyError (u "product_id"))
      /\ mcp_server.check_product_availability_tool st args
         = Raise (KeyError (u "product_id")))
  /\ (dict_lookup (u "category") args = None ->
      mcp_server.get_products_by_category_tool st args
      = Raise (KeyError (u "category")))
  /\ (dict_lookup (u "order_id") args = None ->
      mcp_server.get_order_status_tool st args = Raise (KeyError (u "order_id"))
      /\ mcp_server.cancel_order_tool st args = Raise (KeyError (u "order_id"))).
Proof.
  unfold mcp_server.search_products_tool, mcp_server.get_product_details_tool,
    mcp_server.check_product_availability_tool,
    mcp_server.get_products_by_category_tool, mcp_server.get_order_status_tool,
    mcp_server.cancel_order_tool, dict_getitem.
  split; [|split; [|split]]; intros ->; try split; reflexivity.
Qed.

End BackendBranches.

Section ToolListing.
Context `{PyRuntime}.
Import mock_data.

Lemma call_tool_raise (st : Store) (tool_name : str) (args : pydict) (e : exn) :
  fst (mcp_server._dispatch_tool st tool_name args) = Raise e ->
  fst (mcp_server.call_tool st tool_name args) = error_payload (exc_str e).
Proof.
  unfold mcp_server.call_tool.
  destruct (mcp_server._dispatch_tool st tool_name args) as [r st'].
  cbn [fst]. now intros ->.
Qed.

Lemma tool_table :
  map (fun t => (mcp_server_api.name t, mcp_server_api.required t))
      mcp_server_api.list_tools
  = [ (u "search_products", [u "query"]);
      (u "get_product_details", [u "product_id"]);
      (u "get_products_by_category", [u "category"]);
      (u "check_product_availability", [u "product_id"]);
      (u "get_order_status", [u "order_id"]);
      (u "get_customer_orders", []);
      (u "get_customer_profile", []);
      (u "get_recommendations", []);
      (u "cancel_order", [u "order_id"]) ].
Proof. vm_compute. reflexivity. Qed.

(** X2 ([list_tools], [_dispatch_tool], [call_tool]): the [required] lists
of the advertised input schemas are exactly the keys the dispatcher reads
with [args[...]].  For every advertised tool, a call whose arguments lack a
required key raises [KeyError] of that key inside [_dispatch_tool], which
[call_tool] turns into the answer [{"error": str(e)}]; a call whose
arguments hold every required key never raises a [KeyError], whatever the
values and whatever else is missing. *)
Theorem required_keys_guard_key_errors (st : Store) (args : pydict)
        (tool : mcp_server_api.Tool) :
  In tool mcp_server_api.list_tools ->
  (forall k,
      In k (mcp_server_api.required tool) ->
      dict_lookup k args = None ->
      fst (mcp_server._dispatch_tool st (mcp_server_api.name tool) args)
      = Raise (KeyError k)
      /\ fst (mcp_server.call_tool st (mcp_server_api.name tool) args)
         = error_payload (exc_str (KeyError k)))
  /\ ((forall k, In k (mcp_server_api.required tool) -> dict_lookup k args <> None) ->
      no_key_error (fst (mcp_server._dispatch_tool st (mcp_server_api.name tool) args))).
Proof.
  intros Hin.
  assert (Hraise : forall k,
             fst (mcp_server._dispatch_tool st (mcp_server_api.name tool) args)
             = Raise (KeyError k) ->
             fst (mcp_server._dispatch_tool st (mcp_server_api.name tool) args)
             = Raise (KeyError k)
             /\ fst (mcp_server.call_tool st (mcp_server_api.name tool) args)
                = error_payload (exc_str (KeyError k))).
  { intros k E. split; [exact E | now apply call_tool_raise]. }
  destruct (missing_key_raises st args) as (Mq & Mp & Mc & Mo).
  pose proof (in_map (fun t => (mcp_server_api.name t, mcp_server_api.required t))
                     _ _ Hin) as Hp.
  rewrite tool_table in Hp. cbn [In] in Hp.
  decompose [or] Hp; clear Hp Hin; try contradiction;
    match goal with
    | E : (_, _) = (_, _) |- _ => injection E as En Er; rewrite <- En, <- Er in *
    end;
    (split;
     [ intros k Hk Hnone; apply Hraise; cbn [In] in Hk;
       try contradiction; destruct Hk as [<-|[]]
     | intros Hall ]).
  - rewrite dispatch_search_products. exact (Mq Hnone).
  - rewrite dispatch_search_products.
    apply search_tool_no_key_error, Hall. now left.
  - rewrite dispatch_get_product_details. exact (proj1 (Mp Hnone)).
  - rewrite dispatch_get_product_details.
    apply details_tool_no_key_error, Hall. now left.
  - rewrite dispatch_get_products_by_category. exact (Mc Hnone).
  - rewrite dispatch_get_products_by_category.
    apply category_tool_no_key_error, Hall. now left.
  - rewrite dispatch_check_product_availability. exact (proj2 (Mp Hnone)).
  - rewrite dispatch_check_product_availability.
    apply details_tool_no_key_error, Hall. now left.
  - rewrite dispatch_get_order_status. exact (proj1 (Mo Hnone)).
  - rewrite dispatch_get_order_status.
    apply order_tools_no_key_error, Hall. now left.
  - rewrite dispatch_get_customer_orders. apply customer_tools_no_key_error.
  - rewrite dispatch_get_customer_profile. apply customer_tools_no_key_error.
  - rewrite dispatch_get_recommendations. apply recommendations_tool_no_key_error.
  - rewrite dispatch_cancel_order. exact (proj2 (Mo Hnone)).
  - rewrite dispatch_cancel_order.
    apply order_tools_no_key_error, Hall. now left.
Qed.

(** The answer of a tool that is not the answer to an unknown name. *)
Ltac differs_from_unknown :=
  let x := fresh "x" in
  let E := fresh "E" in
  intros x E; unfold error_payload in E;
  first [ discriminate E
        | injection E as E; vm_compute in E; discriminate E ].

Lemma search_tool_known (st : Store) (args : pydict) :
  not_unknown_tool (mcp_server.search_products_tool st args).
Proof.
  unfold mcp_server.search_products_tool. intros x E.
  repeat (apply bind_inv in E as (? & _ & E)).
  unfold error_payload in E. discriminate E.
Qed.

Lemma branches_known (st : Store) (args : pydict) :
  not_unknown_tool (mcp_server.get_product_details_tool st args)
  /\ not_unknown_tool (mcp_server.get_products_by_category_tool st args)
  /\ not_unknown_tool (mcp_server.check_product_availability_tool st args)
  /\ not_unknown_tool (mcp_server.get_order_status_tool st args)
  /\ not_unknown_tool (mcp_server.get_customer_orders_tool st args)
  /\ not_unknown_tool (mcp_server.get_customer_profile_tool st args)
  /\ not_unknown_tool (mcp_server.get_recommendations_tool st args)
  /\ not_unknown_tool (mcp_server.cancel_order_tool st args).
Proof.
  split; [|split; [|split; [|split; [|split; [|split; [|split]]]]]].
  - unfold mcp_server.get_product_details_tool.
    destruct (dict_getitem _ args) as [v|e]; cbn [bind]; [|differs_from_unknown].
    destruct (get_product_by_id st v); differs_from_unknown.
  - unfold mcp_server.get_products_by_category_tool.
    destruct (dict_getitem _ args) as [v|e]; cbn [bind]; [|differs_from_unknown].
    destruct (ProductCategory.of_value v) as [c|[]]; differs_from_unknown.
  - unfold mcp_server.check_product_availability_tool.
    destruct (dict_getitem _ args) as [v|e]; cbn [bind]; [|differs_from_unknown].
    destruct (get_product_by_id st v); differs_from_unknown.
  - unfold mcp_server.get_order_status_tool.
    destruct (dict_getitem _ args) as [v|e]; cbn [bind]; [|differs_from_unknown].
    destruct (get_order_by_id st v); differs_from_unknown.
  - unfold mcp_server.get_customer_orders_tool.
    destruct (truthy (dict_get (u "email") args)).
    + destruct (get_orders_by_email st _); cbn [bind]; differs_from_unknown.
    + destruct (truthy _); cbn [bind]; differs_from_unknown.
  - unfold mcp_server.get_customer_profile_tool.
    destruct (truthy (dict_get (u "email") args)).
    + destruct (get_customer_by_email st _) as [[c|]|e]; cbn [bind];
        differs_from_unknown.
    + destruct (truthy _); [|differs_from_unknown].
      destruct (get_customer_by_id st _); differs_from_unknown.
  - intros x E. unfold mcp_server.get_recommendations_tool in E. cbv zeta in E.
    assert (G : forall l limit,
               mcp_server.recommendations_payload l limit
               <> Ok (error_payload (u "Unknown tool: " ++ x))).
    { intros l limit E'. unfold mcp_server.recommendations_payload in E'.
      apply bind_inv in E' as (r & _ & E'). unfold error_payload in E'.
      discriminate E'. }
    destruct (truthy (dict_get (u "product_id") args));
      [destruct (get_product_by_id st _); [now apply G in E|]|];
      (destruct (truthy (dict_get (u "category") args)); [|now apply G in E]);
      (destruct (ProductCategory.of_value _) as [c|[]];
       try (now apply G in E); discriminate E).
  - unfold mcp_server.cancel_order_tool.
    destruct (dict_getitem _ args) as [v|e]; cbn [bind]; [|differs_from_unknown].
    destruct (get_order_by_id st v) as [o|]; [|differs_from_unknown].
    destruct (mcp_server.not_cancellable _); differs_from_unknown.
Qed.

Lemma dispatch_other (st : Store) (tool_name : str) (args : pydict) :
  ~ In tool_name (map mcp_server_api.name mcp_server_api.list_tools) ->
  mcp_server._dispatch_tool st tool_name args
  = (Ok (error_payload (u "Unknown tool: " ++ tool_name)), st).
Proof.
  intros Hnot. unfold mcp_server._dispatch_tool.
  rewrite !str_eqb_neq; [reflexivity|..]; intros ->; apply Hnot;
    apply In_by_test; vm_compute; reflexivity.
Qed.

(** X1 ([list_tools], [_dispatch_tool], [call_tool], [health_check]): the
tools the server advertises are the tools it dispatches.  No advertised name
is answered with [Unknown tool]; every other name is answered with
[{"error": "Unknown tool: <name>"}] and leaves the store as it was; and the
health check reports as many tools as are listed. *)
Theorem advertised_tools_are_the_dispatched_ones (st : Store) (args : pydict) :
  (forall tool,
      In tool mcp_server_api.list_tools ->
      not_unknown_tool
        (fst (mcp_server._dispatch_tool st (mcp_server_api.name tool) args)))
  /\ (forall tool_name,
         ~ In tool_name (map mcp_server_api.name mcp_server_api.list_tools) ->
         mcp_server._dispatch_tool st tool_name args
         = (Ok (error_payload (u "Unknown tool: " ++ tool_name)), st)
         /\ mcp_server.call_tool st tool_name args
            = (error_payload (u "Unknown tool: " ++ tool_name), st))
  /\ dict_lookup (u "tools") (fields mcp_server_api.health_check)
     = Some (VLen mcp_server_api.list_tools).
Proof.
  split; [|split; [|reflexivity]].
  - intros tool Hin.
    destruct (branches_known st args) as (B1 & B2 & B3 & B4 & B5 & B6 & B7 & B8).
    pose proof (in_map mcp_server_api.name _ _ Hin) as Hp.
    assert (T : map mcp_server_api.name mcp_server_api.list_tools
                = mcp_server.tool_names) by (vm_compute; reflexivity).
    rewrite T in Hp. unfold mcp_server.tool_names in Hp. cbn [In] in Hp.
    decompose [or] Hp; clear Hp; try contradiction;
      match goal with E : _ = mcp_server_api.name tool |- _ => rewrite <- E end.
    + rewrite dispatch_search_products. apply search_tool_known.
    + rewrite dispatch_get_product_details. exact B1.
    + rewrite dispatch_get_products_by_category. exact B2.
    + rewrite dispatch_check_product_availability. exact B3.
    + rewrite dispatch_get_order_status. exact B4.
    + rewrite dispatch_get_customer_orders. exact B5.
    + rewrite dispatch_get_customer_profile. exact B6.
    + rewrite dispatch_get_recommendations. exact B7.
    + rewrite dispatch_cancel_order. exact B8.
  - intros tool_name Hnot. pose proof (dispatch_other st tool_name args Hnot) as E.
    split; [exact E|]. unfold mcp_server.call_tool. now rewrite E.
Qed.
End ToolListing.

Lemma required_keys_guard_key_errors_witness :
  (fst (mcp_server.call_tool (H := reference.runtime) reference.store
          (u "cancel_order") [(u "order", VStr (u "ord-004"))])
   = error_payload (exc_str (H := reference.runtime) (KeyError (u "order_id"))))
  /\ no_key_error
       (fst (mcp_server._dispatch_tool (H := reference.runtime) reference.store
               (u "cancel_order") [(u "order_id", VInt 4)])).
Proof.
  destruct (nth_error mcp_server_api.list_tools 8) as [tool|] eqn:E;
    [|vm_compute in E; discriminate E].
  pose proof (nth_error_In _ 8 E) as Hin.
  vm_compute in E. injection E as <-.
  split.
  - apply (proj1 (required_keys_guard_key_errors (H := reference.runtime)
                      reference.store [(u "order", VStr (u "ord-004"))] _ Hin)
                   (u "order_id")).
    + vm_compute. left. reflexivity.
    + vm_compute. reflexivity.
  - apply (proj2 (required_keys_guard_key_errors (H := reference.runtime)
                      reference.store [(u "order_id", VInt 4)] _ Hin)).
    intros k [<-|[]]. vm_compute. discriminate.
Defined.

Lemma advertised_tools_are_the_dispatched_ones_witness :
  mcp_server.call_tool (H := reference.runtime) reference.store
    (u "search_product") [(u "query", VStr (u "laptop"))]
  = (error_payload (u "Unknown tool: " ++ u "search_product"), reference.store)
  /\ length mcp_server_api.list_tools = 9.
Proof.
  split; [|reflexivity].
  apply (proj1 (proj2 (advertised_tools_are_the_dispatched_ones
                         (H := reference.runtime) reference.store
                         [(u "query", VStr (u "laptop"))]))).
  intros Hin. vm_compute in Hin.
  repeat (destruct Hin as [Hin|Hin]; [discriminate Hin|]). exact Hin.
Defined.

(* ------------------------------------------------------------------------- *)
(** ** The filters of the product search *)
(* ------------------------------------------------------------------------- *)

Lemma filter_r_ok {A} (f : A -> result bool) (l r : list A) :
  filter_r f l = Ok r -> r = filter (fun x => holds (f x)) l.
Proof.
  revert r; induction l as [|a l IH]; intros r E; cbn [filter_r] in E.
  - injection E as <-. reflexivity.
  - apply bind_inv in E as (b & Eb & E). apply bind_inv in E as (r' & Er & E).
    injection E as <-. cbn [filter]. rewrite Eb. cbn [holds].
    rewrite (IH r' Er). destruct b; reflexivity.
Qed.

Lemma filter_r_total {A} (f : A -> result bool) (l : list A) :
  (forall x, In x l -> exists b, f x = Ok b) -> exists r, filter_r f l = Ok r.
Proof.
  induction l as [|a l IH]; intros Hf; cbn [filter_r].
  - now exists [].
  - destruct (Hf a (or_introl eq_refl)) as [b ->].
    destruct IH as [r ->]; [intros x Hx; apply Hf; now right|].
    cbn [bind]. now eexists.
Qed.

Lemma filter_twice {A} (f g : A -> bool) (l : list A) :
  filter f (filter g l) = filter (fun x => g x && f x) l.
Proof.
  induction l as [|a l IH]; cbn [filter]; [reflexivity|].
  destruct (g a); cbn [filter andb]; [destruct (f a)|]; now rewrite IH.
Qed.

Lemma str_eq_value_spec (s : str) (v : pyval) :
  str_eq_value s v = true <-> v = VStr s.
Proof.
  destruct v; cbn [str_eq_value]; try (split; [discriminate|intros E; discriminate E]).
  rewrite str_eqb_eq. split; [now intros -> | now intros [= ->]].
Qed.

Lemma holds_spec (r : result bool) : holds r = true <-> r = Ok true.
Proof.
  destruct r as [[|]|e]; cbn [holds]; split; intros E;
    try reflexivity; discriminate E.
Qed.

Section SearchFilters.
Context `{PyRuntime}.
Import mock_data mcp_server.

Lemma listed_spec (q : str) (args : pydict) (p : Product.t) :
  search_listed q args p = true <-> matches_rule q p /\ passes_filters args p.
Proof.
  unfold search_listed, passes_filters.
  rewrite !andb_true_iff, search_hit_rule.
  destruct (truthy (dict_get (u "category") args));
    destruct (truthy (dict_get (u "max_price") args));
    destruct (truthy (dict_get (u "min_rating") args));
    destruct (truthy (dict_get (u "in_stock_only") args));
    rewrite ?str_eq_value_spec, ?holds_spec;
    (split;
     [ intros ((((Hm & Hc) & Hp) & Hr) & Hs);
       split; [exact Hm|];
       (split; [|split; [|split]]); intros E;
       first [exact Hc | exact Hp | exact Hr | exact Hs | discriminate E]
     | intros (Hm & Hc & Hp & Hr & Hs);
       (split; [split; [split; [split; [exact Hm|]|]|]|]);
       first [reflexivity | apply Hc; reflexivity | apply Hp; reflexivity
             | apply Hr; reflexivity | apply Hs; reflexivity] ]).
Qed.

Lemma search_products_tool_filter (st : Store) (args : pydict) (q : str)
      (payload : pyval) :
  dict_lookup (u "query") args = Some (VStr q) ->
  search_products_tool st args = Ok payload ->
  payload = (let results := filter (search_listed q args) (products st) in
             VDict [ (u "products", VList (map _product_summary results));
                     (u "total", VLen results);
                     (u "query", VStr q) ]).
Proof.
  intros Hq. unfold search_products_tool.
  destruct (dict_getitem_lookup _ _ _ Hq) as [-> _].
  rewrite bind_ok, search_products_filter, bind_ok.
  intros E.
  apply bind_inv in E as (r1 & E1 & E).
  apply bind_inv in E as (r2 & E2 & E).
  apply bind_inv in E as (r3 & E3 & E).
  apply bind_inv in E as (r4 & E4 & E).
  injection E as <-. cbv zeta.
  assert (E' : r4 = filter (search_listed q args) (products st)); [|now rewrite E'].
  unfold search_listed.
  destruct (truthy (dict_get (u "category") args)); injection E1 as <-;
    (destruct (truthy (dict_get (u "max_price") args));
     [apply filter_r_ok in E2 | injection E2 as E2]; subst r2);
    (destruct (truthy (dict_get (u "min_rating") args));
     [apply filter_r_ok in E3 | injection E3 as E3]; subst r3);
    (destruct (truthy (dict_get (u "in_stock_only") args)); injection E4 as <-);
    rewrite ?filter_twice; apply filter_ext; intros p;
    rewrite ?andb_true_r, <- ?andb_assoc; reflexivity.
Qed.

Lemma search_products_tool_total (st : Store) (args : pydict) (q : str) :
  dict_lookup (u "query") args = Some (VStr q) ->
  numeric_bounds args ->
  exists payload, search_products_tool st args = Ok payload.
Proof.
  intros Hq [Hp Hr]. unfold search_products_tool.
  destruct (dict_getitem_lookup _ _ _ Hq) as [-> _].
  rewrite bind_ok, search_products_filter, bind_ok.
  match goal with
  | |- exists _, bind ?m _ = _ =>
    assert (E1 : exists r, m = Ok r)
      by (destruct (truthy (dict_get (u "category") args)); eexists; reflexivity)
  end.
  destruct E1 as [r1 ->]. rewrite bind_ok.
  match goal with
  | |- exists _, bind ?m _ = _ => assert (E2 : exists r, m = Ok r)
  end.
  { destruct (truthy (dict_get (u "max_price") args)); [|eexists; reflexivity].
    apply filter_r_total. intros p _. unfold float_le_value.
    destruct (value_as_number (dict_get (u "max_price") args)) as [[f|z]|]; [eexists; reflexivity..|].
    now destruct Hp. }
  destruct E2 as [r2 ->]. rewrite bind_ok.
  match goal with
  | |- exists _, bind ?m _ = _ => assert (E3 : exists r, m = Ok r)
  end.
  { destruct (truthy (dict_get (u "min_rating") args)); [|eexists; reflexivity].
    apply filter_r_total. intros p _. unfold float_ge_value.
    destruct (value_as_number (dict_get (u "min_rating") args)) as [[f|z]|]; [eexists; reflexivity..|].
    now destruct Hr. }
  destruct E3 as [r3 ->]. rewrite bind_ok.
  destruct (truthy (dict_get (u "in_stock_only") args)); rewrite bind_ok; eexists; reflexivity.
Qed.

(** X3 ([_dispatch_tool], branch [search_products]): the filters are
honoured.  Whenever the tool answers a text query, the products it lists are
the products of the catalogue, in the order and number of the catalogue, that
match the query and pass every filter the arguments supply (category equal,
price at most [max_price], rating at least [min_rating], in stock), [total]
is their number and [query] is echoed; and it does answer when the bounds
supplied are numbers. *)
Theorem search_filters_are_honoured (st : Store) (args : pydict) (q : str) :
  dict_lookup (u "query") args = Some (VStr q) ->
  (forall payload,
      fst (_dispatch_tool st (u "search_products") args) = Ok payload ->
      exists (listed : Product.t -> bool) (results : list Product.t),
        payload = VDict [ (u "products", VList (map _product_summary results));
                          (u "total", VInt (Z.of_nat (length results)));
                          (u "query", VStr q) ]
        /\ results = filter listed (products st)
        /\ forall p, listed p = true <-> matches_rule q p /\ passes_filters args p)
  /\ (numeric_bounds args ->
      exists payload, fst (_dispatch_tool st (u "search_products") args) = Ok payload).
Proof.
  intros Hq. rewrite dispatch_search_products. cbn [fst]. split.
  - intros payload E. exists (search_listed q args), (filter (search_listed q args) (products st)).
    split; [exact (search_products_tool_filter st args q payload Hq E)|].
    split; [reflexivity | apply listed_spec].
  - exact (search_products_tool_total st args q Hq).
Qed.
End SearchFilters.

Lemma search_filters_are_honoured_witness :
  exists payload listed results,
    fst (mcp_server._dispatch_tool (H := reference.runtime) reference.store
           (u "search_products")
           [ (u "query", VStr (u "apple")); (u "max_price", VInt 30000);
             (u "in_stock_only", VBool true) ])
    = Ok payload
    /\ payload
       = VDict [ (u "products",
                  VList (map (mcp_server._product_summary (H := reference.runtime))
                             results));
                 (u "total", VInt (Z.of_nat (length results)));
                 (u "query", VStr (u "apple")) ]
    /\ results = filter listed (mock_data.products reference.store)
    /\ forall p,
        listed p = true
        <-> matches_rule (H := reference.runtime) (u "apple") p
            /\ passes_filters
                 [ (u "query", VStr (u "apple")); (u "max_price", VInt 30000);
                   (u "in_stock_only", VBool true) ] p.
Proof.
  assert (Hq : dict_lookup (u "query")
                 [ (u "query", VStr (u "apple")); (u "max_price", VInt 30000);
                   (u "in_stock_only", VBool true) ]
               = Some (VStr (u "apple"))) by (vm_compute; reflexivity).
  destruct (search_filters_are_honoured (H := reference.runtime) reference.store
              _ _ Hq) as [Hshape Htotal].
  destruct Htotal as [payload E].
  { split; intros E; vm_compute in E;
      first [discriminate E | vm_compute; discriminate]. }
  destruct (Hshape payload E) as (listed & results & Hp & Hr & Hl).
  exists payload, listed, results.
  split; [exact E|]. split; [exact Hp|]. split; [exact Hr | exact Hl].
Defined.

(* ------------------------------------------------------------------------- *)
(** ** Narrowing a search *)
(* ------------------------------------------------------------------------- *)

Lemma substring_trans (a b c : str) :
  substring a b -> substring b c -> substring a c.
Proof.
  intros (pre & post & ->) (pre' & post' & ->).
  exists (pre' ++ pre), (post ++ post'). now rewrite <- !app_assoc.
Qed.

Lemma py_in_trans (a b c : str) :
  substring a b -> py_in b c = true -> py_in a c = true.
Proof.
  intros Hab Hbc. apply py_in_spec. apply py_in_spec in Hbc.
  exact (substring_trans a b c Hab Hbc).
Qed.

Lemma filter_narrow {A} (f g : A -> bool) (l : list A) :
  (forall x, g x = true -> f x = true) -> filter g l = filter g (filter f l).
Proof.
  intros Hfg. induction l as [|a l IH]; cbn [filter]; [reflexivity|].
  destruct (g a) eqn:Eg.
  - rewrite (Hfg a Eg). cbn [filter]. now rewrite Eg, IH.
  - destruct (f a); cbn [filter]; [rewrite Eg|]; exact IH.
Qed.

Section Narrowing.
Context `{PyRuntime}.
Import mock_data.

Lemma search_hit_narrow (a b : str) (p : Product.t) :
  substring a b -> search_hit b p = true -> search_hit a p = true.
Proof.
  intros Hab. unfold search_hit, py_any.
  rewrite !orb_true_iff, !existsb_exists.
  intros [[[Hn|Hd]|(t & Ht & Hin)]|Hb].
  - left; left; left. exact (py_in_trans a b _ Hab Hn).
  - left; left; right. exact (py_in_trans a b _ Hab Hd).
  - left; right. exists t. split; [exact Ht | exact (py_in_trans a b _ Hab Hin)].
  - right. exact (py_in_trans a b _ Hab Hb).
Qed.

(** X4 ([search_products] of [mock_data]): a query that contains another
finds no more than it.  When the lowercased query [q1] occurs inside the
lowercased query [q2], both searches return, and searching [q2] gives the
products of the search for [q1] that match [q2], in the same order; so every
product found for [q2] is found for [q1]. *)
Theorem longer_query_finds_less (st : Store) (q1 q2 : str) :
  substring (lower q1) (lower q2) ->
  exists r1 r2,
    search_products st (VStr q1) = Ok r1
    /\ search_products st (VStr q2) = Ok r2
    /\ r2 = filter (search_hit (lower q2)) r1
    /\ incl r2 r1.
Proof.
  intros Hsub.
  exists (filter (search_hit (lower q1)) (products st)),
         (filter (search_hit (lower q2)) (products st)).
  rewrite !search_products_filter.
  split; [reflexivity|]. split; [reflexivity|].
  assert (E : filter (search_hit (lower q2)) (products st)
              = filter (search_hit (lower q2))
                       (filter (search_hit (lower q1)) (products st))).
  { apply filter_narrow. intros p. apply search_hit_narrow, Hsub. }
  split; [exact E|].
  rewrite E. intros p Hp. now apply filter_In in Hp.
Qed.
End Narrowing.

Lemma longer_query_finds_less_witness :
  exists r1 r2,
    mock_data.search_products (H := reference.runtime) reference.store
      (VStr (u "book")) = Ok r1
    /\ mock_data.search_products (H := reference.runtime) reference.store
         (VStr (u "MacBook Pro")) = Ok r2
    /\ r2 = filter (mock_data.search_hit (H := reference.runtime)
                      (lower (PyRuntime := reference.runtime) (u "MacBook Pro"))) r1
    /\ incl r2 r1.
Proof.
  apply (longer_query_finds_less (H := reference.runtime)).
  apply py_in_spec. vm_compute. reflexivity.
Defined.

(* ------------------------------------------------------------------------- *)
(** ** The order of floats *)
(* ------------------------------------------------------------------------- *)

Lemma SFcompare_antisym (x y : spec_float) (c : comparison) :
  SFcompare x y = Some c -> SFcompare y x = Some (CompOpp c).
Proof.
  destruct x as [sx|sx| |sx mx ex], y as [sy|sy| |sy my ey]; cbn [SFcompare];
    try discriminate; intros [= <-];
    try (destruct sx); try (destruct sy); try reflexivity;
    rewrite (Z.compare_antisym ex ey);
    destruct (ex ?= ey)%Z; cbn [CompOpp]; try reflexivity;
    change (Pos.compare_cont Eq my mx) with (my ?= mx)%positive;
    change (Pos.compare_cont Eq mx my) with (mx ?= my)%positive;
    rewrite (Pos.compare_antisym mx my);
    try reflexivity; now rewrite CompOpp_involutive.
Qed.

Lemma SFleb_total (x y : spec_float) :
  x <> S754_nan -> y <> S754_nan -> SFltb x y = false -> SFleb y x = true.
Proof.
  intros Hx Hy. unfold SFltb, SFleb.
  destruct (SFcompare x y) as [c|] eqn:E.
  - rewrite (SFcompare_antisym x y c E). now destruct c.
  - destruct x, y; try discriminate E; contradiction.
Qed.

Lemma SFltb_leb (x y : spec_float) : SFltb x y = true -> SFleb x y = true.
Proof. unfold SFltb, SFleb. now destruct (SFcompare x y) as [[| |]|]. Qed.

Lemma SFleb_trans (x y z : spec_float) :
  SFleb x y = true -> SFleb y z = true -> SFleb x z = true.
Proof.
  unfold SFleb.
  destruct x as [sx|sx| |sx mx ex], y as [sy|sy| |sy my ey], z as [sz|sz| |sz mz ez];
    cbn [SFcompare]; try discriminate;
    try (destruct sx); try (destruct sy); try (destruct sz);
    try discriminate; intros H1 H2; try reflexivity; revert H1 H2;
    change (Pos.compare_cont Eq mx my) with (mx ?= my)%positive;
    change (Pos.compare_cont Eq my mz) with (my ?= mz)%positive;
    change (Pos.compare_cont Eq mx mz) with (mx ?= mz)%positive;
    destruct (Z.compare_spec ex ey), (Z.compare_spec ey ez); try discriminate;
    destruct (Z.compare_spec ex ez); try (intros; reflexivity); try lia;
    destruct (Pos.compare_spec mx my), (Pos.compare_spec my mz);
    cbn [CompOpp]; try discriminate;
    destruct (Pos.compare_spec mx mz); cbn [CompOpp]; try (intros; reflexivity); lia.
Qed.

Lemma Prim2SF_number (x : float) :
  PrimFloat.is_nan x = false -> Prim2SF x <> S754_nan.
Proof.
  unfold PrimFloat.is_nan. rewrite eqb_spec. intros E N. rewrite N in E.
  discriminate E.
Qed.

Lemma leb_trans (x y z : float) :
  PrimFloat.leb x y = true -> PrimFloat.leb y z = true -> PrimFloat.leb x z = true.
Proof. rewrite !leb_spec. apply SFleb_trans. Qed.

Lemma leb_total (x y : float) :
  PrimFloat.is_nan x = false -> PrimFloat.is_nan y = false ->
  PrimFloat.ltb x y = false -> PrimFloat.leb y x = true.
Proof.
  intros Hx Hy. rewrite ltb_spec, leb_spec.
  apply SFleb_total; now apply Prim2SF_number.
Qed.

Lemma ltb_leb (x y : float) :
  PrimFloat.ltb x y = true -> PrimFloat.leb x y = true.
Proof. rewrite ltb_spec, leb_spec. apply SFltb_leb. Qed.

(* ------------------------------------------------------------------------- *)
(** ** Recommendations *)
(* ------------------------------------------------------------------------- *)

Lemma insert_by_rating_perm (x : Product.t) (l : list Product.t) :
  Permutation (x :: l) (insert_by_rating x l).
Proof.
  induction l as [|y l IH]; cbn [insert_by_rating]; [apply Permutation_refl|].
  destruct (PrimFloat.ltb _ _); [|apply Permutation_refl].
  apply (perm_trans (perm_swap y x l)). now apply perm_skip.
Qed.

Lemma sort_by_rating_desc_perm (l : list Product.t) :
  Permutation l (sort_by_rating_desc l).
Proof.
  unfold sort_by_rating_desc. induction l as [|x l IH]; cbn [fold_right].
  - apply perm_nil.
  - apply (perm_trans (perm_skip x IH)), insert_by_rating_perm.
Qed.

Lemma insert_by_rating_sorted (x : Product.t) (l : list Product.t) :
  ratings_are_numbers (x :: l) ->
  StronglySorted rated_above l ->
  StronglySorted rated_above (insert_by_rating x l).
Proof.
  intros Hnum Hs. induction Hs as [|y l Hs IH Hy]; cbn [insert_by_rating].
  - constructor; constructor.
  - destruct (PrimFloat.ltb (Product.rating x) (Product.rating y)) eqn:E.
    + constructor.
      * apply IH. intros p [<-|Hp]; apply Hnum; [now left | right; now right].
      * apply (Permutation_Forall (insert_by_rating_perm x l)).
        constructor; [|exact Hy]. unfold rated_above. now apply ltb_leb.
    + assert (Hxy : rated_above x y).
      { unfold rated_above. apply leb_total; [| |exact E]; apply Hnum;
          [now left | right; now left]. }
      constructor; [now constructor|].
      constructor; [exact Hxy|].
      apply (Forall_impl _ (P := rated_above y)); [|exact Hy].
      intros z Hz. unfold rated_above in *.
      exact (leb_trans _ _ _ Hz Hxy).
Qed.

Lemma sort_by_rating_desc_sorted (l : list Product.t) :
  ratings_are_numbers l -> StronglySorted rated_above (sort_by_rating_desc l).
Proof.
  unfold sort_by_rating_desc. induction l as [|x l IH]; intros Hnum; cbn [fold_right].
  - constructor.
  - apply insert_by_rating_sorted.
    + intros p [<-|Hp]; [apply Hnum; now left|].
      apply Hnum. right.
      exact (Permutation_in p (Permutation_sym (sort_by_rating_desc_perm l)) Hp).
    + apply IH. intros p Hp. apply Hnum. now right.
Qed.

Lemma category_eqb_eq (a b : ProductCategory.t) :
  ProductCategory.eqb a b = true <-> a = b.
Proof. destruct a, b; cbn; split; intros E; try reflexivity; discriminate E. Qed.

Lemma category_of_value (v : pyval) (c : ProductCategory.t) :
  ProductCategory.of_value v = Ok c -> v = VStr (ProductCategory.value c).
Proof.
  unfold ProductCategory.of_value.
  destruct (find _ ProductCategory.members) as [c'|] eqn:E; [|discriminate].
  intros [= <-]. apply find_some in E as [_ E]. now apply str_eq_value_spec.
Qed.

Section Recommendations.
Context `{PyRuntime}.
Import mock_data mcp_server.

Lemma related_to_spec (base p : Product.t) :
  related_to base p = true
  <-> Product.id p <> Product.id base
      /\ (Product.category p = Product.category base
          \/ exists t, In t (Product.tags p) /\ In t (Product.tags base)).
Proof.
  unfold related_to, py_any.
  rewrite andb_true_iff, negb_true_iff, orb_true_iff, category_eqb_eq, existsb_exists.
  assert (Hid : str_eqb (Product.id p) (Product.id base) = false
                <-> Product.id p <> Product.id base).
  { rewrite <- str_eqb_eq. destruct (str_eqb _ _); split; intros E;
      try reflexivity; try discriminate; now contradiction E. }
  rewrite Hid.
  assert (Ht : (exists x, In x (Product.tags p)
                          /\ existsb (str_eqb x) (Product.tags base) = true)
               <-> exists t, In t (Product.tags p) /\ In t (Product.tags base)).
  { split; intros (t & Ht & Hb); exists t; (split; [exact Ht|]).
    - apply existsb_exists in Hb as (t' & Hin & E). apply str_eqb_eq in E.
      now subst.
    - apply existsb_exists. exists t. split; [exact Hb | apply str_eqb_refl]. }
  now rewrite Ht.
Qed.

(** What [l.sort(...)] followed by [l[:n]] shows of [l], and what it leaves
out. *)
Lemma recommendations_payload_best (l : list Product.t) (n : Z) :
  (0 <= n)%Z ->
  exists shown rest,
    recommendations_payload (sort_by_rating_desc l) (VInt n)
    = Ok (VDict [ (u "recommendations", VList (map _product_summary shown)) ])
    /\ length shown = Nat.min (Z.to_nat n) (length (shown ++ rest))
    /\ Permutation (shown ++ rest) l
    /\ (ratings_are_numbers l -> StronglySorted rated_above (shown ++ rest)).
Proof.
  intros Hn.
  exists (firstn (Z.to_nat n) (sort_by_rating_desc l)),
         (skipn (Z.to_nat n) (sort_by_rating_desc l)).
  rewrite firstn_skipn. split; [|split; [|split]].
  - unfold recommendations_payload, slice_to.
    destruct (Z.leb_spec 0 n) as [_|Hneg]; [reflexivity | lia].
  - apply length_firstn.
  - apply Permutation_sym, sort_by_rating_desc_perm.
  - apply sort_by_rating_desc_sorted.
Qed.

(** X5 ([_dispatch_tool], branch [get_recommendations], with a product):
when [product_id] names a stored product and [limit] is a non-negative
integer (4 when absent), the tool answers with the first [limit] of the
products related to it, best rated first.  The candidates are the stored
products with another id that share its category or one of its tags, each
exactly once; the list shown followed by the candidates left out is in
descending order of rating when no rating is a NaN; so the product itself
is never recommended and nothing left out is rated higher than something
shown. *)
Theorem recommendations_for_a_product (st : Store) (args : pydict)
        (base : Product.t) (n : Z) :
  truthy (dict_get (u "product_id") args) = true ->
  get_product_by_id st (dict_get (u "product_id") args) = Some base ->
  dict_get_default (u "limit") (VInt 4) args = VInt n ->
  (0 <= n)%Z ->
  exists shown rest,
    fst (_dispatch_tool st (u "get_recommendations") args)
    = Ok (VDict [ (u "recommendations", VList (map _product_summary shown)) ])
    /\ length shown = Nat.min (Z.to_nat n) (length (shown ++ rest))
    /\ Permutation (shown ++ rest) (filter (related_to base) (products st))
    /\ (forall p,
           In p (shown ++ rest)
           <-> In p (products st)
               /\ Product.id p <> Product.id base
               /\ (Product.category p = Product.category base
                   \/ exists t, In t (Product.tags p) /\ In t (Product.tags base)))
    /\ (ratings_are_numbers (products st) ->
        StronglySorted rated_above (shown ++ rest)).
Proof.
  intros Hid Hbase Hlimit Hn.
  destruct (recommendations_payload_best (filter (related_to base) (products st)) n Hn)
    as (shown & rest & E & Hlen & Hperm & Hsorted).
  exists shown, rest.
  rewrite dispatch_get_recommendations. cbn [fst].
  unfold get_recommendations_tool. cbv zeta. rewrite Hid, Hbase, Hlimit.
  split; [exact E|]. split; [exact Hlen|]. split; [exact Hperm|]. split.
  - intros p. rewrite <- related_to_spec, <- filter_In. split; intros Hp.
    + exact (Permutation_in p Hperm Hp).
    + exact (Permutation_in p (Permutation_sym Hperm) Hp).
  - intros Hnum. apply Hsorted. intros p Hp. apply Hnum.
    now apply filter_In in Hp.
Qed.

(** X6 ([_dispatch_tool], branch [get_recommendations], without a product):
when [product_id] is missing, falsy or names no stored product, and [limit]
is a non-negative integer (4 when absent), the tool answers with the first
[limit] of the best rated products of the category given, or of the whole
catalogue when no category is given and also when the category given is
not one of the shop: an unknown category is ignored, not reported. *)
Theorem recommendations_without_a_product (st : Store) (args : pydict) (n : Z) :
  truthy (dict_get (u "product_id") args) = false
  \/ get_product_by_id st (dict_get (u "product_id") args) = None ->
  dict_get_default (u "limit") (VInt 4) args = VInt n ->
  (0 <= n)%Z ->
  exists shown rest,
    fst (_dispatch_tool st (u "get_recommendations") args)
    = Ok (VDict [ (u "recommendations", VList (map _product_summary shown)) ])
    /\ length shown = Nat.min (Z.to_nat n) (length (shown ++ rest))
    /\ (forall cat,
           truthy (dict_get (u "category") args) = true ->
           dict_get (u "category") args = VStr (ProductCategory.value cat) ->
           Permutation (shown ++ rest) (get_products_by_category st cat)
           /\ forall p, In p shown ->
                        In p (products st) /\ Product.category p = cat)
    /\ (truthy (dict_get (u "category") args) = false
        \/ (forall cat,
               dict_get (u "category") args <> VStr (ProductCategory.value cat)) ->
        Permutation (shown ++ rest) (products st))
    /\ (ratings_are_numbers (products st) ->
        StronglySorted rated_above (shown ++ rest)).
Proof.
  intros Hid Hlimit Hn.
  rewrite dispatch_get_recommendations. cbn [fst].
  assert (E : get_recommendations_tool st args
              = if truthy (dict_get (u "category") args) then
                  match ProductCategory.of_value (dict_get (u "category") args) with
                  | Ok cat =>
                    recommendations_payload
                      (sort_by_rating_desc (get_products_by_category st cat)) (VInt n)
                  | Raise ValueError =>
                    recommendations_payload (sort_by_rating_desc (products st)) (VInt n)
                  | Raise e => Raise e
                  end
                else recommendations_payload (sort_by_rating_desc (products st))
                                             (VInt n)).
  { unfold get_recommendations_tool. cbv zeta. rewrite Hlimit.
    destruct Hid as [-> | Hnone]; [reflexivity|].
    rewrite Hnone. now destruct (truthy (dict_get (u "product_id") args)). }
  rewrite E. clear E.
  destruct (truthy (dict_get (u "category") args)) eqn:Ecat.
  - destruct (ProductCategory.of_value (dict_get (u "category") args))
      as [cat|e] eqn:Eof.
    + destruct (recommendations_payload_best (get_products_by_category st cat) n Hn)
        as (shown & rest & E & Hlen & Hperm & Hsorted).
      exists shown, rest. apply category_of_value in Eof.
      split; [exact E|]. split; [exact Hlen|]. split; [|split].
      * intros cat' _ Ecat'. rewrite Eof in Ecat'. injection Ecat' as Ev.
        assert (cat = cat') as <-.
        { destruct cat, cat'; try reflexivity; vm_compute in Ev; discriminate Ev. }
        split; [exact Hperm|]. intros p Hp.
        assert (Hin : In p (get_products_by_category st cat)).
        { apply (Permutation_in p Hperm), in_or_app. now left. }
        apply filter_In in Hin as [Hin Hc]. now apply category_eqb_eq in Hc.
      * intros [Hf|Hunknown]; [discriminate Hf|]. now contradiction (Hunknown cat).
      * intros Hnum. apply Hsorted. intros p Hp. apply Hnum.
        now apply filter_In in Hp.
    + assert (e = ValueError) as ->.
      { unfold ProductCategory.of_value in Eof.
        destruct (find _ ProductCategory.members); [discriminate Eof|].
        now injection Eof as <-. }
      destruct (recommendations_payload_best (products st) n Hn)
        as (shown & rest & E & Hlen & Hperm & Hsorted).
      exists shown, rest.
      split; [exact E|]. split; [exact Hlen|]. split; [|split].
      * intros cat _ Ecat'. rewrite Ecat' in Eof.
        unfold ProductCategory.of_value in Eof.
        destruct (find _ ProductCategory.members) eqn:Ef; [discriminate Eof|].
        assert (Hno := find_none _ _ Ef cat).
        cbn [str_eq_value] in Hno. rewrite str_eqb_refl in Hno.
        assert (Hmem : In cat ProductCategory.members)
          by (destruct cat; cbn; tauto).
        discriminate (Hno Hmem).
      * intros _. exact Hperm.
      * exact Hsorted.
  - destruct (recommendations_payload_best (products st) n Hn)
      as (shown & rest & E & Hlen & Hperm & Hsorted).
    exists shown, rest.
    split; [exact E|]. split; [exact Hlen|]. split; [|split].
    + intros cat Hf. discriminate Hf.
    + intros _. exact Hperm.
    + exact Hsorted.
Qed.
End Recommendations.

Lemma ratings_by_test (l : list Product.t) :
  forallb (fun p => negb (PrimFloat.is_nan (Product.rating p))) l = true ->
  ratings_are_numbers l.
Proof.
  intros Hall p Hp. rewrite forallb_forall in Hall.
  now apply negb_true_iff, Hall.
Qed.

Lemma recommendations_for_a_product_witness :
  exists base shown rest,
    mock_data.get_product_by_id reference.store (VStr (u "prod-004")) = Some base
    /\ fst (mcp_server._dispatch_tool (H := reference.runtime) reference.store
              (u "get_recommendations") [(u "product_id", VStr (u "prod-004"))])
       = Ok (VDict [ (u "recommendations",
                      VList (map (mcp_server._product_summary
                                    (H := reference.runtime)) shown)) ])
    /\ length shown = Nat.min (Z.to_nat 4) (length (shown ++ rest))
    /\ (forall p,
           In p (shown ++ rest)
           <-> In p (mock_data.products reference.store)
               /\ Product.id p <> Product.id base
               /\ (Product.category p = Product.category base
                   \/ exists t, In t (Product.tags p) /\ In t (Product.tags base)))
    /\ StronglySorted rated_above (shown ++ rest).
Proof.
  destruct (mock_data.get_product_by_id reference.store (VStr (u "prod-004")))
    as [base|] eqn:Eb; [|vm_compute in Eb; discriminate Eb].
  assert (Ht : truthy (dict_get (u "product_id")
                         [(u "product_id", VStr (u "prod-004"))]) = true)
    by (vm_compute; reflexivity).
  assert (El : dict_get_default (u "limit") (VInt 4)
                 [(u "product_id", VStr (u "prod-004"))] = VInt 4)
    by (vm_compute; reflexivity).
  assert (Eg : dict_get (u "product_id") [(u "product_id", VStr (u "prod-004"))]
               = VStr (u "prod-004")) by (vm_compute; reflexivity).
  rewrite <- Eg in Eb.
  destruct (recommendations_for_a_product (H := reference.runtime) reference.store
              [(u "product_id", VStr (u "prod-004"))] base 4 Ht Eb El)
    as (shown & rest & E & Hlen & _ & Hin & Hsorted); [lia|].
  exists base, shown, rest. rewrite Eg in Eb.
  split; [reflexivity|]. split; [exact E|]. split; [exact Hlen|].
  split; [exact Hin|]. apply Hsorted, ratings_by_test. vm_compute. reflexivity.
Defined.

Lemma recommendations_without_a_product_witness :
  exists shown rest,
    fst (mcp_server._dispatch_tool (H := reference.runtime) reference.store
           (u "get_recommendations")
           [(u "category", VStr (u "garden")); (u "limit", VInt 3)])
    = Ok (VDict [ (u "recommendations",
                   VList (map (mcp_server._product_summary
                                 (H := reference.runtime)) shown)) ])
    /\ length shown = Nat.min (Z.to_nat 3) (length (shown ++ rest))
    /\ Permutation (shown ++ rest) (mock_data.products reference.store)
    /\ StronglySorted rated_above (shown ++ rest).
Proof.
  assert (Ht : truthy (dict_get (u "product_id")
                         [(u "category", VStr (u "garden")); (u "limit", VInt 3)])
               = false) by (vm_compute; reflexivity).
  assert (El : dict_get_default (u "limit") (VInt 4)
                 [(u "category", VStr (u "garden")); (u "limit", VInt 3)] = VInt 3)
    by (vm_compute; reflexivity).
  destruct (recommendations_without_a_product (H := reference.runtime)
              reference.store
              [(u "category", VStr (u "garden")); (u "limit", VInt 3)] 3
              (or_introl Ht) El)
    as (shown & rest & E & Hlen & _ & Hall & Hsorted); [lia|].
  exists shown, rest.
  split; [exact E|]. split; [exact Hlen|]. split.
  - apply Hall. right. intros cat Ec. destruct cat; vm_compute in Ec; discriminate Ec.
  - apply Hsorted, ratings_by_test. vm_compute. reflexivity.
Defined.

(* ------------------------------------------------------------------------- *)
(** ** A cancellation that is accepted *)
(* ------------------------------------------------------------------------- *)

Lemma accepted_payload (oid msg : str) (total : float) :
  let r := Ok (VDict [ (u "success", VBool true);
                       (u "order_id", VStr oid);
                       (u "message", VStr msg);
                       (u "refund_amount", VFloat total) ]) in
  result_field (u "success") r = Some (VBool true)
  /\ result_field (u "order_id") r = Some (VStr oid)
  /\ result_field (u "refund_amount") r = Some (VFloat total)
  /\ result_field (u "message") r = Some (VStr msg).
Proof. vm_compute. split; [|split; [|split]]; reflexivity. Qed.

Lemma status_cancellable (s : OrderStatus.t) :
  s = OrderStatus.PENDING \/ s = OrderStatus.CONFIRMED ->
  mcp_server.not_cancellable s = false /\ order_agent.not_cancellable s = false
  /\ OrderStatus.value s <> u "cancelled".
Proof.
  intros [-> | ->]; (split; [reflexivity|split; [reflexivity|]]);
    intros E; vm_compute in E; discriminate E.
Qed.

(** X7 ([_dispatch_tool] and [_direct_tool_call] of the order agent, branch
[cancel_order]): a cancellation that is accepted is not recorded.  For a
stored order that is pending or confirmed, the tool answers [success: true]
with the id of the order, a message that names it and its total as
[refund_amount]; [get_order_status] called afterwards still reports the
status the order had, which is not "cancelled"; and the same cancellation is
accepted again with the same answer. *)
Theorem accepted_cancellation_is_not_recorded `{PyRuntime}
        (st : mock_data.Store) (args : pydict) (order_id : pyval) (o : Order.t) :
  dict_lookup (u "order_id") args = Some order_id ->
  mock_data.get_order_by_id st order_id = Some o ->
  Order.status o = OrderStatus.PENDING \/ Order.status o = OrderStatus.CONFIRMED ->
  cancels_in_name_only mcp_server._dispatch_tool st args o
  /\ cancels_in_name_only order_agent._direct_tool_call st args o
  /\ OrderStatus.value (Order.status o) <> u "cancelled".
Proof.
  intros Hid Hfound Hs.
  destruct (status_cancellable _ Hs) as (Hm & Ho & Hv).
  destruct (dict_getitem_lookup _ _ _ Hid) as [Hget _].
  destruct (order_fallback_status_found st args order_id o Hid Hfound) as [Ef Et].
  split; [|split; [|exact Hv]]; unfold cancels_in_name_only; cbv zeta.
  - rewrite dispatch_cancel_order. cbn [fst snd].
    rewrite dispatch_get_order_status. cbn [fst snd].
    rewrite dispatch_cancel_order. cbn [fst snd].
    rewrite Et. unfold mcp_server.cancel_order_tool.
    rewrite Hget, bind_ok, Hfound, Hm.
    destruct (accepted_payload (Order.id o)
                (u "Order " ++ Order.id o
                 ++ u " has been cancelled successfully. Refund will be processed in 3-5 business days.")
                (Order.total o)) as (F1 & F2 & F3 & F4).
    split; [exact F1|]. split; [exact F2|]. split; [exact F3|]. split.
    + eexists. split; [exact F4|]. exists (u "Order "). eexists. reflexivity.
    + split; [|reflexivity]. vm_compute. reflexivity.
  - rewrite order_fallback_cancel_order. cbn [fst snd].
    rewrite order_fallback_get_order_status. cbn [fst snd].
    rewrite order_fallback_cancel_order. cbn [fst snd].
    rewrite Ef. unfold order_agent.cancel_order_fallback.
    rewrite Hget, bind_ok, Hfound, Ho.
    destruct (accepted_payload (Order.id o)
                (u "Sipariş " ++ Order.id o
                 ++ u " başarıyla iptal edildi. İade 3-5 iş gününde işleme alınacak.")
                (Order.total o)) as (F1 & F2 & F3 & F4).
    split; [exact F1|]. split; [exact F2|]. split; [exact F3|]. split.
    + eexists. split; [exact F4|]. exists (u "Sipariş "). eexists. reflexivity.
    + split; [|reflexivity]. vm_compute. reflexivity.
Qed.

(** The confirmed order ord-004 of [mock_data]. *)
Lemma accepted_cancellation_is_not_recorded_witness :
  exists o,
    Order.status o = OrderStatus.CONFIRMED
    /\ cancels_in_name_only (mcp_server._dispatch_tool (H := reference.runtime))
         reference.store [(u "order_id", VStr (u "ord-004"))] o
    /\ cancels_in_name_only (order_agent._direct_tool_call (H := reference.runtime))
         reference.store [(u "order_id", VStr (u "ord-004"))] o
    /\ OrderStatus.value (Order.status o) <> u "cancelled".
Proof.
  destruct (mock_data.get_order_by_id reference.store (VStr (u "ord-004")))
    as [o|] eqn:E; [|vm_compute in E; discriminate E].
  assert (Hs : Order.status o = OrderStatus.CONFIRMED).
  { vm_compute in E. injection E as <-. reflexivity. }
  exists o. split; [exact Hs|].
  apply (accepted_cancellation_is_not_recorded (H := reference.runtime)
           reference.store [(u "order_id", VStr (u "ord-004"))]
           (VStr (u "ord-004")) o).
  - reflexivity.
  - exact E.
  - right. exact Hs.
Defined.

(* ------------------------------------------------------------------------- *)
(** ** The orders of a customer *)
(* ------------------------------------------------------------------------- *)

Section CustomerOrders.
Context `{PyRuntime}.
Import mock_data mcp_server.

Lemma get_orders_by_email_filter (st : Store) (e : str) :
  get_orders_by_email st (VStr e)
  = Ok (filter (fun o => str_eqb (lower (Order.customer_email o)) (lower e))
               (orders st)).
Proof.
  unfold get_orders_by_email.
  destruct (filter_r_total (fun o => email_matches (Order.customer_email o) (VStr e))
                           (orders st)) as [r E].
  { intros o _. now eexists. }
  rewrite E, (filter_r_ok _ _ _ E). f_equal. apply filter_ext. intros o.
  cbn [email_matches holds]. now destruct (str_eqb _ _).
Qed.

(** X8 ([_dispatch_tool], branch [get_customer_orders]): which orders are
listed.  With a non-empty [email] the tool lists the stored orders whose
customer e-mail equals it up to case, in stored order, whatever
[customer_id] says; without an e-mail (absent, [None] or empty) and with a
[customer_id] it lists the stored orders of exactly that customer id; with
neither it answers [{"error": "Provide either email or customer_id"}].
[total] is the number of orders listed. *)
Theorem customer_orders_selection (st : Store) (args : pydict) :
  (forall e,
      dict_get (u "email") args = VStr e -> e <> [] ->
      exists listed found,
        fst (_dispatch_tool st (u "get_customer_orders") args)
        = Ok (VDict [ (u "orders", VList (map customer_order_summary found));
                      (u "total", VInt (Z.of_nat (length found))) ])
        /\ found = filter listed (orders st)
        /\ forall o, listed o = true
                     <-> lower (Order.customer_email o) = lower e)
  /\ (truthy (dict_get (u "email") args) = false ->
      truthy (dict_get (u "customer_id") args) = true ->
      exists listed found,
        fst (_dispatch_tool st (u "get_customer_orders") args)
        = Ok (VDict [ (u "orders", VList (map customer_order_summary found));
                      (u "total", VInt (Z.of_nat (length found))) ])
        /\ found = filter listed (orders st)
        /\ forall o, listed o = true
                     <-> dict_get (u "customer_id") args = VStr (Order.customer_id o))
  /\ (truthy (dict_get (u "email") args) = false ->
      truthy (dict_get (u "customer_id") args) = false ->
      fst (_dispatch_tool st (u "get_customer_orders") args)
      = Ok (error_payload (u "Provide either email or customer_id"))).
Proof.
  rewrite dispatch_get_customer_orders. cbn [fst].
  unfold get_customer_orders_tool.
  split; [|split].
  - intros e Ee Hne. rewrite Ee.
    assert (Ht : truthy (VStr e) = true) by (destruct e; [now contradiction Hne|reflexivity]).
    rewrite Ht, get_orders_by_email_filter, !bind_ok.
    eexists. eexists. split; [reflexivity|]. split; [reflexivity|].
    intros o. apply str_eqb_eq.
  - intros He Hc. rewrite He, Hc, bind_ok.
    eexists. eexists. split; [reflexivity|]. split; [reflexivity|].
    intros o. apply str_eq_value_spec.
  - intros He Hc. rewrite He, Hc, bind_ok. reflexivity.
Qed.
End CustomerOrders.

(** The two orders of the customer cust-001 of [mock_data], found by an
e-mail written in capitals although another customer id is given. *)
Lemma customer_orders_selection_witness :
  exists listed found,
    fst (mcp_server._dispatch_tool (H := reference.runtime) reference.store
           (u "get_customer_orders")
           [ (u "email", VStr (u "AHMET.YILMAZ@EXAMPLE.COM"));
             (u "customer_id", VStr (u "cust-002")) ])
    = Ok (VDict [ (u "orders",
                   VList (map (mcp_server.customer_order_summary
                                 (H := reference.runtime)) found));
                  (u "total", VInt (Z.of_nat (length found))) ])
    /\ found = filter listed (mock_data.orders reference.store)
    /\ (forall o, listed o = true
                  <-> lower (PyRuntime := reference.runtime) (Order.customer_email o)
                      = lower (PyRuntime := reference.runtime)
                              (u "AHMET.YILMAZ@EXAMPLE.COM")).
Proof.
  destruct (proj1 (customer_orders_selection (H := reference.runtime) reference.store
                     [ (u "email", VStr (u "AHMET.YILMAZ@EXAMPLE.COM"));
                       (u "customer_id", VStr (u "cust-002")) ])
                  (u "AHMET.YILMAZ@EXAMPLE.COM"))
    as (listed & found & E & Hf & Hl).
  - vm_compute. reflexivity.
  - vm_compute. discriminate.
  - exists listed, found.
    split; [exact E|]. split; [exact Hf | exact Hl].
Defined.

(* ------------------------------------------------------------------------- *)
(** ** Looking entities up by their id *)
(* ------------------------------------------------------------------------- *)

Lemma find_by_unique_key {A} (key : A -> str) (l : list A) (x : A) :
  NoDup (map key l) -> In x l ->
  find (fun y => str_eq_value (key y) (VStr (key x))) l = Some x.
Proof.
  induction l as [|a l IH]; intros Hnd Hin; [contradiction|].
  cbn [map] in Hnd. apply NoDup_cons_iff in Hnd as [Hfresh Hnd].
  cbn [find str_eq_value]. destruct Hin as [->|Hin].
  - now rewrite str_eqb_refl.
  - destruct (str_eqb (key a) (key x)) eqn:E; [|now apply IH].
    apply str_eqb_eq in E. exfalso. apply Hfresh. rewrite E.
    now apply in_map.
Qed.

Lemma unique_by_test (l : list str) :
  all_distinct l = true -> NoDup l.
Proof.
  induction l as [|x l IH]; intros E; constructor; cbn [all_distinct] in E;
    apply andb_true_iff in E as [Hx Hl].
  - intros Hin. apply negb_true_iff in Hx.
    assert (Ht : existsb (str_eqb x) l = true)
      by (apply existsb_exists; exists x; split; [exact Hin | apply str_eqb_refl]).
    now rewrite Ht in Hx.
  - now apply IH.
Qed.

Section Lookups.
Context `{PyRuntime}.
Import mock_data mcp_server.

(** X9 ([_dispatch_tool], branches [get_product_details],
[check_product_availability], [get_order_status] and [get_customer_profile];
[get_product_by_id], [get_order_by_id], [get_customer_by_id]): what is stored
is found by its id.  In a store whose ids do not repeat, asking for the id of
a stored product, order or customer returns the data of that very entity: the
full dump of the product, its stock and price, the status payload of the
order, the dump of the customer (when no e-mail is given and the id is not
empty). *)
Theorem stored_entities_are_found_by_id (st : Store) (args : pydict) :
  (NoDup (map Product.id (products st)) ->
   forall p,
     In p (products st) ->
     dict_lookup (u "product_id") args = Some (VStr (Product.id p)) ->
     fst (_dispatch_tool st (u "get_product_details") args)
     = Ok (Product.model_dump p)
     /\ result_field (u "stock_count")
          (fst (_dispatch_tool st (u "check_product_availability") args))
        = Some (VInt (Product.stock p))
     /\ result_field (u "in_stock")
          (fst (_dispatch_tool st (u "check_product_availability") args))
        = Some (VBool (Product.in_stock p))
     /\ result_field (u "price")
          (fst (_dispatch_tool st (u "check_product_availability") args))
        = Some (VFloat (Product.price p)))
  /\ (NoDup (map Order.id (orders st)) ->
      forall o,
        In o (orders st) ->
        dict_lookup (u "order_id") args = Some (VStr (Order.id o)) ->
        fst (_dispatch_tool st (u "get_order_status") args)
        = Ok (order_status_payload o))
  /\ (NoDup (map Customer.id (customers st)) ->
      forall c,
        In c (customers st) ->
        Customer.id c <> [] ->
        truthy (dict_get (u "email") args) = false ->
        dict_lookup (u "customer_id") args = Some (VStr (Customer.id c)) ->
        fst (_dispatch_tool st (u "get_customer_profile") args)
        = Ok (Customer.model_dump c)).
Proof.
  split; [|split].
  - intros Hnd p Hin Hid.
    destruct (dict_getitem_lookup _ _ _ Hid) as [Hget _].
    rewrite dispatch_get_product_details, dispatch_check_product_availability.
    cbn [fst]. unfold get_product_details_tool, check_product_availability_tool.
    rewrite Hget, !bind_ok. unfold get_product_by_id.
    rewrite (find_by_unique_key Product.id _ p Hnd Hin).
    split; [reflexivity|].
    generalize (Product.discount_percentage p). intros d.
    split; [|split]; vm_compute; reflexivity.
  - intros Hnd o Hin Hid.
    destruct (dict_getitem_lookup _ _ _ Hid) as [Hget _].
    rewrite dispatch_get_order_status. cbn [fst]. unfold get_order_status_tool.
    rewrite Hget, bind_ok. unfold get_order_by_id.
    now rewrite (find_by_unique_key Order.id _ o Hnd Hin).
  - intros Hnd c Hin Hne He Hid.
    destruct (dict_getitem_lookup _ _ _ Hid) as [_ Hget].
    rewrite dispatch_get_customer_profile. cbn [fst].
    unfold get_customer_profile_tool. rewrite He, Hget.
    assert (Ht : truthy (VStr (Customer.id c)) = true)
      by (destruct (Customer.id c); [now contradiction Hne | reflexivity]).
    rewrite Ht. unfold get_customer_by_id.
    now rewrite (find_by_unique_key Customer.id _ c Hnd Hin).
Qed.
End Lookups.

(** The product prod-007, the order ord-003 and the customer cust-002 of
[mock_data], whose ids are all different. *)
Lemma stored_entities_are_found_by_id_witness :
  exists p o c,
    nth_error (mock_data.products reference.store) 6 = Some p
    /\ nth_error (mock_data.orders reference.store) 2 = Some o
    /\ nth_error (mock_data.customers reference.store) 1 = Some c
    /\ fst (mcp_server._dispatch_tool (H := reference.runtime) reference.store
              (u "get_product_details") [(u "product_id", VStr (u "prod-007"))])
       = Ok (Product.model_dump p)
    /\ fst (mcp_server._dispatch_tool (H := reference.runtime) reference.store
              (u "get_order_status") [(u "order_id", VStr (u "ord-003"))])
       = Ok (mcp_server.order_status_payload (H := reference.runtime) o)
    /\ fst (mcp_server._dispatch_tool (H := reference.runtime) reference.store
              (u "get_customer_profile") [(u "customer_id", VStr (u "cust-002"))])
       = Ok (Customer.model_dump c).
Proof.
  destruct (nth_error (mock_data.products reference.store) 6) as [p|] eqn:Ep;
    [|vm_compute in Ep; discriminate Ep].
  destruct (nth_error (mock_data.orders reference.store) 2) as [o|] eqn:Eo;
    [|vm_compute in Eo; discriminate Eo].
  destruct (nth_error (mock_data.customers reference.store) 1) as [c|] eqn:Ec;
    [|vm_compute in Ec; discriminate Ec].
  assert (Hp : u "prod-007" = Product.id p)
    by (vm_compute in Ep; injection Ep as <-; vm_compute; reflexivity).
  assert (Ho : u "ord-003" = Order.id o)
    by (vm_compute in Eo; injection Eo as <-; vm_compute; reflexivity).
  assert (Hc : u "cust-002" = Customer.id c)
    by (vm_compute in Ec; injection Ec as <-; vm_compute; reflexivity).
  exists p, o, c.
  split; [reflexivity|]. split; [reflexivity|]. split; [reflexivity|].
  split; [|split].
  - apply (proj1 (stored_entities_are_found_by_id (H := reference.runtime)
                    reference.store [(u "product_id", VStr (u "prod-007"))])).
    + apply unique_by_test. vm_compute. reflexivity.
    + exact (nth_error_In _ _ Ep).
    + rewrite <- Hp. vm_compute. reflexivity.
  - apply (proj1 (proj2 (stored_entities_are_found_by_id (H := reference.runtime)
                           reference.store [(u "order_id", VStr (u "ord-003"))]))).
    + apply unique_by_test. vm_compute. reflexivity.
    + exact (nth_error_In _ _ Eo).
    + rewrite <- Ho. vm_compute. reflexivity.
  - apply (proj2 (proj2 (stored_entities_are_found_by_id (H := reference.runtime)
                           reference.store [(u "customer_id", VStr (u "cust-002"))]))).
    + apply unique_by_test. vm_compute. reflexivity.
    + exact (nth_error_In _ _ Ec).
    + rewrite <- Hc. vm_compute. discriminate.
    + vm_compute. reflexivity.
    + rewrite <- Hc. vm_compute. reflexivity.
Defined.

(* ------------------------------------------------------------------------- *)
(** ** Resources *)
(* ------------------------------------------------------------------------- *)

Section Resources.
Context `{PyRuntime}.
Import mock_data mcp_server_api.

(** X10 ([list_resources], [read_resource]): the three resources are read
by the text of their URI only.  [read_resource] compares its argument with
three [str] literals, so called with an [AnyUrl], which is what the server
passes and what a listed [Resource] carries as its [uri], it raises
[ValueError] whatever the URL is, the listed ones included.  Called with a
[str], it gives for the text of each listed URI a list with one entry per
stored product, order or customer, in stored order, each carrying the id of
its entity, and raises [ValueError] for any other text. *)
Theorem resources_are_read_by_text_only (st : Store) :
  (forall text, read_resource st (AnyUrl text) = Raise ValueError)
  /\ (forall r, In r list_resources ->
                read_resource st (uri r) = Raise ValueError)
  /\ (forall r, In r list_resources ->
                exists entries,
                  read_resource st (TextUri (uri_text (uri r)))
                  = Ok (VList entries))
  /\ (forall other,
         ~ In other (map (fun r => uri_text (uri r)) list_resources) ->
         read_resource st (TextUri other) = Raise ValueError)
  /\ (exists entries,
         read_resource st (TextUri (u "ecommerce://products/catalog"))
         = Ok (VList entries)
         /\ map (fun e => dict_lookup (u "id") (fields e)) entries
            = map (fun p => Some (VStr (Product.id p))) (products st))
  /\ (exists entries,
         read_resource st (TextUri (u "ecommerce://orders/summary"))
         = Ok (VList entries)
         /\ map (fun e => dict_lookup (u "id") (fields e)) entries
            = map (fun o => Some (VStr (Order.id o))) (orders st))
  /\ (exists entries,
         read_resource st (TextUri (u "ecommerce://customers/list"))
         = Ok (VList entries)
         /\ map (fun e => dict_lookup (u "id") (fields e)) entries
            = map (fun c => Some (VStr (Customer.id c))) (customers st)).
Proof.
  split; [|split; [|split; [|split; [|split; [|split]]]]].
  - intros text. reflexivity.
  - intros r [<-|[<-|[<-|[]]]]; reflexivity.
  - intros r [<-|[<-|[<-|[]]]]; eexists; reflexivity.
  - intros other Hnot. unfold read_resource, uri_is.
    rewrite !str_eqb_neq; [reflexivity|..]; intros ->; apply Hnot;
      apply In_by_test; vm_compute; reflexivity.
  - eexists. split; [reflexivity|]. rewrite map_map. apply map_ext.
    intros p. reflexivity.
  - eexists. split; [reflexivity|]. rewrite map_map. apply map_ext.
    intros o. reflexivity.
  - eexists. split; [reflexivity|]. rewrite map_map. apply map_ext.
    intros c. reflexivity.
Qed.
End Resources.

Lemma resources_are_read_by_text_only_witness :
  mcp_server_api.read_resource (H := reference.runtime) reference.store
    (mcp_server_api.AnyUrl (u "ecommerce://orders/summary"))
  = Raise ValueError
  /\ mcp_server_api.read_resource (H := reference.runtime) reference.store
       (mcp_server_api.TextUri (u "ecommerce://products/summary"))
     = Raise ValueError
  /\ exists entries,
      mcp_server_api.read_resource (H := reference.runtime) reference.store
        (mcp_server_api.TextUri (u "ecommerce://orders/summary"))
      = Ok (VList entries)
      /\ map (fun e => dict_lookup (u "id") (fields e)) entries
         = map (fun o => Some (VStr (Order.id o)))
               (mock_data.orders reference.store).
Proof.
  split; [|split].
  - exact (proj1 (resources_are_read_by_text_only (H := reference.runtime)
                    reference.store)
                 (u "ecommerce://orders/summary")).
  - refine (proj1 (proj2 (proj2 (proj2
             (resources_are_read_by_text_only (H := reference.runtime)
                reference.store))))
             (u "ecommerce://products/summary") _).
    intros Hin. vm_compute in Hin.
    repeat (destruct Hin as [Hin|Hin]; [discriminate Hin|]). exact Hin.
  - exact (proj1 (proj2 (proj2 (proj2 (proj2 (proj2
             (resources_are_read_by_text_only (H := reference.runtime)
                reference.store))))))).
Defined.

(* ------------------------------------------------------------------------- *)
(** ** Web search with a key *)
(* ------------------------------------------------------------------------- *)

Lemma map_r_length {A B} (f : A -> result B) (l : list A) (r : list B) :
  map_r f l = Ok r -> length r = length l.
Proof.
  revert r; induction l as [|a l IH]; intros r E; cbn [map_r] in E.
  - now injection E as <-.
  - apply bind_inv in E as (y & _ & E). apply bind_inv in E as (r' & Er & E).
    injection E as <-. cbn [length]. now rewrite (IH r' Er).
Qed.

Lemma map_r_Forall {A B} (f : A -> result B) (P : B -> Prop) (l : list A) (r : list B) :
  (forall a b, f a = Ok b -> P b) -> map_r f l = Ok r -> Forall P r.
Proof.
  intros Hf. revert r; induction l as [|a l IH]; intros r E; cbn [map_r] in E.
  - injection E as <-. constructor.
  - apply bind_inv in E as (y & Ey & E). apply bind_inv in E as (r' & Er & E).
    injection E as <-. constructor; [exact (Hf a y Ey) | exact (IH r' Er)].
Qed.

Lemma py_prefix_at_most (n : nat) (v w : pyval) :
  py_prefix n v = Ok w -> at_most n w.
Proof.
  destruct v; cbn [py_prefix]; try discriminate; intros [= <-];
    eexists; (split; [reflexivity|]); apply length_firstn_le.
Qed.

Lemma py_iter_length (v : pyval) (items : list pyval) (k : nat) :
  py_len v = Some k -> py_iter v = Ok items -> length items = k.
Proof.
  destruct v; cbn [py_len py_iter]; try discriminate;
    intros [= <-] [= <-]; now rewrite ?length_map.
Qed.

(** The sources a tool reports: at most [m], each with an excerpt of at most
[n] characters. *)
Lemma source_list_bounds (results : pyval) (k1 k3 : str) (n m : nat) (score : bool)
      (v : pyval) :
  source_list results k1 k3 n m score = Ok v ->
  exists l,
    v = VList l
    /\ (length l <= m)%nat
    /\ Forall (fun entry =>
                 exists title url content rest,
                   entry = VDict ((k1, title) :: (u "url", url) :: (k3, content) :: rest)
                   /\ at_most n content) l.
Proof.
  unfold source_list. intros E.
  apply bind_inv in E as (rs & _ & E).
  apply bind_inv in E as (rs' & Ep & E).
  apply bind_inv in E as (items & Ei & E).
  apply bind_inv in E as (l & El & E).
  injection E as <-. exists l. split; [reflexivity|]. split.
  - rewrite (map_r_length _ _ _ El).
    destruct (py_prefix_at_most _ _ _ Ep) as (k & Hk & Hle).
    now rewrite (py_iter_length _ _ _ Hk Ei).
  - refine (map_r_Forall _ _ _ _ _ El). intros r entry E. cbv beta in E.
    apply bind_inv in E as (title & _ & E).
    apply bind_inv in E as (url & _ & E).
    apply bind_inv in E as (content & _ & E).
    apply bind_inv in E as (content' & Ec & E).
    apply py_prefix_at_most in Ec.
    destruct score.
    + apply bind_inv in E as (sc & _ & E). injection E as <-.
      now exists title, url, content', [(u "score", sc)].
    + injection E as <-. now exists title, url, content', [].
Qed.

Section WebSearch.
Context `{PyRuntime}.

(** A tool body of the form
[try: results = client.search(...); return {..., sources: [...]}
 except Exception as e: return on_error(e)]. *)
Lemma guarded_search_body (tavily : tavily_api) (key : str)
      (request : tavily_request) (k1 sources excerpt : str) (m n : nat)
      (score : bool) (build : pyval -> pyval -> pyval) (on_error : exn -> pyval) :
  (forall answer l,
      result_field sources (Ok (build answer (VList l))) = Some (VList l)) ->
  (forall e, result_field (u "error") (Ok (on_error e)) = Some (VStr (exc_str e))) ->
  (forall e l, result_field sources (Ok (on_error e)) = Some (VList l) -> l = []) ->
  (forall title url content rest,
      dict_lookup excerpt ((k1, title) :: (u "url", url) :: (excerpt, content) :: rest)
      = Some content) ->
  guarded_search tavily key request sources excerpt m n
    (try_except
       (results <- tavily key request ;;
        answer <- py_get results (u "answer") (VStr []) ;;
        l <- source_list results k1 excerpt n m score ;;
        Ok (build answer l))
       (fun e => Ok (on_error e)),
     [request]).
Proof.
  intros Hsources Herror Hnone Hexcerpt. unfold guarded_search. cbn [fst snd].
  split; [reflexivity|].
  destruct (tavily key request) as [results|e]; cbn [bind try_except].
  - destruct (py_get results (u "answer") (VStr [])) as [answer|e];
      cbn [bind try_except].
    + destruct (source_list results k1 excerpt n m score) as [v|e] eqn:Es;
        cbn [bind try_except].
      * destruct (source_list_bounds _ _ _ _ _ _ _ Es) as (l & -> & Hlen & Hall).
        split; [eexists; reflexivity|]. split; [discriminate|].
        intros l'. rewrite Hsources. intros [= <-]. split; [exact Hlen|].
        intros entry Hin. rewrite Forall_forall in Hall.
        destruct (Hall entry Hin) as (title & url & content & rest & -> & Hshort).
        exists content. cbn [fields]. split; [apply Hexcerpt | exact Hshort].
      * split; [eexists; reflexivity|]. split; [discriminate|].
        intros l' El. rewrite (Hnone e l' El). split; [apply Nat.le_0_l|].
        intros entry [].
    + split; [eexists; reflexivity|]. split; [discriminate|].
      intros l' El. rewrite (Hnone e l' El). split; [apply Nat.le_0_l|].
      intros entry [].
  - split; [eexists; reflexivity|]. split; [intros e' [= <-]; apply Herror|].
    intros l' El. rewrite (Hnone e l' El). split; [apply Nat.le_0_l|].
    intros entry [].
Qed.
End WebSearch.

Ltac payload_fields :=
  intros;
  match goal with
  | E : result_field _ _ = Some _ |- _ =>
    vm_compute in E; first [discriminate E | now injection E as <-]
  | |- _ => vm_compute; reflexivity
  end.

Section WebTools.
Context `{PyRuntime}.

Lemma key_is_truthy (settings : Settings) :
  tavily_api_key settings <> [] ->
  negb (truthy (VStr (tavily_api_key settings))) = false.
Proof. destruct (tavily_api_key settings); [intros E; now contradiction E | reflexivity]. Qed.

(** X11 (the six web-search tools: [web_search], [compare_prices],
[get_product_reviews_web], [get_trending_products] of the search agent,
[web_search_products] of the product agent, [web_search_shipping] of the
order agent): with a search key configured, each tool sends exactly one
request to the provider, built from the user's text with the depth and
[max_results] of the tool; it never raises: an exception of the provider (or
of the extraction of a malformed answer) is reported in the payload, with
the text of the provider's exception under [error]; and the sources it
reports are bounded, at most 5, 5, 4, 4, 3 and 3 entries with excerpts of
at most 600, 400, 500, 400, 500 and 400 characters. *)
Theorem web_search_with_a_key (settings : Settings) (tavily : tavily_api) :
  tavily_api_key settings <> [] ->
  (forall query depth,
      guarded_search tavily (tavily_api_key settings)
        {| tq_query := query; tq_search_depth := depth;
           tq_max_results := 5; tq_include_answer := true |}
        (u "results") (u "content") 5 600
        (search_agent.web_search settings tavily query depth))
  /\ (forall name,
         guarded_search tavily (tavily_api_key settings)
           {| tq_query := name
                          ++ u " fiyat karşılaştırma Trendyol Hepsiburada Amazon 2025";
              tq_search_depth := u "basic";
              tq_max_results := 6; tq_include_answer := true |}
           (u "price_sources") (u "info") 5 400
           (search_agent.compare_prices settings tavily name))
  /\ (forall name,
         guarded_search tavily (tavily_api_key settings)
           {| tq_query := name ++ u " kullanıcı yorumları inceleme review 2024 2025";
              tq_search_depth := u "advanced";
              tq_max_results := 5; tq_include_answer := true |}
           (u "reviews") (u "excerpt") 4 500
           (search_agent.get_product_reviews_web settings tavily name))
  /\ (forall category,
         guarded_search tavily (tavily_api_key settings)
           {| tq_query := u "2025 en iyi " ++ category ++ u " ürünleri trend çok satan";
              tq_search_depth := u "basic";
              tq_max_results := 5; tq_include_answer := true |}
           (u "sources") (u "content") 4 400
           (search_agent.get_trending_products settings tavily category))
  /\ (forall query,
         guarded_search tavily (tavily_api_key settings)
           {| tq_query := query; tq_search_depth := u "basic";
              tq_max_results := 5; tq_include_answer := true |}
           (u "results") (u "content") 3 500
           (product_agent.web_search_products settings tavily query))
  /\ (forall query,
         guarded_search tavily (tavily_api_key settings)
           {| tq_query := query; tq_search_depth := u "basic";
              tq_max_results := 3; tq_include_answer := true |}
           (u "results") (u "content") 3 400
           (order_agent.web_search_shipping settings tavily query)).
Proof.
  intros Hkey. pose proof (key_is_truthy settings Hkey) as Ht.
  unfold search_agent.web_search, search_agent.compare_prices,
    search_agent.get_product_reviews_web, search_agent.get_trending_products,
    product_agent.web_search_products, order_agent.web_search_shipping.
  rewrite Ht. cbv zeta.
  split; [|split; [|split; [|split; [|split]]]]; intros.
  - apply (guarded_search_body tavily _ _ (u "title") (u "results") (u "content") 5 600
             true
             (fun answer l => VDict [(u "answer", answer); (u "results", l)])
             (fun e => VDict [(u "error", VStr (exc_str e)); (u "results", VList [])]));
      payload_fields.
  - apply (guarded_search_body tavily _ _ (u "source") (u "price_sources") (u "info")
             5 400 false
             (fun answer l => VDict [ (u "product", VStr name); (u "answer", answer);
                                      (u "price_sources", l) ])
             (fun e => error_payload (exc_str e)));
      payload_fields.
  - apply (guarded_search_body tavily _ _ (u "source") (u "reviews") (u "excerpt")
             4 500 false
             (fun answer l => VDict [ (u "product", VStr name); (u "summary", answer);
                                      (u "reviews", l) ])
             (fun e => error_payload (exc_str e)));
      payload_fields.
  - apply (guarded_search_body tavily _ _ (u "title") (u "sources") (u "content")
             4 400 false
             (fun answer l => VDict [ (u "category", VStr category);
                                      (u "trending_summary", answer);
                                      (u "sources", l) ])
             (fun e => error_payload (exc_str e)));
      payload_fields.
  - apply (guarded_search_body tavily _ _ (u "title") (u "results") (u "content")
             3 500 false
             (fun answer l => VDict [(u "answer", answer); (u "results", l)])
             (fun e => VDict [(u "error", VStr (exc_str e)); (u "results", VList [])]));
      payload_fields.
  - apply (guarded_search_body tavily _ _ (u "title") (u "results") (u "content")
             3 400 false
             (fun answer l => VDict [(u "answer", answer); (u "results", l)])
             (fun e => error_payload (exc_str e)));
      payload_fields.
Qed.
End WebTools.

(** A provider that answers with seven long results. *)
Lemma web_search_with_a_key_witness :
  let settings := {| tavily_api_key := u "tvly-demo";
                     mcp_server_url := u "http://mcp-server:8090";
                     product_agent_url := u "http://product-agent:8006";
                     order_agent_url := u "http://order-agent:8005";
                     search_agent_url := u "http://search-agent:8004" |} in
  let tavily : tavily_api :=
    fun _ _ =>
      Ok (VDict [ (u "answer", VStr (u "Sony WH-1000XM5"));
                  (u "results",
                   VList (repeat (VDict [ (u "title", VStr (u "Test"));
                                          (u "url", VStr (u "https://example.com"));
                                          (u "content", VStr (repeat 97%N 700));
                                          (u "score", VFloat 0.9%float) ]) 7)) ]) in
  guarded_search (H := reference.runtime) tavily (u "tvly-demo")
    {| tq_query := u "kulaklık"; tq_search_depth := u "advanced";
       tq_max_results := 5; tq_include_answer := true |}
    (u "results") (u "content") 5 600
    (search_agent.web_search (H := reference.runtime) settings tavily
       (u "kulaklık") (u "advanced")).
Proof.
  intros settings tavily.
  assert (Hkey : tavily_api_key settings <> [])
    by (intros E; vm_compute in E; discriminate E).
  apply (proj1 (web_search_with_a_key (H := reference.runtime) settings tavily Hkey)).
Defined.

(* ------------------------------------------------------------------------- *)
(** ** The tools bound to the language model *)
(* ------------------------------------------------------------------------- *)

Lemma find_r_total {A} (f : A -> result bool) (l : list A) :
  (forall x, In x l -> exists b, f x = Ok b) -> exists r, find_r f l = Ok r.
Proof.
  induction l as [|a l IH]; intros Hf; cbn [find_r].
  - now exists None.
  - destruct (Hf a (or_introl eq_refl)) as [b ->]. cbn [bind].
    destruct b; [now eexists|]. apply IH. intros x Hx. apply Hf. now right.
Qed.

Section AgentTools.
Context `{PyRuntime}.
Import mock_data.

Lemma search_fallback_total (st : Store) (args : pydict) (q : str) :
  dict_get_default (u "query") (VStr []) args = VStr q ->
  (truthy (dict_get (u "max_price") args) = true ->
   value_as_number (dict_get (u "max_price") args) <> None) ->
  exists payload, product_agent.search_products_fallback st args = Ok payload.
Proof.
  intros Hq Hp. unfold product_agent.search_products_fallback.
  rewrite Hq, search_products_filter, bind_ok.
  match goal with
  | |- exists _, bind ?m _ = _ =>
    assert (E1 : exists r, m = Ok r)
      by (destruct (truthy (dict_get (u "category") args)); eexists; reflexivity)
  end.
  destruct E1 as [r1 ->]. rewrite bind_ok.
  match goal with
  | |- exists _, bind ?m _ = _ => assert (E2 : exists r, m = Ok r)
  end.
  { destruct (truthy (dict_get (u "max_price") args)); [|eexists; reflexivity].
    apply filter_r_total. intros p _. unfold float_le_value.
    destruct (value_as_number (dict_get (u "max_price") args)) as [[f|z]|];
      [eexists; reflexivity..|].
    now destruct Hp. }
  destruct E2 as [r2 ->]. rewrite bind_ok.
  destruct (truthy (dict_get (u "in_stock_only") args)); rewrite bind_ok;
    eexists; reflexivity.
Qed.

Lemma search_args_typed (query : str) (category : option str)
      (max_price min_rating : option float) (in_stock_only : bool) :
  let args := product_tools.search_products_args query category max_price
                                                 min_rating in_stock_only in
  dict_get_default (u "query") (VStr []) args = VStr query
  /\ (truthy (dict_get (u "max_price") args) = true ->
      value_as_number (dict_get (u "max_price") args) <> None).
Proof.
  unfold product_tools.search_products_args.
  destruct category as [c|]; cbn [opt_str];
    [destruct (truthy (VStr c))|cbn [truthy]];
    (destruct max_price as [f|]; cbn [opt_float];
     [destruct (truthy (VFloat f)) eqn:Ef|cbn [truthy]]);
    (destruct min_rating as [g|]; cbn [opt_float];
     [destruct (truthy (VFloat g))|cbn [truthy]]);
    destruct in_stock_only;
    (split; [vm_compute; reflexivity|]);
    intros E; vm_compute in E |- *; first [discriminate E | discriminate].
Qed.

Lemma customer_orders_fallback_total (st : Store) (email customer_id : option str) :
  exists payload,
    order_agent.get_customer_orders_fallback st
      (order_tools.get_customer_orders_args email customer_id) = Ok payload.
Proof.
  unfold order_agent.get_customer_orders_fallback,
    order_tools.get_customer_orders_args.
  destruct email as [[|c e]|]; cbn [opt_str truthy app].
  - destruct customer_id as [[|c' d]|]; cbn [opt_str truthy app];
      eexists; reflexivity.
  - assert (E : forall rest,
                 dict_get (u "email") ((u "email", VStr (c :: e)) :: rest)
                 = VStr (c :: e)) by reflexivity.
    rewrite !E. cbn [truthy]. rewrite get_orders_by_email_filter.
    eexists; reflexivity.
  - destruct customer_id as [[|c' d]|]; cbn [opt_str truthy app];
      eexists; reflexivity.
Qed.

(** X12 (the tools bound to the language model: [search_products],
[get_product_details], [check_product_availability], [get_recommendations]
of the product agent, [get_order_status], [get_customer_orders],
[cancel_order], [get_customer_profile] of the order agent; [_call_mcp_tool];
[_direct_tool_call]): none of them raises, whatever the arguments and
whatever the tool backend does.  A reply of the backend is passed on; when
the request to the backend fails, the local fallback answers, and on the
arguments these tools build it never fails. *)
Theorem agent_tools_never_raise (post : http_post) (st : Store) :
  (forall query category max_price min_rating in_stock_only,
      tool_answers (product_tools.search_products post st query category max_price
                                                  min_rating in_stock_only))
  /\ (forall product_id,
         tool_answers (product_tools.get_product_details post st product_id))
  /\ (forall product_id,
         tool_answers (product_tools.check_product_availability post st product_id))
  /\ (forall product_id category limit,
         tool_answers (product_tools.get_recommendations post st product_id
                                                         category limit))
  /\ (forall order_id, tool_answers (order_tools.get_order_status post st order_id))
  /\ (forall email customer_id,
         tool_answers (order_tools.get_customer_orders post st email customer_id))
  /\ (forall order_id reason,
         tool_answers (order_tools.cancel_order post st order_id reason))
  /\ (forall email, tool_answers (order_tools.get_customer_profile post st email))
  /\ (forall name args reply,
         post name args = Ok reply ->
         product_agent._call_mcp_tool post st name args = (Ok reply, st)
         /\ order_agent._call_mcp_tool post st name args = (Ok reply, st)).
Proof.
  unfold tool_answers, product_tools.search_products,
    product_tools.get_product_details, product_tools.check_product_availability,
    product_tools.get_recommendations, order_tools.get_order_status,
    order_tools.get_customer_orders, order_tools.cancel_order,
    order_tools.get_customer_profile, product_agent._call_mcp_tool,
    order_agent._call_mcp_tool.
  split; [|split; [|split; [|split; [|split; [|split; [|split; [|split]]]]]]];
    intros;
    try (match goal with
         | |- context [post ?n ?a] =>
           destruct (post n a) as [reply|e]; [eexists; reflexivity|]
         end).
  - rewrite product_fallback_search_products. cbn [fst].
    destruct (search_args_typed query category max_price min_rating in_stock_only)
      as [Hq Hp].
    exact (search_fallback_total st _ query Hq Hp).
  - rewrite product_fallback_get_product_details. cbn [fst].
    unfold product_agent.get_product_details_fallback.
    assert (E : dict_getitem (u "product_id") [(u "product_id", VStr product_id)]
                = Ok (VStr product_id)) by reflexivity.
    rewrite E, bind_ok. destruct (get_product_by_id st _); eexists; reflexivity.
  - rewrite product_fallback_other; [eexists; reflexivity|].
    intros Hin. vm_compute in Hin.
    repeat (destruct Hin as [Hin|Hin]; [discriminate Hin|]). exact Hin.
  - rewrite product_fallback_get_recommendations. eexists; reflexivity.
  - rewrite order_fallback_get_order_status. cbn [fst].
    unfold order_agent.get_order_status_fallback.
    assert (E : dict_getitem (u "order_id") [(u "order_id", VStr order_id)]
                = Ok (VStr order_id)) by reflexivity.
    rewrite E, bind_ok. destruct (get_order_by_id st _); eexists; reflexivity.
  - assert (E : order_agent._direct_tool_call st (u "get_customer_orders")
                  (order_tools.get_customer_orders_args email customer_id)
                = (order_agent.get_customer_orders_fallback st
                     (order_tools.get_customer_orders_args email customer_id), st))
      by reflexivity.
    rewrite E. cbn [fst]. apply customer_orders_fallback_total.
  - rewrite order_fallback_cancel_order. cbn [fst].
    unfold order_agent.cancel_order_fallback.
    assert (E : dict_getitem (u "order_id")
                  [(u "order_id", VStr order_id); (u "reason", VStr reason)]
                = Ok (VStr order_id)) by reflexivity.
    rewrite E, bind_ok. destruct (get_order_by_id st _) as [o|];
      [destruct (order_agent.not_cancellable _)|]; eexists; reflexivity.
  - rewrite order_fallback_get_customer_profile. cbn [fst].
    unfold order_agent.get_customer_profile_fallback.
    assert (E : dict_get_default (u "email") (VStr []) [(u "email", VStr email)]
                = VStr email) by reflexivity.
    rewrite E. unfold get_customer_by_email.
    destruct (find_r_total (fun c => email_matches (Customer.email c) (VStr email))
                           (customers st)) as [[c|] ->];
      [intros c _; eexists; reflexivity|..]; rewrite bind_ok; eexists; reflexivity.
  - match goal with Hpost : post _ _ = Ok _ |- _ => rewrite Hpost end.
    split; reflexivity.
Qed.
End AgentTools.

(** A backend that cannot be reached. *)
Lemma agent_tools_never_raise_witness :
  let post : http_post := fun _ _ => Raise (ExternalError (u "All connection attempts failed")) in
  tool_answers (product_tools.search_products (H := reference.runtime) post
                  reference.store (u "kulaklık") (Some (u "electronics"))
                  (Some 1000%float) None true)
  /\ tool_answers (product_tools.check_product_availability (H := reference.runtime)
                     post reference.store (u "prod-001"))
  /\ tool_answers (order_tools.get_customer_orders (H := reference.runtime) post
                     reference.store None (Some (u "cust-001")))
  /\ tool_answers (order_tools.get_customer_profile (H := reference.runtime) post
                     reference.store (u "nobody@example.com")).
Proof.
  intros post.
  destruct (agent_tools_never_raise (H := reference.runtime) post reference.store)
    as (H1 & _ & H3 & _ & _ & H6 & _ & H8 & _).
  split; [apply H1|]. split; [apply H3|]. split; [apply H6 | apply H8].
Defined.

(* ------------------------------------------------------------------------- *)
(** ** Browsing a category, and the profile of a customer *)
(* ------------------------------------------------------------------------- *)

Lemma category_of_value_ok (c : ProductCategory.t) :
  ProductCategory.of_value (VStr (ProductCategory.value c)) = Ok c.
Proof. destruct c; vm_compute; reflexivity. Qed.

Lemma category_of_value_unknown (v : pyval) :
  (forall c, v <> VStr (ProductCategory.value c)) ->
  ProductCategory.of_value v = Raise ValueError.
Proof.
  intros Hnot. unfold ProductCategory.of_value.
  destruct (find _ ProductCategory.members) as [c|] eqn:E; [|reflexivity].
  apply find_some in E as [_ E]. apply str_eq_value_spec in E.
  now contradiction (Hnot c).
Qed.

Section Browsing.
Context `{PyRuntime}.
Import mock_data mcp_server.

(** X13 ([_dispatch_tool], branch [get_products_by_category];
[get_products_by_category] of [mock_data]): browsing a category.  For the
value of a category of the shop the tool lists the stored products of that
category, all of them and nothing else, in stored order, and echoes the
category; for anything else it answers
[{"error": "Unknown category: <category>"}]. *)
Theorem category_listing (st : Store) (args : pydict) (category : pyval) :
  dict_lookup (u "category") args = Some category ->
  (forall cat,
      category = VStr (ProductCategory.value cat) ->
      exists listed,
        fst (_dispatch_tool st (u "get_products_by_category") args)
        = Ok (VDict [ (u "products", VList (map _product_summary listed));
                      (u "category", category) ])
        /\ listed = filter (fun p => ProductCategory.eqb (Product.category p) cat)
                           (products st)
        /\ forall p, In p listed <-> In p (products st) /\ Product.category p = cat)
  /\ ((forall cat, category <> VStr (ProductCategory.value cat)) ->
      fst (_dispatch_tool st (u "get_products_by_category") args)
      = Ok (error_payload (u "Unknown category: " ++ format_value category))).
Proof.
  intros Hc. destruct (dict_getitem_lookup _ _ _ Hc) as [Hget _].
  rewrite dispatch_get_products_by_category. cbn [fst].
  unfold get_products_by_category_tool. rewrite Hget, bind_ok. split.
  - intros cat ->. rewrite category_of_value_ok.
    eexists. split; [reflexivity|]. split; [reflexivity|].
    intros p. unfold get_products_by_category.
    now rewrite filter_In, category_eqb_eq.
  - intros Hnot. now rewrite (category_of_value_unknown category Hnot).
Qed.
End Browsing.

Lemma category_listing_witness :
  (exists listed,
      fst (mcp_server._dispatch_tool (H := reference.runtime) reference.store
             (u "get_products_by_category") [(u "category", VStr (u "books"))])
      = Ok (VDict [ (u "products",
                     VList (map (mcp_server._product_summary (H := reference.runtime))
                                listed));
                    (u "category", VStr (u "books")) ])
      /\ listed = filter (fun p => ProductCategory.eqb (Product.category p)
                                                       ProductCategory.BOOKS)
                         (mock_data.products reference.store)
      /\ forall p, In p listed
                   <-> In p (mock_data.products reference.store)
                       /\ Product.category p = ProductCategory.BOOKS)
  /\ fst (mcp_server._dispatch_tool (H := reference.runtime) reference.store
            (u "get_products_by_category") [(u "category", VStr (u "Books"))])
     = Ok (error_payload (u "Unknown category: "
                          ++ format_value (H := reference.runtime) (VStr (u "Books")))).
Proof.
  split.
  - apply (proj1 (category_listing (H := reference.runtime) reference.store
                    [(u "category", VStr (u "books"))] (VStr (u "books")) eq_refl)
                 ProductCategory.BOOKS).
    reflexivity.
  - apply (proj2 (category_listing (H := reference.runtime) reference.store
                    [(u "category", VStr (u "Books"))] (VStr (u "Books")) eq_refl)).
    intros cat E. destruct cat; vm_compute in E; discriminate E.
Defined.

(* ------------------------------------------------------------------------- *)
(** ** Customers *)
(* ------------------------------------------------------------------------- *)

Lemma find_r_ok {A} (f : A -> result bool) (l : list A) (r : option A) :
  find_r f l = Ok r -> r = find (fun x => holds (f x)) l.
Proof.
  revert r; induction l as [|a l IH]; intros r E; cbn [find_r] in E.
  - now injection E as <-.
  - apply bind_inv in E as (b & Eb & E). cbn [find]. rewrite Eb. cbn [holds].
    destruct b; [now injection E as <- | now apply IH].
Qed.

Section Customers.
Context `{PyRuntime}.
Import mock_data mcp_server.

Lemma get_customer_by_email_find (st : Store) (e : str) :
  get_customer_by_email st (VStr e)
  = Ok (find (fun c => str_eqb (lower (Customer.email c)) (lower e)) (customers st)).
Proof.
  unfold get_customer_by_email.
  destruct (find_r_total (fun c => email_matches (Customer.email c) (VStr e))
                         (customers st)) as [r E].
  { intros c _. now eexists. }
  rewrite E, (find_r_ok _ _ _ E). f_equal. clear E r.
  generalize (customers st). intros l.
  induction l as [|c l IH]; cbn [find email_matches holds]; [reflexivity|].
  destruct (str_eqb _ _); [reflexivity | exact IH].
Qed.

(** X14 ([_dispatch_tool], branch [get_customer_profile];
[get_customer_by_email]): the profile of a customer by e-mail.  With a
non-empty [email] the tool compares it with the stored e-mails up to case:
when some stored customer has that e-mail, it answers with the dump of a
stored customer with that e-mail (the first one); when none has, it answers
[{"error": "Customer not found"}], even if [customer_id] names a stored
customer.  With neither an e-mail nor a customer id it answers
[{"error": "Provide either email or customer_id"}]. *)
Theorem customer_profile_by_email (st : Store) (args : pydict) :
  (forall e,
      dict_get (u "email") args = VStr e -> e <> [] ->
      (forall c,
          In c (customers st) -> lower (Customer.email c) = lower e ->
          exists found,
            In found (customers st)
            /\ lower (Customer.email found) = lower e
            /\ fst (_dispatch_tool st (u "get_customer_profile") args)
               = Ok (Customer.model_dump found))
      /\ ((forall c, In c (customers st) -> lower (Customer.email c) <> lower e) ->
          fst (_dispatch_tool st (u "get_customer_profile") args)
          = Ok (error_payload (u "Customer not found"))))
  /\ (truthy (dict_get (u "email") args) = false ->
      truthy (dict_get (u "customer_id") args) = false ->
      fst (_dispatch_tool st (u "get_customer_profile") args)
      = Ok (error_payload (u "Provide either email or customer_id"))).
Proof.
  rewrite dispatch_get_customer_profile. cbn [fst].
  unfold get_customer_profile_tool. split.
  - intros e Ee Hne. rewrite Ee.
    assert (Ht : truthy (VStr e) = true)
      by (destruct e; [now contradiction Hne | reflexivity]).
    rewrite Ht, get_customer_by_email_find, bind_ok. split.
    + intros c Hin Hc.
      destruct (find _ (customers st)) as [found|] eqn:Ef.
      * apply find_some in Ef as [Hf Ee']. apply str_eqb_eq in Ee'.
        exists found. split; [exact Hf|]. split; [exact Ee' | reflexivity].
      * apply (find_none _ _ Ef) in Hin. rewrite Hc, str_eqb_refl in Hin.
        discriminate Hin.
    + intros Hnone.
      destruct (find _ (customers st)) as [found|] eqn:Ef; [|reflexivity].
      apply find_some in Ef as [Hf Ee']. apply str_eqb_eq in Ee'.
      now contradiction (Hnone found Hf).
  - intros He Hc. now rewrite He, Hc.
Qed.

(** X15 ([search_customers] of [mock_data]): searching customers.  For a
text query the function returns the stored customers, in stored order, whose
lowercased full name or lowercased e-mail contains the lowercased query; the
empty query returns every customer (provided the empty string is its own
lowercase); and a query that contains another finds no more than it. *)
Theorem search_customers_rule (st : Store) (q : str) :
  exists found,
    mock_data_search.search_customers st (VStr q) = Ok found
    /\ (exists listed, found = filter listed (customers st))
    /\ (forall c,
           In c found
           <-> In c (customers st)
               /\ (substring (lower q) (lower (Customer.full_name c))
                   \/ substring (lower q) (lower (Customer.email c))))
    /\ (lower q = [] -> found = customers st)
    /\ (forall q' found',
           substring (lower q) (lower q') ->
           mock_data_search.search_customers st (VStr q') = Ok found' ->
           incl found' found).
Proof.
  unfold mock_data_search.search_customers. eexists. split; [reflexivity|].
  split; [eexists; reflexivity|]. split; [|split].
  - intros c. now rewrite filter_In, orb_true_iff, !py_in_spec.
  - intros ->. apply filter_all. intros c _. now rewrite py_in_nil.
  - intros q' found' Hsub [= <-] c Hc.
    apply filter_In in Hc as [Hin Hc]. apply filter_In. split; [exact Hin|].
    apply orb_true_iff in Hc as [Hc|Hc]; apply orb_true_iff; [left|right];
      exact (py_in_trans _ _ _ Hsub Hc).
Qed.
End Customers.

(** The customer cust-002 of [mock_data], asked for in capitals together
with the id of another customer; and an e-mail nobody has, with the id of a
stored customer. *)
Lemma customer_profile_by_email_witness :
  (exists found,
      In found (mock_data.customers reference.store)
      /\ lower (PyRuntime := reference.runtime) (Customer.email found)
         = lower (PyRuntime := reference.runtime) (u "Zeynep.Kaya@Example.com")
      /\ fst (mcp_server._dispatch_tool (H := reference.runtime) reference.store
                (u "get_customer_profile")
                [ (u "email", VStr (u "Zeynep.Kaya@Example.com"));
                  (u "customer_id", VStr (u "cust-001")) ])
         = Ok (Customer.model_dump found))
  /\ fst (mcp_server._dispatch_tool (H := reference.runtime) reference.store
            (u "get_customer_profile")
            [ (u "email", VStr (u "nobody@example.com"));
              (u "customer_id", VStr (u "cust-001")) ])
     = Ok (error_payload (u "Customer not found")).
Proof.
  assert (H1 : u "Zeynep.Kaya@Example.com" <> [])
    by (intros E; vm_compute in E; discriminate E).
  assert (H2 : u "nobody@example.com" <> [])
    by (intros E; vm_compute in E; discriminate E).
  split.
  - destruct (nth_error (mock_data.customers reference.store) 1) as [c|] eqn:Ec;
      [|vm_compute in Ec; discriminate Ec].
    apply (proj1 (proj1 (customer_profile_by_email (H := reference.runtime)
                           reference.store
                           [ (u "email", VStr (u "Zeynep.Kaya@Example.com"));
                             (u "customer_id", VStr (u "cust-001")) ])
                        (u "Zeynep.Kaya@Example.com") eq_refl H1) c).
    + exact (nth_error_In _ _ Ec).
    + vm_compute in Ec. injection Ec as <-. vm_compute. reflexivity.
  - apply (proj2 (proj1 (customer_profile_by_email (H := reference.runtime)
                           reference.store
                           [ (u "email", VStr (u "nobody@example.com"));
                             (u "customer_id", VStr (u "cust-001")) ])
                        (u "nobody@example.com") eq_refl H2)).
    intros c Hin E. vm_compute in Hin.
    repeat (destruct Hin as [<-|Hin]; [vm_compute in E; discriminate E|]).
    exact Hin.
Defined.

(** The customer found by a part of her name written in capitals. *)
Lemma search_customers_rule_witness :
  exists found,
    mock_data_search.search_customers (H := reference.runtime) reference.store
      (VStr (u "KAYA")) = Ok found
    /\ (forall c,
           In c found
           <-> In c (mock_data.customers reference.store)
               /\ (substring (lower (PyRuntime := reference.runtime) (u "KAYA"))
                             (lower (PyRuntime := reference.runtime)
                                    (Customer.full_name c))
                   \/ substring (lower (PyRuntime := reference.runtime) (u "KAYA"))
                                (lower (PyRuntime := reference.runtime)
                                       (Customer.email c))))
    /\ map Customer.id found = [u "cust-002"].
Proof.
  destruct (search_customers_rule (H := reference.runtime) reference.store (u "KAYA"))
    as (found & E & _ & Hin & _).
  exists found. split; [exact E|]. split; [exact Hin|].
  vm_compute in E. injection E as <-. vm_compute. reflexivity.
Defined.

(* ------------------------------------------------------------------------- *)
(** ** From the executor of a specialist to the orchestrator *)
(* ------------------------------------------------------------------------- *)

Section RoundTrip.
Context `{PyRuntime}.

(** The events of a run that got a message: none when [new_task] refuses
the message, else those of the lifecycle. *)
Lemma execute_events (tx : executor.texts) (ag : executor.agent)
      (context : executor.RequestContext) (queue : list a2a.Event) (text : str) :
  executor.message context = Some text ->
  snd (executor.execute tx ag context queue) = queue
  \/ exists announced task,
    artifacts_of announced = [] /\ last_status announced = None
    /\ snd (executor.execute tx ag context queue)
       = queue ++ announced
         ++ [ a2a.StatusUpdate (a2a.task_id task) a2a.submitted None;
              a2a.StatusUpdate (a2a.task_id task) a2a.working None;
              a2a.StatusUpdate (a2a.task_id task) a2a.working
                (Some {| a2a.message_parts :=
                           [a2a.TextPart (executor.progress_text tx)] |}) ]
         ++ match executor.consume
                    (ag text (a2a.context_id task)
                        (queue ++ announced
                         ++ [ a2a.StatusUpdate (a2a.task_id task) a2a.submitted None;
                              a2a.StatusUpdate (a2a.task_id task) a2a.working None;
                              a2a.StatusUpdate (a2a.task_id task) a2a.working
                                (Some {| a2a.message_parts :=
                                           [a2a.TextPart
                                              (executor.progress_text tx)] |}) ]))
            with
            | Ok produced =>
              [ a2a.ArtifactUpdate (a2a.task_id task)
                  {| a2a.artifact_id := executor.artifact_prefix tx ++ a2a.task_id task;
                     a2a.artifact_name := executor.artifact_title tx;
                     a2a.artifact_parts := [a2a.TextPart (reported tx (Ok produced))] |};
                a2a.StatusUpdate (a2a.task_id task) a2a.completed None ]
            | Raise e =>
              [ a2a.StatusUpdate (a2a.task_id task) a2a.failed
                  (Some {| a2a.message_parts :=
                             [a2a.TextPart (reported tx (Raise e))] |}) ]
            end.
Proof.
  intros Hm. unfold executor.execute. rewrite Hm.
  destruct (executor.current_task context) as [task|];
    [|destruct (executor.fresh_task context) as [task|refused];
      [|left; reflexivity]];
    right;
    [exists [], task | exists [a2a.TaskEvent task], task];
    (split; [reflexivity|]); (split; [reflexivity|]);
    unfold a2a.io_bind, a2a.io_try, a2a.ret, a2a.lift, executor.run_agent,
      a2a.TaskUpdater.submit, a2a.TaskUpdater.start_work,
      a2a.TaskUpdater.add_artifact, a2a.TaskUpdater.complete,
      a2a.TaskUpdater.failed, a2a.TaskUpdater.new_agent_message,
      a2a.TaskUpdater.update_status, a2a.enqueue_event;
    cbn [fst snd app]; rewrite <- !app_assoc; cbn [app];
    match goal with
    | |- context [executor.consume ?r] =>
      destruct (executor.consume r) as [[|c produced]|e]
    end;
    cbn [fst snd reported truthy negb]; rewrite <- ?app_assoc; reflexivity.
Qed.

Lemma delegate_returns (client : orchestrator.a2a_client) (url query name : str)
      (response : a2a.SendMessageResponse) (said : str) :
  client url query = Ok response ->
  orchestrator.extract_text response = said ->
  orchestrator._delegate_to_agent client url query name
  = Ok (match said with [] => name ++ u " yanıt vermedi." | _ => said end).
Proof.
  intros Hc <-. unfold orchestrator._delegate_to_agent. rewrite Hc.
  cbn [bind try_except]. now destruct (orchestrator.extract_text response).
Qed.

Lemma reported_by_the_executors (tx : executor.texts) (outcome : result str) :
  In tx [ executor.order_texts; executor.orchestrator_texts;
          executor.product_texts; executor.search_texts ] ->
  reported tx outcome <> [].
Proof.
  intros Hin E.
  destruct outcome as [[|c produced]|e]; cbn [reported] in E; [|discriminate E|];
    cbn [In] in Hin; decompose [or] Hin; try contradiction; subst tx;
    apply (f_equal (@length _)) in E; cbn [executor.default_response
      executor.error_text executor.order_texts executor.orchestrator_texts
      executor.product_texts executor.search_texts] in E;
    rewrite ?length_app in E; vm_compute in E; try discriminate E;
    match type of E with
    | context [length ?s] => destruct (length s); discriminate E
    end.
Qed.

(** X16 ([execute] of the executors, [_delegate_to_agent] of the
orchestrator): what a specialist reports is what the orchestrator passes on.
Take a run of an executor on a request with a message, an agent whose
outcome does not depend on the queue, and a reply of the remote agent that
carries the task of that run: the artifacts of the artifact updates and the
status of the last status update.  Then the delegation returns the text the
executor reported: the last answer of the agent, or the executor's default
sentence when the agent said nothing, or its error sentence when the run
raised; and only if that text is empty, "<agent name> yanıt vermedi.".  The
texts of the four executors are never empty, so with them the delegation
returns exactly what was reported. *)
Theorem delegation_reports_the_last_answer
        (tx : executor.texts) (ag : executor.agent)
        (context : executor.RequestContext) (queue emitted : list a2a.Event)
        (text : str) (outcome : result str)
        (client : orchestrator.a2a_client) (url query name : str) (t : a2a.Task) :
  executor.message context = Some text ->
  (forall session q, executor.consume (ag text session q) = outcome) ->
  snd (executor.execute tx ag context queue) = queue ++ emitted ->
  task_of_events t emitted ->
  client url query = Ok (a2a.SuccessResponse (a2a.ResultTask t)) ->
  orchestrator._delegate_to_agent client url query name
  = Ok (match reported tx outcome with
        | [] => name ++ u " yanıt vermedi."
        | _ => reported tx outcome
        end)
  /\ (In tx [ executor.order_texts; executor.orchestrator_texts;
              executor.product_texts; executor.search_texts ] ->
      orchestrator._delegate_to_agent client url query name
      = Ok (reported tx outcome)).
Proof.
  intros Hm Hrun Hq [Ha Hs] Hc.
  destruct (execute_events tx ag context queue text Hm)
    as [E|(announced & task & Hna & Hns & E)].
  { rewrite Hq, <- (app_nil_r queue), <- app_assoc in E.
    apply app_inv_head in E. cbn [app] in E. subst emitted.
    discriminate Hs. }
  rewrite Hrun, Hq in E. apply app_inv_head in E. subst emitted.
  assert (Hsaid : orchestrator.extract_text (a2a.SuccessResponse (a2a.ResultTask t))
                  = reported tx outcome).
  { unfold artifacts_of in Ha, Hna. unfold last_status in Hs, Hns.
    rewrite !flat_map_app, Hna in Ha. rewrite !fold_left_app, Hns in Hs.
    unfold orchestrator.extract_text, orchestrator.has_artifacts.
    destruct outcome as [produced|e]; cbn [flat_map fold_left app] in Ha, Hs.
    - destruct (a2a.artifacts t) as [l|]; [|discriminate Ha]. subst l.
      unfold orchestrator.text_of_artifacts, orchestrator.append_text_parts.
      reflexivity.
    - injection Hs as Hs. rewrite Hs.
      destruct (a2a.artifacts t) as [l|]; [subst l|]; reflexivity. }
  pose proof (delegate_returns client url query name _ _ Hc Hsaid) as Hd.
  split; [exact Hd|].
  intros Hin. rewrite Hd.
  pose proof (reported_by_the_executors tx outcome Hin) as Hne.
  now destruct (reported tx outcome).
Qed.
End RoundTrip.

(** A run of the order agent's executor whose agent answers, and the reply
that carries its task. *)
Lemma delegation_reports_the_last_answer_witness :
  let task := {| a2a.task_id := u "t-1"; a2a.context_id := u "c-1";
                 a2a.status := {| a2a.state := a2a.submitted; a2a.message := None |};
                 a2a.artifacts := None |} in
  let context := {| executor.message := Some (u "ord-001 nerede?");
                    executor.current_task := None;
                    executor.fresh_task := Ok task |} in
  let answering : executor.agent :=
    fun _ _ _ => ([ [executor.OtherMessage];
                    [executor.OtherMessage;
                     executor.AIMessage (executor.ContentStr (u "Kargoda."))] ],
                  None) in
  let reply :=
    {| a2a.task_id := u "t-1"; a2a.context_id := u "c-1";
       a2a.status := {| a2a.state := a2a.completed; a2a.message := None |};
       a2a.artifacts :=
         Some [ {| a2a.artifact_id := u "order-response-t-1";
                   a2a.artifact_name := u "Order Agent Response";
                   a2a.artifact_parts := [a2a.TextPart (u "Kargoda.")] |} ] |} in
  task_of_events reply
    (snd (executor.OrderAgentExecutor_execute (H := reference.runtime)
            answering context []))
  /\ orchestrator._delegate_to_agent (H := reference.runtime)
       (fun _ _ => Ok (a2a.SuccessResponse (a2a.ResultTask reply)))
       (u "http://order-agent:8005") (u "ord-001 nerede?") (u "Order Agent")
     = Ok (u "Kargoda.").
Proof.
  intros task context answering reply.
  assert (Ht : task_of_events reply
                 (snd (executor.OrderAgentExecutor_execute (H := reference.runtime)
                         answering context [])))
    by (split; vm_compute; reflexivity).
  split; [exact Ht|].
  refine (proj2 (delegation_reports_the_last_answer (H := reference.runtime)
                   executor.order_texts answering context []
                   _ (u "ord-001 nerede?") (Ok (u "Kargoda."))
                   (fun _ _ => Ok (a2a.SuccessResponse (a2a.ResultTask reply)))
                   (u "http://order-agent:8005") (u "ord-001 nerede?")
                   (u "Order Agent") reply eq_refl _ eq_refl Ht eq_refl) _).
  - intros session q. vm_compute. reflexivity.
  - left. reflexivity.
Defined.

(* ------------------------------------------------------------------------- *)
(** ** The REST chat endpoint *)
(* ------------------------------------------------------------------------- *)

Section ChatEndpoint.
Context `{PyRuntime}.
Import orchestrator_server.
Variable strip : str -> str.
Variable render : pyval -> option exn.

(** X17 ([chat_endpoint] of the orchestrator's server): what
[POST /api/chat] answers.  Every response is built inside the [try] block
or in its [except] clause, and building one renders its content, which can
fail.  A request whose JSON body is an object with a text [message] (the
empty text when absent) starts no run of the agent when the message is empty
once stripped, and is answered 400 with
[{"error": "message field is required"}] when that content renders;
otherwise the agent is run once, on the stripped message and the session id
of the body ("default" when absent), and when the run ends without an
exception the answer is 200 with the last answer of the agent under
[response] ("Yanıt oluşturulamadı." when it said nothing) and the session id
echoed, if that content renders; if it does not (a session id that is an
infinite float, say), the exception of the rendering is handled as one of
the run is: by the [except] clause, which answers 500 with the text of the
exception.  A body that cannot be read is handled by that clause too, and
the agent is not run.  A response that is returned has status 200, 400 or
500 and a content that rendered; there is at most one run, and none with a
400; an exception leaves the endpoint only when the 500 response for a
handled exception does not render. *)
Theorem chat_endpoint_responses (ag : chat_agent) (request_json : result pyval) :
  let answer := chat_endpoint strip render ag request_json in
  (forall body message,
      request_json = Ok (VDict body) ->
      dict_get_default (u "message") (VStr []) body = VStr message ->
      let session := dict_get_default (u "session_id") (VStr (u "default")) body in
      (strip message = [] ->
       snd answer = []
       /\ (render (error_payload (u "message field is required")) = None ->
           fst answer
           = Ok {| status_code := 400;
                   body := error_payload (u "message field is required") |}))
      /\ (strip message <> [] ->
          snd answer = [(strip message, session)]
          /\ fst answer
             = match executor.consume (ag (strip message) session) with
               | Ok said =>
                 let content :=
                   VDict [ (u "response",
                            VStr (match said with
                                  | [] => u "Yanıt oluşturulamadı."
                                  | _ => said
                                  end));
                           (u "session_id", session) ] in
                 match render content with
                 | None => Ok {| status_code := 200; body := content |}
                 | Some refusal => on_exception render refusal
                 end
               | Raise e => on_exception render e
               end))
  /\ (forall e,
         request_json = Raise e -> answer = (on_exception render e, []))
  /\ (forall e,
         on_exception render e
         = match render (error_payload (exc_str e)) with
           | None => Ok {| status_code := 500;
                           body := error_payload (exc_str e) |}
           | Some refusal => Raise refusal
           end)
  /\ (forall response,
         fst answer = Ok response ->
         In (status_code response) [200; 400; 500]%Z
         /\ render (body response) = None)
  /\ (length (snd answer) <= 1)%nat
  /\ (forall response,
         fst answer = Ok response -> status_code response = 400%Z ->
         snd answer = [])
  /\ (forall e,
         fst answer = Raise e ->
         exists handled, render (error_payload (exc_str handled)) = Some e).
Proof.
  assert (Hh : forall e response,
             on_exception render e = Ok response ->
             status_code response = 500%Z /\ render (body response) = None).
  { intros e response. unfold on_exception, respond.
    destruct (render (error_payload (exc_str e))) eqn:Er; intros E;
      [discriminate E|]. injection E as <-. split; [reflexivity|exact Er]. }
  assert (Hr : forall e e',
             on_exception render e = Raise e' ->
             render (error_payload (exc_str e)) = Some e').
  { intros e e'. unfold on_exception, respond.
    destruct (render (error_payload (exc_str e))) eqn:Er; intros E;
      [injection E as <-; reflexivity|discriminate E]. }
  intros answer. subst answer.
  split; [|split; [|split; [|split; [|split; [|split]]]]].
  - intros body0 message Hj Hm session. unfold chat_endpoint, message_of.
    rewrite Hj. cbn [bind py_get]. rewrite Hm. cbn [bind]. split.
    + intros ->. cbn [truthy negb fst snd]. split; [reflexivity|].
      intros Er. unfold respond. rewrite Er. reflexivity.
    + intros Hne. destruct (strip message) as [|c s] eqn:Es;
        [now contradiction Hne|].
      cbn [truthy negb py_get]. fold session. cbn [fst snd].
      split; [reflexivity|].
      destruct (executor.consume (ag (c :: s) session)) as [[|c' said]|e];
        cbn [bind try_except truthy]; unfold respond;
        [destruct (render _); reflexivity
        |destruct (render _); reflexivity
        |reflexivity].
  - intros e ->. reflexivity.
  - intros e. reflexivity.
  - intros response. unfold chat_endpoint.
    destruct request_json as [v|e]; cbn [bind fst];
      [|intros E; destruct (Hh _ _ E) as [-> Hb]; split;
        [right; right; left; reflexivity|exact Hb]].
    destruct (message_of strip v) as [[|c s]|e]; cbn [bind truthy negb fst].
    + unfold respond at 1.
      destruct (render (error_payload (u "message field is required"))) eqn:Er;
        cbn [try_except]; intros E.
      * destruct (Hh _ _ E) as [-> Hb]. split;
          [right; right; left; reflexivity|exact Hb].
      * injection E as <-. split; [right; left; reflexivity|exact Er].
    + destruct (py_get v _ _) as [session|e]; cbn [fst];
        [|intros E; destruct (Hh _ _ E) as [-> Hb]; split;
          [right; right; left; reflexivity|exact Hb]].
      destruct (executor.consume _) as [said|e]; cbn [bind try_except];
        [|intros E; destruct (Hh _ _ E) as [-> Hb]; split;
          [right; right; left; reflexivity|exact Hb]].
      unfold respond at 1.
      match goal with |- context [render ?c] => destruct (render c) eqn:Er end;
        cbn [try_except]; intros E.
      * destruct (Hh _ _ E) as [-> Hb]. split;
          [right; right; left; reflexivity|exact Hb].
      * injection E as <-. split; [left; reflexivity|exact Er].
    + intros E. destruct (Hh _ _ E) as [-> Hb]. split;
        [right; right; left; reflexivity|exact Hb].
  - unfold chat_endpoint.
    destruct request_json as [v|e]; cbn [bind]; [|apply Nat.le_0_l].
    destruct (message_of strip v) as [[|c s]|e]; cbn [bind truthy negb];
      [apply Nat.le_0_l| |apply Nat.le_0_l].
    destruct (py_get v _ _) as [session|e]; [|apply Nat.le_0_l].
    cbn [snd length]. apply Nat.le_refl.
  - intros response. unfold chat_endpoint.
    destruct request_json as [v|e]; cbn [bind]; [|reflexivity].
    destruct (message_of strip v) as [[|c s]|e]; cbn [bind truthy negb];
      [reflexivity| |reflexivity].
    destruct (py_get v _ _) as [session|e]; [|reflexivity].
    cbn [fst snd].
    destruct (executor.consume _) as [said|e]; cbn [bind try_except];
      [|intros E E4; destruct (Hh _ _ E) as [E5 _]; rewrite E5 in E4;
        discriminate E4].
    unfold respond at 1.
    match goal with |- context [render ?c] => destruct (render c) eqn:Er end;
      cbn [try_except]; intros E E4.
    + destruct (Hh _ _ E) as [E5 _]. rewrite E5 in E4. discriminate E4.
    + injection E as <-. discriminate E4.
  - intros e'. unfold chat_endpoint.
    destruct request_json as [v|e]; cbn [bind fst];
      [|intros E; exists e; exact (Hr _ _ E)].
    destruct (message_of strip v) as [[|c s]|e]; cbn [bind truthy negb fst].
    + unfold respond at 1.
      destruct (render (error_payload (u "message field is required"))) eqn:Er;
        cbn [try_except]; intros E; [|discriminate E].
      eexists. exact (Hr _ _ E).
    + destruct (py_get v _ _) as [session|e]; cbn [fst];
        [|intros E; exists e; exact (Hr _ _ E)].
      destruct (executor.consume _) as [said|e]; cbn [bind try_except];
        [|intros E; exists e; exact (Hr _ _ E)].
      unfold respond at 1.
      match goal with |- context [render ?c] => destruct (render c) eqn:Er end;
        cbn [try_except]; intros E; [|discriminate E].
      eexists. exact (Hr _ _ E).
    + intros E. exists e. exact (Hr _ _ E).
Qed.
End ChatEndpoint.

(** A message of white space; a question the agent answers; and the same
question in a session whose id is an infinite float, which no response can
echo: the agent has run and answered, and the endpoint answers 500. *)
Lemma chat_endpoint_responses_witness :
  let answering : orchestrator_server.chat_agent :=
    fun _ _ => ([ [executor.AIMessage (executor.ContentStr (u "Merhaba!"))] ], None) in
  let chat := orchestrator_server.chat_endpoint (H := reference.runtime)
                py_strip py_render answering in
  chat (Ok (VDict [(u "message", VStr (u "  "))]))
  = (Ok {| orchestrator_server.status_code := 400;
           orchestrator_server.body :=
             error_payload (u "message field is required") |},
     [])
  /\ chat (Ok (VDict [(u "message", VStr (u " Selam "))]))
     = (Ok {| orchestrator_server.status_code := 200;
              orchestrator_server.body :=
                VDict [ (u "response", VStr (u "Merhaba!"));
                        (u "session_id", VStr (u "default")) ] |},
        [(u "Selam", VStr (u "default"))])
  /\ chat (Ok (VDict [ (u "message", VStr (u " Selam "));
                       (u "session_id", VFloat infinity) ]))
     = (Ok {| orchestrator_server.status_code := 500;
              orchestrator_server.body :=
                error_payload (exc_str (H := reference.runtime) ValueError) |},
        [(u "Selam", VFloat infinity)]).
Proof.
  intros answering chat. subst chat. split; [|split].
  - destruct (proj1 (proj1 (chat_endpoint_responses (H := reference.runtime)
                              py_strip py_render answering
                              (Ok (VDict [(u "message", VStr (u "  "))])))
                           [(u "message", VStr (u "  "))] (u "  ")
                           eq_refl eq_refl)) as [Hruns Hresp].
    + vm_compute. reflexivity.
    + apply injective_projections.
      * apply Hresp. vm_compute. reflexivity.
      * exact Hruns.
  - destruct (proj2 (proj1 (chat_endpoint_responses (H := reference.runtime)
                              py_strip py_render answering
                              (Ok (VDict [(u "message", VStr (u " Selam "))])))
                           [(u "message", VStr (u " Selam "))] (u " Selam ")
                           eq_refl eq_refl)) as [Hruns Hresp].
    + intros E. vm_compute in E. discriminate E.
    + apply injective_projections.
      * rewrite Hresp. vm_compute. reflexivity.
      * rewrite Hruns. vm_compute. reflexivity.
  - destruct (proj2 (proj1 (chat_endpoint_responses (H := reference.runtime)
                              py_strip py_render answering
                              (Ok (VDict [ (u "message", VStr (u " Selam "));
                                           (u "session_id", VFloat infinity) ])))
                           [ (u "message", VStr (u " Selam "));
                             (u "session_id", VFloat infinity) ] (u " Selam ")
                           eq_refl eq_refl)) as [Hruns Hresp].
    + intros E. vm_compute in E. discriminate E.
    + apply injective_projections.
      * rewrite Hresp. vm_compute. reflexivity.
      * rewrite Hruns. vm_compute. reflexivity.
Defined.

(* ------------------------------------------------------------------------- *)
(** ** The A2A helpers of the tests *)
(* ------------------------------------------------------------------------- *)

Section TestHelpers.
Context `{PyRuntime}.
Import test_helpers.

Lemma result_text_of_extract_text (response : a2a.SendMessageResponse) :
  result_text_of response = orchestrator.extract_text response.
Proof.
  destruct response as [[t|m]|code msg]; try reflexivity.
  unfold result_text_of, orchestrator.extract_text, orchestrator.has_artifacts.
  destruct (a2a.artifacts t) as [[|a l]|]; reflexivity.
Qed.

(** X18 ([send_a2a_message] of the demo client, [get_a2a_response] of the
integration tests, [_delegate_to_agent] of the orchestrator): the three
copies of the extraction block agree.  On every reply the helpers extract
the text the orchestrator extracts; so when the remote agent replies with a
text that is not empty, the demo client, the integration helper and the
orchestrator's delegation all return that text.  When the reply carries no
text, the integration helper returns the empty string and the demo client
"(Yanıt alınamadı)".  When the call raises, the demo client returns
"❌ Hata: " followed by the text of the exception, whereas the integration
helper lets the exception through; the demo client never raises and never
returns an empty string. *)
Theorem a2a_helpers_agree (client : orchestrator.a2a_client) (url query name : str) :
  (forall response,
      client url query = Ok response ->
      get_a2a_response client url query = Ok (orchestrator.extract_text response)
      /\ send_a2a_message client url query
         = Ok (match orchestrator.extract_text response with
               | [] => u "(Yanıt alınamadı)"
               | _ => orchestrator.extract_text response
               end)
      /\ (orchestrator.extract_text response <> [] ->
          send_a2a_message client url query
          = orchestrator._delegate_to_agent client url query name
          /\ send_a2a_message client url query
             = get_a2a_response client url query))
  /\ (forall e,
         client url query = Raise e ->
         get_a2a_response client url query = Raise e
         /\ send_a2a_message client url query = Ok (u "❌ Hata: " ++ exc_str e))
  /\ exists text, send_a2a_message client url query = Ok text /\ text <> [].
Proof.
  unfold get_a2a_response, send_a2a_message, orchestrator._delegate_to_agent.
  split; [|split].
  - intros response ->. cbn [bind try_except].
    rewrite result_text_of_extract_text.
    split; [reflexivity|]. split.
    + now destruct (orchestrator.extract_text response).
    + intros Hne. destruct (orchestrator.extract_text response);
        [now contradiction Hne|]. split; reflexivity.
  - intros e ->. split; reflexivity.
  - destruct (client url query) as [response|e]; cbn [bind try_except].
    + destruct (result_text_of response) as [|c s]; cbn [truthy];
        eexists; (split; [reflexivity|]); intros E;
        [vm_compute in E|]; discriminate E.
    + eexists. split; [reflexivity|]. intros E.
      apply (f_equal (@length _)) in E. rewrite length_app in E.
      vm_compute in E. discriminate E.
Qed.
End TestHelpers.

(** An agent that replies with a status message only, and one that cannot be
reached. *)
Lemma a2a_helpers_agree_witness :
  let reply :=
    a2a.SuccessResponse
      (a2a.ResultTask
         {| a2a.task_id := u "t-1"; a2a.context_id := u "c-1";
            a2a.status :=
              {| a2a.state := a2a.failed;
                 a2a.message :=
                   Some {| a2a.message_parts :=
                             [a2a.TextPart (u "Bir hata oluştu: LLM timeout")] |} |};
            a2a.artifacts := None |}) in
  (test_helpers.send_a2a_message (H := reference.runtime) (fun _ _ => Ok reply)
     (u "http://order-agent:8005") (u "ord-001 nerede?")
   = orchestrator._delegate_to_agent (H := reference.runtime) (fun _ _ => Ok reply)
       (u "http://order-agent:8005") (u "ord-001 nerede?") (u "Order Agent")
   /\ test_helpers.send_a2a_message (H := reference.runtime) (fun _ _ => Ok reply)
        (u "http://order-agent:8005") (u "ord-001 nerede?")
      = test_helpers.get_a2a_response (fun _ _ => Ok reply)
          (u "http://order-agent:8005") (u "ord-001 nerede?"))
  /\ test_helpers.get_a2a_response
       (fun _ _ => Raise (ExternalError (u "Connection refused")))
       (u "http://order-agent:8005") (u "ord-001 nerede?")
     = Raise (ExternalError (u "Connection refused")).
Proof.
  intros reply. split.
  - apply (proj1 (a2a_helpers_agree (H := reference.runtime) (fun _ _ => Ok reply)
                    (u "http://order-agent:8005") (u "ord-001 nerede?")
                    (u "Order Agent")) reply eq_refl).
    intros E. vm_compute in E. discriminate E.
  - apply (proj1 (proj2 (a2a_helpers_agree (H := reference.runtime)
                           (fun _ _ => Raise (ExternalError (u "Connection refused")))
                           (u "http://order-agent:8005") (u "ord-001 nerede?")
                           (u "Order Agent")))
                 (ExternalError (u "Connection refused")) eq_refl).
Defined.

(* ------------------------------------------------------------------------- *)
(** ** The answer read from the stream of an agent *)
(* ------------------------------------------------------------------------- *)

Lemma absorb_answer (final : str) (c : executor.chunk) (t : str) :
  answers c t -> executor.absorb_chunk final c = t.
Proof.
  intros (before & content & -> & Ht & ->). unfold executor.absorb_chunk.
  rewrite last_last, Ht.
  destruct before; destruct content; reflexivity.
Qed.

Lemma absorb_silent (final : str) (c : executor.chunk) :
  silent c -> executor.absorb_chunk final c = final.
Proof.
  intros Hs. unfold executor.absorb_chunk.
  destruct c as [|m c]; [reflexivity|].
  destruct (last (m :: c) executor.OtherMessage) as [content|] eqn:El;
    [|reflexivity].
  destruct (executor.content_truthy content) eqn:Ht; [|reflexivity].
  exfalso. apply (Hs (content_text content)).
  exists (removelast (m :: c)), content. split; [|split; [exact Ht | reflexivity]].
  rewrite <- El. apply app_removelast_last. discriminate.
Qed.

Lemma absorb_silent_chunks (final : str) (chunks : list executor.chunk) :
  Forall silent chunks -> fold_left executor.absorb_chunk chunks final = final.
Proof.
  intros Hall. revert final. induction Hall as [|c chunks Hc _ IH]; intros final;
    cbn [fold_left]; [reflexivity|].
  now rewrite (absorb_silent final c Hc).
Qed.

(** X19 ([execute] of the executors and [chat_endpoint], the loop over
[agent.astream]): the response is the last answer of the stream.  Of the
chunks an agent streams, only those ending in a message of the language
model with a non-empty content count, and a later one replaces an earlier
one: the loop returns the text of the last such chunk (a string as it is,
a list of blocks as its text blocks joined by spaces), and the empty string
when there is none.  When the stream raises, the loop raises and what was
answered before is lost. *)
Theorem last_answer_wins (chunks : list executor.chunk) :
  (Forall silent chunks -> executor.consume (chunks, None) = Ok [])
  /\ (forall before c after t,
         chunks = before ++ c :: after ->
         answers c t -> Forall silent after ->
         executor.consume (chunks, None) = Ok t)
  /\ (forall e, executor.consume (chunks, Some e) = Raise e).
Proof.
  unfold executor.consume. cbn [fst snd]. split; [|split].
  - intros Hall. now rewrite absorb_silent_chunks.
  - intros before c after t -> Hc Hafter.
    rewrite fold_left_app. cbn [fold_left].
    now rewrite (absorb_answer _ c t Hc), absorb_silent_chunks.
  - reflexivity.
Qed.

(** The model calls a tool, answers with blocks, then the stream ends with a
chunk whose last message is empty. *)
Lemma last_answer_wins_witness :
  executor.consume
    ( [ [executor.OtherMessage];
        [executor.OtherMessage; executor.AIMessage (executor.ContentStr (u "Bakıyorum"))];
        [executor.OtherMessage;
         executor.AIMessage
           (executor.ContentList [ executor.TextBlock (u "Siparişiniz");
                                   executor.OtherBlock;
                                   executor.TextBlock (u "kargoda.") ])];
        [executor.AIMessage (executor.ContentStr [])] ],
      None)
  = Ok (u "Siparişiniz kargoda.").
Proof.
  apply (proj1 (proj2 (last_answer_wins _))
               [ [executor.OtherMessage];
                 [executor.OtherMessage;
                  executor.AIMessage (executor.ContentStr (u "Bakıyorum"))] ]
               [executor.OtherMessage;
                executor.AIMessage
                  (executor.ContentList [ executor.TextBlock (u "Siparişiniz");
                                          executor.OtherBlock;
                                          executor.TextBlock (u "kargoda.") ])]
               [ [executor.AIMessage (executor.ContentStr [])] ]).
  - reflexivity.
  - eexists [executor.OtherMessage], _. split; [reflexivity|].
    split; [reflexivity|]. vm_compute. reflexivity.
  - constructor; [|constructor].
    intros t (before & content & E & Ht & _).
    apply (f_equal (fun l => last l executor.OtherMessage)) in E.
    rewrite last_last in E. cbn [last] in E. injection E as <-.
    discriminate Ht.
Defined.

(* ------------------------------------------------------------------------- *)
(** ** The other fallbacks of the order agent *)
(* ------------------------------------------------------------------------- *)

Section OrderFallbacks.
Context `{PyRuntime}.
Import mock_data.

Lemma order_fallback_get_customer_orders (st : Store) (args : pydict) :
  order_agent._direct_tool_call st (u "get_customer_orders") args
  = (order_agent.get_customer_orders_fallback st args, st).
Proof. reflexivity. Qed.

Lemma order_summary_fields (o : Order.t) (k : str) (v : pyval) :
  dict_lookup k (fields (mcp_server.customer_order_summary o)) = Some v ->
  dict_lookup k (fields (order_agent.customer_order_summary o)) = Some v.
Proof.
  unfold mcp_server.customer_order_summary, order_agent.customer_order_summary.
  cbn [fields dict_lookup].
  destruct (str_eqb k (u "id")); [exact (fun E => E)|].
  destruct (str_eqb k (u "status")); [exact (fun E => E)|].
  destruct (str_eqb k (u "total")); [exact (fun E => E)|].
  destruct (str_eqb k (u "item_count")); [exact (fun E => E)|].
  destruct (str_eqb k (u "created_at")); [exact (fun E => E)|].
  destruct (str_eqb k (u "tracking_number")); [exact (fun E => E)|].
  discriminate.
Qed.

(** X20 ([_direct_tool_call] of the order agent against [_dispatch_tool],
branches [get_customer_orders], [cancel_order] and [get_customer_profile]):
the remaining fallbacks of the order agent decide as the backend does.
[get_customer_orders] selects the same orders in the same order and reports
the same total, each order with the fields of the backend and the same
objects in them, or both ask for an e-mail or a customer id, or both raise
the same exception.  [cancel_order] accepts and refuses the same
cancellations: the fields [success], [order_id], [refund_amount] and
[cancellable] are the same.  [get_customer_profile] returns the same dump
for a non-empty e-mail that a stored customer has. *)
Theorem order_fallbacks_follow_the_backend (st : Store) (args : pydict) :
  (forall b,
      fst (mcp_server._dispatch_tool st (u "get_customer_orders") args) = Ok b ->
      (exists found,
          b = VDict [ (u "orders",
                       VList (map mcp_server.customer_order_summary found));
                      (u "total", VInt (Z.of_nat (length found))) ]
          /\ fst (order_agent._direct_tool_call st (u "get_customer_orders") args)
             = Ok (VDict [ (u "orders",
                            VList (map order_agent.customer_order_summary found));
                           (u "total", VInt (Z.of_nat (length found))) ]))
      \/ (b = error_payload (u "Provide either email or customer_id")
          /\ fst (order_agent._direct_tool_call st (u "get_customer_orders") args)
             = Ok (error_payload (u "Email veya müşteri ID gerekli"))))
  /\ (forall e,
         fst (mcp_server._dispatch_tool st (u "get_customer_orders") args) = Raise e ->
         fst (order_agent._direct_tool_call st (u "get_customer_orders") args)
         = Raise e)
  /\ (forall o k v,
         dict_lookup k (fields (mcp_server.customer_order_summary o)) = Some v ->
         dict_lookup k (fields (order_agent.customer_order_summary o)) = Some v)
  /\ (forall k,
         In k [u "success"; u "order_id"; u "refund_amount"; u "cancellable"] ->
         result_field k (fst (order_agent._direct_tool_call st (u "cancel_order") args))
         = result_field k (fst (mcp_server._dispatch_tool st (u "cancel_order") args)))
  /\ (forall e c,
         dict_lookup (u "email") args = Some (VStr e) -> e <> [] ->
         get_customer_by_email st (VStr e) = Ok (Some c) ->
         fst (order_agent._direct_tool_call st (u "get_customer_profile") args)
         = Ok (Customer.model_dump c)
         /\ fst (mcp_server._dispatch_tool st (u "get_customer_profile") args)
            = Ok (Customer.model_dump c)).
Proof.
  assert (Eo : match mcp_server.get_customer_orders_tool st args,
                     order_agent.get_customer_orders_fallback st args with
               | Ok b, Ok f =>
                 (exists found,
                     b = VDict [ (u "orders",
                                  VList (map mcp_server.customer_order_summary found));
                                 (u "total", VInt (Z.of_nat (length found))) ]
                     /\ f = VDict [ (u "orders",
                                     VList (map order_agent.customer_order_summary
                                                found));
                                    (u "total", VInt (Z.of_nat (length found))) ])
                 \/ (b = error_payload (u "Provide either email or customer_id")
                     /\ f = error_payload (u "Email veya müşteri ID gerekli"))
               | Raise e1, Raise e2 => e1 = e2
               | _, _ => False
               end).
  { unfold mcp_server.get_customer_orders_tool,
      order_agent.get_customer_orders_fallback.
    destruct (truthy (dict_get (u "email") args)).
    + destruct (get_orders_by_email st (dict_get (u "email") args)) as [found|e];
        cbn [bind]; [|reflexivity].
      left. exists found. split; reflexivity.
    + destruct (truthy (dict_get (u "customer_id") args)); cbn [bind].
      * left. eexists. split; reflexivity.
      * right. split; reflexivity. }
  rewrite dispatch_get_customer_orders, order_fallback_get_customer_orders.
  cbn [fst].
  split; [|split; [|split; [exact order_summary_fields|split]]].
  - intros b Eb. rewrite Eb in Eo.
    destruct (order_agent.get_customer_orders_fallback st args) as [f|e];
      [|contradiction].
    destruct Eo as [(found & -> & ->)|[-> ->]];
      [left; exists found; split; reflexivity | right; split; reflexivity].
  - intros e Ee. rewrite Ee in Eo.
    destruct (order_agent.get_customer_orders_fallback st args) as [f|e'];
      [contradiction | now subst].
  - intros k Hk.
    rewrite dispatch_cancel_order, order_fallback_cancel_order. cbn [fst].
    unfold mcp_server.cancel_order_tool, order_agent.cancel_order_fallback.
    destruct (dict_getitem (u "order_id") args) as [order_id|e]; cbn [bind];
      [|reflexivity].
    assert (Hnc : forall s, order_agent.not_cancellable s = mcp_server.not_cancellable s)
      by reflexivity.
    cbn [In] in Hk.
    destruct (get_order_by_id st order_id) as [o|].
    + rewrite Hnc. destruct (mcp_server.not_cancellable (Order.status o));
        decompose [or] Hk; try contradiction; subst k;
        generalize (Order.id o) (Order.total o)
                   (OrderStatus.value (Order.status o));
        intros; vm_compute; reflexivity.
    + generalize (format_value order_id). intros shown.
      decompose [or] Hk; try contradiction; subst k; vm_compute; reflexivity.
  - intros e c He Hne Hfound.
    destruct (dict_getitem_lookup _ _ _ He) as [_ Hget].
    rewrite order_fallback_get_customer_profile, dispatch_get_customer_profile.
    cbn [fst]. unfold order_agent.get_customer_profile_fallback,
      mcp_server.get_customer_profile_tool, dict_get_default.
    rewrite He, Hget, Hfound.
    assert (Ht : truthy (VStr e) = true)
      by (destruct e; [now contradiction Hne | reflexivity]).
    rewrite Ht. split; reflexivity.
Qed.
End OrderFallbacks.

(** The confirmed order ord-004 and the customer cust-003 of [mock_data]. *)
Lemma order_fallbacks_follow_the_backend_witness :
  result_field (u "refund_amount")
    (fst (order_agent._direct_tool_call (H := reference.runtime) reference.store
            (u "cancel_order") [(u "order_id", VStr (u "ord-004"))]))
  = result_field (u "refund_amount")
      (fst (mcp_server._dispatch_tool (H := reference.runtime) reference.store
              (u "cancel_order") [(u "order_id", VStr (u "ord-004"))]))
  /\ exists c,
      fst (order_agent._direct_tool_call (H := reference.runtime) reference.store
             (u "get_customer_profile")
             [(u "email", VStr (u "mehmet.demir@example.com"))])
      = Ok (Customer.model_dump c)
      /\ fst (mcp_server._dispatch_tool (H := reference.runtime) reference.store
                (u "get_customer_profile")
                [(u "email", VStr (u "mehmet.demir@example.com"))])
         = Ok (Customer.model_dump c).
Proof.
  split.
  - assert (Hin : In (u "refund_amount")
                     [u "success"; u "order_id"; u "refund_amount"; u "cancellable"])
      by (right; right; left; reflexivity).
    exact (proj1 (proj2 (proj2 (proj2 (order_fallbacks_follow_the_backend
                                  (H := reference.runtime) reference.store
                                  [(u "order_id", VStr (u "ord-004"))]))))
                 (u "refund_amount") Hin).
  - destruct (nth_error (mock_data.customers reference.store) 2) as [c|] eqn:Ec;
      [|vm_compute in Ec; discriminate Ec].
    exists c.
    assert (Hne : u "mehmet.demir@example.com" <> [])
      by (intros E'; vm_compute in E'; discriminate E').
    assert (E : mock_data.get_customer_by_email (H := reference.runtime)
                  reference.store (VStr (u "mehmet.demir@example.com"))
                = Ok (Some c)).
    { rewrite <- Ec. vm_compute. reflexivity. }
    exact (proj2 (proj2 (proj2 (proj2 (order_fallbacks_follow_the_backend
                                  (H := reference.runtime) reference.store
                                  [(u "email", VStr (u "mehmet.demir@example.com"))]))))
                 (u "mehmet.demir@example.com") c eq_refl Hne E).
Defined.

(* ------------------------------------------------------------------------- *)
(** ** From a listing to the details *)
(* ------------------------------------------------------------------------- *)

Lemma find_first {A} (f : A -> bool) (l : list A) (x : A) :
  In x l -> f x = true -> exists y, find f l = Some y /\ In y l /\ f y = true.
Proof.
  intros Hin Hx. destruct (find f l) as [y|] eqn:E.
  - exists y. apply find_some in E as [Hy Hf]. now split.
  - apply (find_none _ _ E) in Hin. rewrite Hx in Hin. discriminate Hin.
Qed.

Lemma slice_to_incl {A} (n : pyval) (l r : list A) :
  slice_to n l = Ok r -> incl r l.
Proof.
  assert (Hf : forall k, incl (firstn k l) l).
  { intros k x Hx. rewrite <- (firstn_skipn k l). apply in_or_app. now left. }
  unfold slice_to. destruct n; try discriminate; intros [= <-];
    try (destruct (0 <=? _)%Z; apply Hf).
  intros x Hx. exact Hx.
Qed.

Section Composition.
Context `{PyRuntime}.
Import mock_data mcp_server.

Lemma stored_can_be_looked_up (st : Store) (p : Product.t) :
  In p (products st) -> can_be_looked_up st p.
Proof.
  intros Hin.
  destruct (find_first (fun q => str_eq_value (Product.id q) (VStr (Product.id p)))
                       (products st) p Hin (str_eqb_refl _))
    as (stored & Ef & Hs & Hid).
  exists stored. split; [exact Hs|]. split; [now apply str_eqb_eq in Hid|].
  rewrite dispatch_get_product_details. cbn [fst].
  unfold get_product_details_tool.
  assert (E : dict_getitem (u "product_id") [(u "product_id", VStr (Product.id p))]
              = Ok (VStr (Product.id p))) by reflexivity.
  rewrite E, bind_ok. unfold get_product_by_id. now rewrite Ef.
Qed.

Lemma recommendations_payload_incl (l : list Product.t) (limit payload : pyval) :
  recommendations_payload l limit = Ok payload ->
  exists shown,
    payload = VDict [ (u "recommendations", VList (map _product_summary shown)) ]
    /\ incl shown l.
Proof.
  unfold recommendations_payload. intros E.
  apply bind_inv in E as (shown & Es & E). injection E as <-.
  exists shown. split; [reflexivity | exact (slice_to_incl _ _ _ Es)].
Qed.

Lemma sorted_incl (f : Product.t -> bool) (st : Store) :
  incl (sort_by_rating_desc (filter f (products st))) (products st).
Proof.
  intros p Hp.
  apply (Permutation_in p (Permutation_sym (sort_by_rating_desc_perm _))) in Hp.
  now apply filter_In in Hp.
Qed.

Lemma recommendations_from_the_store (st : Store) (args : pydict) (payload : pyval) :
  get_recommendations_tool st args = Ok payload ->
  exists shown,
    payload = VDict [ (u "recommendations", VList (map _product_summary shown)) ]
    /\ incl shown (products st).
Proof.
  unfold get_recommendations_tool. cbv zeta. intros E.
  assert (G : forall f,
             recommendations_payload (sort_by_rating_desc (filter f (products st)))
               (dict_get_default (u "limit") (VInt 4) args) = Ok payload ->
             exists shown,
               payload = VDict [ (u "recommendations",
                                  VList (map _product_summary shown)) ]
               /\ incl shown (products st)).
  { intros f Ef. apply recommendations_payload_incl in Ef as (shown & -> & Hs).
    exists shown. split; [reflexivity|].
    intros p Hp. exact (sorted_incl f st p (Hs p Hp)). }
  assert (Gtop : recommendations_payload (sort_by_rating_desc (products st))
                   (dict_get_default (u "limit") (VInt 4) args) = Ok payload ->
                 exists shown,
                   payload = VDict [ (u "recommendations",
                                      VList (map _product_summary shown)) ]
                   /\ incl shown (products st)).
  { intros Ef. apply (G (fun _ => true)). now rewrite filter_all. }
  destruct (truthy (dict_get (u "product_id") args));
    [destruct (get_product_by_id st _); [exact (G _ E)|]|];
    (destruct (truthy (dict_get (u "category") args)); [|exact (Gtop E)]);
    (destruct (ProductCategory.of_value _) as [c|[]];
     try discriminate E; [exact (G _ E) | exact (Gtop E)]).
Qed.

(** X21 ([_dispatch_tool], branches [search_products],
[get_products_by_category], [get_recommendations], [get_customer_orders]
against [get_product_details] and [get_order_status]): what a listing shows
can be looked up.  Every product that a search, a category listing or a
recommendation shows is a stored product, and [get_product_details] called
with the id shown answers with the dump of a stored product with that id,
never with "not found"; every order that [get_customer_orders] shows can be
fetched by [get_order_status] with the id shown. *)
Theorem listings_can_be_looked_up (st : Store) (args : pydict) (payload : pyval) :
  (fst (_dispatch_tool st (u "search_products") args) = Ok payload ->
   exists l, lists_products payload (u "products") l
             /\ forall p, In p l -> In p (products st) /\ can_be_looked_up st p)
  /\ (fst (_dispatch_tool st (u "get_products_by_category") args) = Ok payload ->
      (exists msg, payload = error_payload msg)
      \/ exists l, lists_products payload (u "products") l
                   /\ forall p, In p l -> In p (products st) /\ can_be_looked_up st p)
  /\ (fst (_dispatch_tool st (u "get_recommendations") args) = Ok payload ->
      exists l, lists_products payload (u "recommendations") l
                /\ forall p, In p l -> In p (products st) /\ can_be_looked_up st p)
  /\ (fst (_dispatch_tool st (u "get_customer_orders") args) = Ok payload ->
      (exists msg, payload = error_payload msg)
      \/ exists l,
          dict_lookup (u "orders") (fields payload)
          = Some (VList (map customer_order_summary l))
          /\ forall o,
              In o l ->
              In o (orders st)
              /\ exists stored,
                  In stored (orders st)
                  /\ Order.id stored = Order.id o
                  /\ fst (_dispatch_tool st (u "get_order_status")
                            [(u "order_id", VStr (Order.id o))])
                     = Ok (order_status_payload stored)).
Proof.
  split; [|split; [|split]].
  - rewrite dispatch_search_products. cbn [fst]. intros E.
    assert (Hq : exists q, dict_lookup (u "query") args = Some (VStr q)).
    { unfold search_products_tool, dict_getitem in E.
      destruct (dict_lookup (u "query") args) as [[]|]; try discriminate E.
      now eexists. }
    destruct Hq as [q Hq].
    destruct (search_products_tool_shape st args q payload Hq E)
      as (results & -> & Hin).
    exists results. split; [reflexivity|]. intros p Hp.
    apply Hin, filter_In in Hp as [Hp _].
    split; [exact Hp | exact (stored_can_be_looked_up st p Hp)].
  - rewrite dispatch_get_products_by_category. cbn [fst].
    unfold get_products_by_category_tool. intros E.
    apply bind_inv in E as (category & _ & E).
    destruct (ProductCategory.of_value category) as [cat|[]]; try discriminate E;
      injection E as <-; [right | left; eexists; reflexivity].
    eexists. split; [reflexivity|]. intros p Hp.
    apply filter_In in Hp as [Hp _].
    split; [exact Hp | exact (stored_can_be_looked_up st p Hp)].
  - rewrite dispatch_get_recommendations. cbn [fst]. intros E.
    destruct (recommendations_from_the_store st args payload E) as (shown & -> & Hs).
    exists shown. split; [reflexivity|]. intros p Hp.
    split; [exact (Hs p Hp) | exact (stored_can_be_looked_up st p (Hs p Hp))].
  - rewrite dispatch_get_customer_orders. cbn [fst].
    unfold get_customer_orders_tool. intros E.
    apply bind_inv in E as ([found|] & Ef & E); injection E as <-;
      [right | left; eexists; reflexivity].
    exists found. split; [reflexivity|]. intros o Ho.
    assert (Hin : In o (orders st)).
    { destruct (truthy (dict_get (u "email") args)).
      - apply bind_inv in Ef as (r & Er & Ef). injection Ef as <-.
        exact (filter_r_incl _ _ _ Er o Ho).
      - destruct (truthy (dict_get (u "customer_id") args)); [|discriminate Ef].
        injection Ef as <-. now apply filter_In in Ho. }
    split; [exact Hin|].
    destruct (find_first (fun q => str_eq_value (Order.id q) (VStr (Order.id o)))
                         (orders st) o Hin (str_eqb_refl _))
      as (stored & Efind & Hs & Hid).
    exists stored. split; [exact Hs|]. split; [now apply str_eqb_eq in Hid|].
    rewrite dispatch_get_order_status. cbn [fst]. unfold get_order_status_tool.
    assert (Eg : dict_getitem (u "order_id") [(u "order_id", VStr (Order.id o))]
                 = Ok (VStr (Order.id o))) by reflexivity.
    rewrite Eg, bind_ok. unfold get_order_by_id. now rewrite Efind.
Qed.
End Composition.

(** A search on the store of [mock_data]. *)
Lemma listings_can_be_looked_up_witness :
  exists payload l,
    fst (mcp_server._dispatch_tool (H := reference.runtime) reference.store
           (u "search_products") [(u "query", VStr (u "sony"))]) = Ok payload
    /\ lists_products (H := reference.runtime) payload (u "products") l
    /\ forall p, In p l ->
                 In p (mock_data.products reference.store)
                 /\ can_be_looked_up (H := reference.runtime) reference.store p.
Proof.
  destruct (search_products_tool_total (H := reference.runtime) reference.store
              [(u "query", VStr (u "sony"))] (u "sony") eq_refl) as [payload E].
  { split; intros Et; vm_compute in Et; discriminate Et. }
  assert (Ed : fst (mcp_server._dispatch_tool (H := reference.runtime) reference.store
                      (u "search_products") [(u "query", VStr (u "sony"))])
               = Ok payload).
  { rewrite dispatch_search_products. exact E. }
  destruct (proj1 (listings_can_be_looked_up (H := reference.runtime) reference.store
                     [(u "query", VStr (u "sony"))] payload) Ed) as (l & Hl & Hp).
  exists payload, l. split; [exact Ed|]. split; [exact Hl | exact Hp].
Defined.

(* ------------------------------------------------------------------------- *)
(** ** What the schemas promise about values *)
(* ------------------------------------------------------------------------- *)

Lemma category_values_spec (v : pyval) :
  In v (enum_values (Some mcp_server_api.category_values))
  <-> exists cat, v = VStr (ProductCategory.value cat).
Proof.
  unfold mcp_server_api.category_values. cbn [enum_values].
  rewrite in_map_iff. split.
  - intros (cat & <- & _). now exists cat.
  - intros (cat & ->). exists cat. split; [reflexivity|].
    destruct cat; cbn; tauto.
Qed.

Section Schemas.
Context `{PyRuntime}.
Import mock_data mcp_server.

Lemma search_unknown_category (st : Store) (args : pydict) (q : str) :
  dict_lookup (u "query") args = Some (VStr q) ->
  truthy (dict_get (u "category") args) = true ->
  (forall cat, dict_get (u "category") args <> VStr (ProductCategory.value cat)) ->
  search_products_tool st args
  = Ok (VDict [ (u "products", VList []); (u "total", VInt 0);
                (u "query", VStr q) ]).
Proof.
  intros Hq Ht Hnot. unfold search_products_tool.
  destruct (dict_getitem_lookup _ _ _ Hq) as [-> _].
  rewrite bind_ok, search_products_filter, bind_ok, Ht.
  rewrite filter_none.
  - rewrite bind_ok.
    destruct (truthy (dict_get (u "max_price") args)); cbn [filter_r bind];
      destruct (truthy (dict_get (u "min_rating") args)); cbn [filter_r bind];
        destruct (truthy (dict_get (u "in_stock_only") args)); reflexivity.
  - intros p _.
    destruct (str_eq_value _ (dict_get (u "category") args)) eqn:E; [|reflexivity].
    apply str_eq_value_spec in E. now contradiction (Hnot (Product.category p)).
Qed.

(** X22 ([list_tools] against [_dispatch_tool]): what the schemas promise
about values.  The [enum] advertised for [category], by [search_products]
and by [get_products_by_category], lists exactly the values of
[ProductCategory]; [get_products_by_category] answers with a listing
exactly for these values; a text search with another category finds
nothing, and reports no error.  The [default] advertised for [limit] is the
one [get_recommendations] applies: a call without [limit] is answered as the
same call with the advertised default. *)
Theorem advertised_values_are_honoured (st : Store) (args : pydict) :
  (forall tool,
      In tool mcp_server_api.list_tools ->
      mcp_server_api.name tool = u "search_products"
      \/ mcp_server_api.name tool = u "get_products_by_category" ->
      schema_property tool (u "category") (u "enum")
      = Some mcp_server_api.category_values)
  /\ (forall v,
         In v (enum_values (Some mcp_server_api.category_values))
         <-> exists cat, v = VStr (ProductCategory.value cat))
  /\ (forall category,
         dict_lookup (u "category") args = Some category ->
         (In category (enum_values (Some mcp_server_api.category_values))
          <-> exists listed,
             fst (_dispatch_tool st (u "get_products_by_category") args)
             = Ok (VDict [ (u "products", VList (map _product_summary listed));
                           (u "category", category) ])))
  /\ (forall q,
         dict_lookup (u "query") args = Some (VStr q) ->
         truthy (dict_get (u "category") args) = true ->
         ~ In (dict_get (u "category") args)
              (enum_values (Some mcp_server_api.category_values)) ->
         fst (_dispatch_tool st (u "search_products") args)
         = Ok (VDict [ (u "products", VList []); (u "total", VInt 0);
                       (u "query", VStr q) ]))
  /\ (forall tool,
         In tool mcp_server_api.list_tools ->
         mcp_server_api.name tool = u "get_recommendations" ->
         schema_property tool (u "limit") (u "default") = Some (VInt 4))
  /\ (dict_lookup (u "limit") args = None ->
      fst (_dispatch_tool st (u "get_recommendations") args)
      = fst (_dispatch_tool st (u "get_recommendations")
               ((u "limit", VInt 4) :: args))).
Proof.
  split; [|split; [exact category_values_spec|split; [|split; [|split]]]].
  - intros tool Hin Hname. cbn [mcp_server_api.list_tools In] in Hin.
    decompose [or] Hin; try contradiction; subst tool;
      try reflexivity; destruct Hname as [E|E]; vm_compute in E; discriminate E.
  - intros category Hc. rewrite category_values_spec.
    destruct (dict_getitem_lookup _ _ _ Hc) as [Hget _].
    rewrite dispatch_get_products_by_category. cbn [fst].
    unfold get_products_by_category_tool. rewrite Hget, bind_ok. split.
    + intros (cat & ->). rewrite category_of_value_ok. eexists; reflexivity.
    + intros (listed & E).
      destruct (ProductCategory.of_value category) as [cat|[]] eqn:Eof;
        try discriminate E.
      exists cat. now apply category_of_value.
  - intros q Hq Ht Hnot. rewrite dispatch_search_products. cbn [fst].
    apply (search_unknown_category st args q Hq Ht).
    intros cat E. apply Hnot, category_values_spec. now exists cat.
  - intros tool Hin Hname. cbn [mcp_server_api.list_tools In] in Hin.
    decompose [or] Hin; try contradiction; subst tool;
      try reflexivity; vm_compute in Hname; discriminate Hname.
  - intros Hl. rewrite !dispatch_get_recommendations. cbn [fst].
    unfold get_recommendations_tool, dict_get_default.
    assert (E1 : dict_lookup (u "limit") ((u "limit", VInt 4) :: args)
                 = Some (VInt 4)) by reflexivity.
    assert (E2 : dict_get (u "product_id") ((u "limit", VInt 4) :: args)
                 = dict_get (u "product_id") args) by reflexivity.
    assert (E3 : dict_get (u "category") ((u "limit", VInt 4) :: args)
                 = dict_get (u "category") args) by reflexivity.
    rewrite Hl, E1, E2, E3. reflexivity.
Qed.
End Schemas.

(** A category written in capitals, which the schema does not list. *)
Lemma advertised_values_are_honoured_witness :
  fst (mcp_server._dispatch_tool (H := reference.runtime) reference.store
         (u "search_products")
         [(u "query", VStr (u "a")); (u "category", VStr (u "BOOKS"))])
  = Ok (VDict [ (u "products", VList []); (u "total", VInt 0);
                (u "query", VStr (u "a")) ])
  /\ fst (mcp_server._dispatch_tool (H := reference.runtime) reference.store
            (u "get_recommendations") [(u "category", VStr (u "books"))])
     = fst (mcp_server._dispatch_tool (H := reference.runtime) reference.store
              (u "get_recommendations")
              [(u "limit", VInt 4); (u "category", VStr (u "books"))]).
Proof.
  split.
  - assert (Ht : truthy (dict_get (u "category")
                           [(u "query", VStr (u "a")); (u "category", VStr (u "BOOKS"))])
                 = true) by (vm_compute; reflexivity).
    assert (Hnot : ~ In (dict_get (u "category")
                           [(u "query", VStr (u "a"));
                            (u "category", VStr (u "BOOKS"))])
                        (enum_values (Some mcp_server_api.category_values))).
    { intros Hin. vm_compute in Hin.
      repeat (destruct Hin as [Hin|Hin]; [discriminate Hin|]). exact Hin. }
    exact (proj1 (proj2 (proj2 (proj2 (advertised_values_are_honoured
                                         (H := reference.runtime) reference.store
                                         [(u "query", VStr (u "a"));
                                          (u "category", VStr (u "BOOKS"))]))))
                 (u "a") eq_refl Ht Hnot).
  - exact (proj2 (proj2 (proj2 (proj2 (proj2 (advertised_values_are_honoured
                                                (H := reference.runtime)
                                                reference.store
                                                [(u "category", VStr (u "books"))])))))
                 eq_refl).
Defined.
